(** * Event ingestion pipeline of the webhook processor (src/eventProcessor.ts)

    A shallow embedding of the persistence-facing part of the event
    processor: retry classification, pull-request upsert and state mapping,
    the points ledger, user levelling, account-id resolution, pull-request
    file replacement, commit linking and the user registrar.

    The ORM handle [prisma] is modelled as an explicit store [DB] threaded
    through a state-and-exception monad: every [await prisma.x.y(...)] of the
    source is one monadic step, a rejected promise is [Throw], and a
    [try { } catch { }] block is [tryCatch].  Writes that happened before a
    throw stay in the store, as the source wraps nothing in a transaction.

    The schema is not among the sources.  A relation the source writes with
    [connect] is checked (the target row must exist), a foreign key written
    as a plain column is not; rows are keyed by their [id], and [create] on
    a taken id is rejected.  Log lines are not modelled. *)

From stdpp Require Import gmap strings list fin_maps pretty.
From Stdlib Require Import QArith Qround.
Close Scope Q_scope.
Open Scope string_scope.
Open Scope Z_scope.

(** ** JavaScript strings *)

Module Js.

(** [s.startsWith(p)] *)
Fixpoint startsWith (s p : string) : bool :=
  match p, s with
  | EmptyString, _ => true
  | String _ _, EmptyString => false
  | String a p', String b s' => if Ascii.eqb a b then startsWith s' p' else false
  end.

(** [s.includes(needle)]: some suffix of [s] starts with [needle]. *)
Fixpoint includes (s needle : string) : bool :=
  startsWith s needle ||
  match s with
  | EmptyString => false
  | String _ s' => includes s' needle
  end.

(** The declarative reading of "contains": [needle] occurs somewhere
    inside [s]. *)
Definition contains (s needle : string) : Prop :=
  exists pre post : string, s = pre ++ needle ++ post.

(** Truthiness of a string-valued expression in a condition or under [||]. *)
Definition truthy_string (s : string) : bool :=
  match s with EmptyString => false | _ => true end.

(** Truthiness of a number. *)
Definition truthy_number (n : Z) : bool := negb (n =? 0).

(** [n.toString()] for an integer. *)
Definition toString (n : Z) : string := pretty n.

End Js.

(** ** Retry classification *)

(** The value caught by [processEvent]: an [Error] carries a string
    [message]. *)
Record JsError := { message : string }.

Definition isRetryableError (error : JsError) : bool :=
  negb (Js.includes (message error) "not found") &&
  negb (Js.includes (message error) "invalid signature") &&
  negb (Js.includes (message error) "already exists").

(** ** Pull-request state *)

Inductive PRState := OPEN | CLOSED | MERGED.

#[global] Instance PRState_eq_dec : EqDecision PRState.
Proof. solve_decision. Defined.

Definition mapPRState (state : string) (merged : bool) : PRState :=
  if merged then MERGED
  else if String.eqb state "open" then OPEN else CLOSED.

(** ** The persisted entities *)

Inductive AccountType := ORGANIZATION | PERSONAL.

Record Account := mkAccount {
  account_name : string;
  account_type : AccountType;
  account_installationId : string
}.

Record Repository := mkRepository {
  repo_name : string;
  repo_fullName : string;
  repo_accountId : string
}.

Record User := mkUser {
  user_login : string;
  user_email : option string;
  user_name : option string;
  user_accountId : string;
  user_points : Z;
  user_level : Z
}.

(** A [UserOrganization] row, keyed by the pair [(userId, accountId)]. *)
Record Membership := mkMembership { membership_role : string }.

(** Timestamps are milliseconds since the epoch; [overallScore] is a
    rational standing for the stored float. *)
Record PullRequest := mkPullRequest {
  pr_number : Z;
  pr_title : string;
  pr_description : option string;
  pr_repositoryId : string;
  pr_authorId : string;
  pr_state : PRState;
  pr_additions : Z;
  pr_deletions : Z;
  pr_changedFiles : Z;
  pr_reviewerIds : list string;
  pr_firstCommitAt : option Z;
  pr_mergedAt : option Z;
  pr_closedAt : option Z;
  pr_overallScore : option Q;
  pr_pointsAwarded : option Z
}.

Record Commit := mkCommit {
  commit_sha : string;
  commit_message : string;
  commit_authorId : string;
  commit_repositoryId : string;
  commit_committedAt : Z
}.

Record PullRequestFile := mkPullRequestFile {
  file_pullRequestId : string;
  file_filename : string;
  file_status : string;
  file_additions : Z;
  file_deletions : Z;
  file_changes : Z;
  file_patch : option string
}.

Record PointTransaction := mkPointTransaction {
  tx_userId : string;
  tx_accountId : string;
  tx_amount : Z;
  tx_reason : string;
  tx_referenceId : string;
  tx_referenceType : string
}.

(** The store behind [prisma]: one finite map per table keyed by the row id,
    the many-to-many commit/pull-request relation as a set of
    [(pullRequestId, commitId)] pairs, and the two id-less tables as lists
    in insertion order. *)
Record DB := mkDB {
  accounts : gmap string Account;
  repositories : gmap string Repository;
  users : gmap string User;
  userOrganizations : gmap (string * string) Membership;
  pullRequests : gmap string PullRequest;
  commits : gmap string Commit;
  prCommits : gset (string * string);
  pullRequestFiles : list PullRequestFile;
  pointTransactions : list PointTransaction
}.

Definition emptyDB : DB :=
  mkDB ∅ ∅ ∅ ∅ ∅ ∅ ∅ [] [].

Definition set_accounts (f : gmap string Account -> gmap string Account) (db : DB) : DB :=
  mkDB (f (accounts db)) (repositories db) (users db) (userOrganizations db)
       (pullRequests db) (commits db) (prCommits db) (pullRequestFiles db)
       (pointTransactions db).

Definition set_users (f : gmap string User -> gmap string User) (db : DB) : DB :=
  mkDB (accounts db) (repositories db) (f (users db)) (userOrganizations db)
       (pullRequests db) (commits db) (prCommits db) (pullRequestFiles db)
       (pointTransactions db).

Definition set_userOrganizations
    (f : gmap (string * string) Membership -> gmap (string * string) Membership)
    (db : DB) : DB :=
  mkDB (accounts db) (repositories db) (users db) (f (userOrganizations db))
       (pullRequests db) (commits db) (prCommits db) (pullRequestFiles db)
       (pointTransactions db).

Definition set_pullRequests
    (f : gmap string PullRequest -> gmap string PullRequest) (db : DB) : DB :=
  mkDB (accounts db) (repositories db) (users db) (userOrganizations db)
       (f (pullRequests db)) (commits db) (prCommits db) (pullRequestFiles db)
       (pointTransactions db).

Definition set_commits (f : gmap string Commit -> gmap string Commit) (db : DB) : DB :=
  mkDB (accounts db) (repositories db) (users db) (userOrganizations db)
       (pullRequests db) (f (commits db)) (prCommits db) (pullRequestFiles db)
       (pointTransactions db).

Definition set_prCommits (f : gset (string * string) -> gset (string * string))
    (db : DB) : DB :=
  mkDB (accounts db) (repositories db) (users db) (userOrganizations db)
       (pullRequests db) (commits db) (f (prCommits db)) (pullRequestFiles db)
       (pointTransactions db).

Definition set_pullRequestFiles
    (f : list PullRequestFile -> list PullRequestFile) (db : DB) : DB :=
  mkDB (accounts db) (repositories db) (users db) (userOrganizations db)
       (pullRequests db) (commits db) (prCommits db) (f (pullRequestFiles db))
       (pointTransactions db).

Definition set_pointTransactions
    (f : list PointTransaction -> list PointTransaction) (db : DB) : DB :=
  mkDB (accounts db) (repositories db) (users db) (userOrganizations db)
       (pullRequests db) (commits db) (prCommits db) (pullRequestFiles db)
       (f (pointTransactions db)).

(** ** Promises over the store *)

Inductive Exn :=
| TypeError            (* property access on [undefined] or [null] *)
| RecordNotFound       (* update or connect of a row that does not exist *)
| UniqueConstraint     (* create of a row whose key is taken *)
| CapabilityError.     (* an external capability (encryption, GitHub) failed *)

Inductive Outcome (A : Type) :=
| Ok (a : A)
| Throw (e : Exn).
Arguments Ok {A} a.
Arguments Throw {A} e.

(** An [async] computation: it runs on a store and leaves a store, also
    when it rejects. *)
Definition Prisma (A : Type) : Type := DB -> Outcome A * DB.

Definition ret {A} (a : A) : Prisma A := fun db => (Ok a, db).

Definition throw {A} (e : Exn) : Prisma A := fun db => (Throw e, db).

Definition bind {A B} (m : Prisma A) (k : A -> Prisma B) : Prisma B :=
  fun db =>
    match m db with
    | (Ok a, db') => k a db'
    | (Throw e, db') => (Throw e, db')
    end.

Definition tryCatch {A} (m : Prisma A) (handler : Exn -> Prisma A) : Prisma A :=
  fun db =>
    match m db with
    | (Ok a, db') => (Ok a, db')
    | (Throw e, db') => handler e db'
    end.

Definition gets {A} (f : DB -> A) : Prisma A := fun db => (Ok (f db), db).

Definition modify (f : DB -> DB) : Prisma unit := fun db => (Ok tt, f db).

Definition liftOutcome {A} (o : Outcome A) : Prisma A := fun db => (o, db).

Notation "'let!' x ':=' m 'in' k" := (bind m (fun x => k))
  (at level 10, x name, m at level 100, k at level 200).
Notation "m ';;;' k" := (bind m (fun _ => k))
  (at level 100, k at level 200, right associativity).

(** The store a computation leaves, and its outcome. *)
Definition exec {A} (m : Prisma A) (db : DB) : DB := snd (m db).
Definition outcome {A} (m : Prisma A) (db : DB) : Outcome A := fst (m db).

(** [for (const x of xs) { body }] *)
Fixpoint forOf {A} (xs : list A) (body : A -> Prisma unit) : Prisma unit :=
  match xs with
  | [] => ret tt
  | x :: xs' => body x ;;; forOf xs' body
  end.

(** ** The ORM operations the processor uses *)

Module prisma.

Definition account_findUnique (id : string) : Prisma (option Account) :=
  gets (fun db => accounts db !! id).

Definition account_create (id : string) (a : Account) : Prisma unit :=
  let! existing := account_findUnique id in
  match existing with
  | Some _ => throw UniqueConstraint
  | None => modify (set_accounts (insert id a))
  end.

Definition user_findUnique (id : string) : Prisma (option User) :=
  gets (fun db => users db !! id).

(** [findFirst] without [orderBy]: the first row, in the table's iteration
    order, that satisfies the filter. *)
Definition user_findFirst (p : string -> User -> bool) : Prisma (option (string * User)) :=
  gets (fun db => List.find (fun '(id, u) => p id u) (map_to_list (users db))).

Definition user_create (id : string) (u : User) : Prisma unit :=
  let! existing := user_findUnique id in
  match existing with
  | Some _ => throw UniqueConstraint
  | None => modify (set_users (insert id u))
  end.

(** [user.update({ where, data })]: [where] is the id together with an
    optional further filter on the row; no matching row rejects. *)
Definition user_update (id : string) (filter : User -> bool) (f : User -> User)
    : Prisma unit :=
  let! existing := user_findUnique id in
  match existing with
  | Some u =>
      if filter u then modify (set_users (insert id (f u)))
      else throw RecordNotFound
  | None => throw RecordNotFound
  end.

Definition incrementPoints (n : Z) (u : User) : User :=
  mkUser (user_login u) (user_email u) (user_name u) (user_accountId u)
         (user_points u + n) (user_level u).

Definition setLevel (l : Z) (u : User) : User :=
  mkUser (user_login u) (user_email u) (user_name u) (user_accountId u)
         (user_points u) l.

Definition userOrganization_findUnique (userId accountId : string)
    : Prisma (option Membership) :=
  gets (fun db => userOrganizations db !! (userId, accountId)).

Definition userOrganization_create (userId accountId : string) (m : Membership)
    : Prisma unit :=
  let! existing := userOrganization_findUnique userId accountId in
  match existing with
  | Some _ => throw UniqueConstraint
  | None => modify (set_userOrganizations (insert (userId, accountId) m))
  end.

Definition repository_findUnique (id : string) : Prisma (option Repository) :=
  gets (fun db => repositories db !! id).

Definition pullRequest_findUnique (id : string) : Prisma (option PullRequest) :=
  gets (fun db => pullRequests db !! id).

Definition pullRequest_update (id : string) (f : PullRequest -> PullRequest)
    : Prisma unit :=
  let! existing := pullRequest_findUnique id in
  match existing with
  | Some pr => modify (set_pullRequests (insert id (f pr)))
  | None => throw RecordNotFound
  end.

(** [upsert]: update the row when the id exists, create it otherwise; the
    resulting row is returned. *)
Definition pullRequest_upsert (id : string) (update : PullRequest -> PullRequest)
    (create : PullRequest) : Prisma PullRequest :=
  let! existing := pullRequest_findUnique id in
  let row := match existing with Some pr => update pr | None => create end in
  modify (set_pullRequests (insert id row)) ;;;
  ret row.

(** [pointTransaction.create] with [account: { connect: { id } }]: the
    account must exist. *)
Definition pointTransaction_create (tx : PointTransaction) : Prisma unit :=
  let! acct := account_findUnique (tx_accountId tx) in
  match acct with
  | None => throw RecordNotFound
  | Some _ => modify (set_pointTransactions (fun l => (l ++ [tx])%list))
  end.

Definition pullRequestFile_deleteMany (prId : string) : Prisma unit :=
  modify (set_pullRequestFiles
            (List.filter (fun r => negb (String.eqb (file_pullRequestId r) prId)))).

Definition pullRequestFile_create (row : PullRequestFile) : Prisma unit :=
  modify (set_pullRequestFiles (fun l => (l ++ [row])%list)).

End prisma.

(** ** Webhook payloads and account-id resolution *)

(** An object of which the processor reads the numeric [id] only
    ([organization], [sender], [repository.owner], [installation.account]). *)
Record WithId := mkWithId { id : option Z }.

Record InstallationPayload := mkInstallationPayload {
  installation_id : option Z;
  installation_account : option WithId
}.

Record RepositoryPayload := mkRepositoryPayload {
  repository_id : Z;
  repository_full_name : string;
  repository_owner : option WithId
}.

Record IssuePayload := mkIssuePayload {
  issue_pull_request : option string   (* the pull request url, when the issue is one *)
}.

Record Payload := mkPayload {
  payload_action : string;
  payload_installation : option InstallationPayload;
  payload_organization : option WithId;
  payload_repository : option RepositoryPayload;
  payload_sender : option WithId;
  payload_pull_request : option WithId;
  payload_review : option WithId;
  payload_issue : option IssuePayload
}.

(** [x && x.id] in a condition: the object is there and its id is truthy. *)
Definition present (x : option WithId) : option Z :=
  match x with
  | Some o =>
      match id o with
      | Some n => if Js.truthy_number n then Some n else None
      | None => None
      end
  | None => None
  end.

(** [payload.installation && payload.installation.account &&
    payload.installation.account.id] *)
Definition installationAccount (p : Payload) : option Z :=
  match payload_installation p with
  | Some inst => present (installation_account inst)
  | None => None
  end.

(** How the prologue of a handler ends: it returns early (payload
    rejected, event ignored, or no account id found, each with its log
    line) or goes on with an account id. *)
Inductive Resolution :=
| InvalidPayload
| Ignored
| NoAccountId
| AccountId (accountId : string).

(** The four-way chain of lines 200-217, 553-570 and 1006-1023, run on a
    repository object that is known to be there. *)
Definition resolveWithInstallation (p : Payload) (repository : RepositoryPayload)
    : Resolution :=
  match installationAccount p with
  | Some n => AccountId (Js.toString n)
  | None =>
      match present (payload_organization p) with
      | Some n => AccountId (Js.toString n)
      | None =>
          match present (repository_owner repository) with
          | Some n => AccountId (Js.toString n)
          | None =>
              match present (payload_sender p) with
              | Some n => AccountId (Js.toString n)
              | None => NoAccountId
              end
          end
      end
  end.

(** [handlePullRequestEvent], lines 190-217.  The payload is an object; a
    missing [pull_request] or [repository] ends the handler at once. *)
Definition handlePullRequestEvent_accountId (p : Payload) : Outcome Resolution :=
  match payload_pull_request p, payload_repository p with
  | Some _, Some repository => Ok (resolveWithInstallation p repository)
  | _, _ => Ok InvalidPayload
  end.

(** [handleReviewEvent], lines 544-570. *)
Definition handleReviewEvent_accountId (p : Payload) : Outcome Resolution :=
  match payload_review p, payload_pull_request p, payload_repository p with
  | Some _, Some _, Some repository => Ok (resolveWithInstallation p repository)
  | _, _, _ => Ok InvalidPayload
  end.

(** [handlePushEvent], lines 640-661: the chain starts at
    [payload.organization]. *)
Definition handlePushEvent_accountId (p : Payload) : Outcome Resolution :=
  match payload_repository p with
  | None => Ok InvalidPayload
  | Some repository =>
      match present (payload_organization p) with
      | Some n => Ok (AccountId (Js.toString n))
      | None =>
          match present (repository_owner repository) with
          | Some n => Ok (AccountId (Js.toString n))
          | None =>
              match present (payload_sender p) with
              | Some n => Ok (AccountId (Js.toString n))
              | None => Ok NoAccountId
              end
          end
      end
  end.

(** [handleIssueCommentEvent], lines 991-1023.  Nothing checks that
    [payload.issue] or [payload.repository] is there before it is
    dereferenced. *)
Definition handleIssueCommentEvent_accountId (p : Payload) : Outcome Resolution :=
  match payload_issue p with
  | None => Throw TypeError
  | Some issue =>
      match issue_pull_request issue with
      | None => Ok Ignored
      | Some _ =>
          if negb (String.eqb (payload_action p) "created")
             && negb (String.eqb (payload_action p) "edited")
          then Ok Ignored
          else
            match installationAccount p with
            | Some n => Ok (AccountId (Js.toString n))
            | None =>
                match present (payload_organization p) with
                | Some n => Ok (AccountId (Js.toString n))
                | None =>
                    match payload_repository p with
                    | None => Throw TypeError
                    | Some repository =>
                        match present (repository_owner repository) with
                        | Some n => Ok (AccountId (Js.toString n))
                        | None =>
                            match present (payload_sender p) with
                            | Some n => Ok (AccountId (Js.toString n))
                            | None => Ok NoAccountId
                            end
                        end
                    end
                end
            end
      end
  end.

(** The precedence order the handlers are meant to share: the first value
    that is there, among installation account, organization, repository
    owner and sender. *)
Definition firstPresent (candidates : list (option Z)) : option Z :=
  List.fold_right (fun c rest => match c with Some n => Some n | None => rest end)
                  None candidates.

Definition precedence (p : Payload) (repository : RepositoryPayload) : list (option Z) :=
  [ installationAccount p;
    present (payload_organization p);
    present (repository_owner repository);
    present (payload_sender p) ].

(** ** User levels *)

(** [checkAndUpdateUserLevel], lines 1768-1784.  [Math.floor(points / 100)]
    on an integer column is the floor division of [Z]. *)
Definition checkAndUpdateUserLevel (userId accountId : string) : Prisma unit :=
  let! user := prisma.user_findUnique userId in
  match user with
  | None => ret tt
  | Some user =>
      let newLevel := user_points user / 100 + 1 in
      if newLevel >? user_level user
      then prisma.user_update userId (fun _ => true) (prisma.setLevel newLevel)
      else ret tt
  end.

(** ** The registrar *)

(** [ensureUserExists], lines 1134-1212.  The [catch] logs and rethrows. *)
Definition ensureUserExists (userId login accountId : string) : Prisma unit :=
  tryCatch
    (let! existingAccount := prisma.account_findUnique accountId in
     match existingAccount with
     | None => prisma.account_create accountId (mkAccount login ORGANIZATION "unknown")
     | Some _ => ret tt
     end ;;;
     let! user := prisma.user_findUnique userId in
     match user with
     | None =>
         prisma.user_create userId (mkUser login None None accountId 0 1) ;;;
         prisma.userOrganization_create userId accountId (mkMembership "member")
     | Some _ =>
         let! existingMembership := prisma.userOrganization_findUnique userId accountId in
         match existingMembership with
         | None => prisma.userOrganization_create userId accountId (mkMembership "member")
         | Some _ => ret tt
         end
     end)
    (fun error => throw error).

(** ** Pull-request upsert *)

(** The pull request object of the GitHub API, as far as it is read. *)
Record PrData := mkPrData {
  prData_id : Z;
  prData_number : Z;
  prData_title : string;
  prData_body : option string;
  prData_state : string;
  prData_merged : bool;
  prData_additions : Z;
  prData_deletions : Z;
  prData_changed_files : Z;
  prData_merged_at : option Z;
  prData_closed_at : option Z;
  prData_user_id : Z
}.

Definition setDescriptionAndStatus (state : PRState) (description : option string)
    (mergedAt closedAt : option Z) (pr : PullRequest) : PullRequest :=
  mkPullRequest (pr_number pr) (pr_title pr) description (pr_repositoryId pr)
    (pr_authorId pr) state (pr_additions pr) (pr_deletions pr) (pr_changedFiles pr)
    (pr_reviewerIds pr) (pr_firstCommitAt pr) mergedAt closedAt
    (pr_overallScore pr) (pr_pointsAwarded pr).

Definition setPointsAwarded (points : Z) (pr : PullRequest) : PullRequest :=
  mkPullRequest (pr_number pr) (pr_title pr) (pr_description pr) (pr_repositoryId pr)
    (pr_authorId pr) (pr_state pr) (pr_additions pr) (pr_deletions pr)
    (pr_changedFiles pr) (pr_reviewerIds pr) (pr_firstCommitAt pr) (pr_mergedAt pr)
    (pr_closedAt pr) (pr_overallScore pr) (Some points).

Definition setFirstCommitAt (t : Z) (pr : PullRequest) : PullRequest :=
  mkPullRequest (pr_number pr) (pr_title pr) (pr_description pr) (pr_repositoryId pr)
    (pr_authorId pr) (pr_state pr) (pr_additions pr) (pr_deletions pr)
    (pr_changedFiles pr) (pr_reviewerIds pr) (Some t) (pr_mergedAt pr)
    (pr_closedAt pr) (pr_overallScore pr) (pr_pointsAwarded pr).

Section Encryption.

(** The encryption capability of [@/utils/encryption]: [encryptContent] may
    throw, [isEncrypted] is a check on the text. *)
Variable encryptContent : string -> Outcome string.
Variable isEncrypted : string -> bool.

(** [storePullRequest], lines 1214-1259.  The description is processed
    before the [try] block is entered; the [catch] logs and rethrows. *)
Definition storePullRequest (prData : PrData) (accountId repoId : string)
    : Prisma PullRequest :=
  let description :=
    match prData_body prData with
    | Some body => if Js.truthy_string body then Some body else None
    | None => None
    end in
  let state := mapPRState (prData_state prData) (prData_merged prData) in
  let shouldEncrypt :=
    match state with CLOSED | MERGED => true | OPEN => false end in
  let! processedDescription :=
    match description with
    | Some text =>
        if shouldEncrypt && negb (isEncrypted text)
        then let! cipher := liftOutcome (encryptContent text) in ret (Some cipher)
        else ret description
    | None => ret description
    end in
  tryCatch
    (prisma.pullRequest_upsert (Js.toString (prData_id prData))
       (fun old =>
          mkPullRequest (pr_number old) (prData_title prData) processedDescription
            (pr_repositoryId old) (pr_authorId old) state
            (prData_additions prData) (prData_deletions prData)
            (prData_changed_files prData) (pr_reviewerIds old) (pr_firstCommitAt old)
            (prData_merged_at prData) (prData_closed_at prData)
            (pr_overallScore old) (pr_pointsAwarded old))
       (mkPullRequest (prData_number prData) (prData_title prData) processedDescription
          repoId (Js.toString (prData_user_id prData)) state
          (prData_additions prData) (prData_deletions prData)
          (prData_changed_files prData) [] None
          (prData_merged_at prData) (prData_closed_at prData) None None))
    (fun error => throw error).

(** [updatePullRequestStatus], lines 1266-1308.  Here the call of
    [encryptContent] has a [try] of its own that keeps the stored
    description when it throws. *)
Definition updatePullRequestStatus (prId : string) (state : PRState)
    (mergedAt : option Z) (closedAt : Z) : Prisma unit :=
  tryCatch
    (let! pr := prisma.pullRequest_findUnique prId in
     match pr with
     | None => ret tt
     | Some pr =>
         let! description :=
           match pr_description pr with
           | Some text =>
               if Js.truthy_string text && negb (isEncrypted text)
               then tryCatch
                      (let! cipher := liftOutcome (encryptContent text) in
                       ret (Some cipher))
                      (fun _ => ret (pr_description pr))
               else ret (pr_description pr)
           | None => ret (pr_description pr)
           end in
         prisma.pullRequest_update prId
           (setDescriptionAndStatus state description mergedAt (Some closedAt))
     end)
    (fun error => throw error).

End Encryption.

(** ** The points ledger *)

(** [!pr.overallScore]: the score is null or zero. *)
Definition falsyScore (score : option Q) : bool :=
  match score with
  | None => true
  | Some q => Qnum q =? 0
  end.

(** [Math.round]: the nearest integer, halves rounded up. *)
Definition Math_round (q : Q) : Z := Qfloor (Qplus q (1 # 2)).

(** [calculateAndAwardPoints], lines 1356-1422. *)
Definition calculateAndAwardPoints (prId : string) : Prisma unit :=
  let! pr := prisma.pullRequest_findUnique prId in
  match pr with
  | None => ret tt
  | Some pr =>
      match pr_overallScore pr with
      | None => ret tt
      | Some overallScore =>
          if falsyScore (Some overallScore) then ret tt
          else
            (* [include: { repository }]: [pr.repository.accountId] *)
            let! repository := prisma.repository_findUnique (pr_repositoryId pr) in
            match repository with
            | None => throw TypeError
            | Some repository =>
                let accountId := repo_accountId repository in
                let! userOrg :=
                  prisma.userOrganization_findUnique (pr_authorId pr) accountId in
                match userOrg with
                | None => ret tt
                | Some _ =>
                    let points := Math_round overallScore in
                    prisma.user_update (pr_authorId pr)
                      (fun u => String.eqb (user_accountId u) accountId)
                      (prisma.incrementPoints points) ;;;
                    prisma.pointTransaction_create
                      (mkPointTransaction (pr_authorId pr) accountId points
                         "pr_merged" prId "pullrequest") ;;;
                    prisma.pullRequest_update prId (setPointsAwarded points) ;;;
                    checkAndUpdateUserLevel (pr_authorId pr) accountId
                end
            end
      end
  end.

(** The [switch] of lines 1473-1479. *)
Definition reviewPoints (reviewState : string) : Z :=
  if String.eqb reviewState "APPROVED" then 10
  else if String.eqb reviewState "CHANGES_REQUESTED" then 15
  else if String.eqb reviewState "COMMENTED" then 5
  else 0.

(** [awardPointsForReview], lines 1471-1519. *)
Definition awardPointsForReview (userId prId reviewState : string) : Prisma unit :=
  let points := reviewPoints reviewState in
  if points >? 0 then
    let! pr := prisma.pullRequest_findUnique prId in
    match pr with
    | None => ret tt
    | Some pr =>
        (* [include: { repository: true }] *)
        let! repository := prisma.repository_findUnique (pr_repositoryId pr) in
        prisma.user_update userId (fun _ => true) (prisma.incrementPoints points) ;;;
        match repository with
        | None => throw TypeError
        | Some repository =>
            prisma.pointTransaction_create
              (mkPointTransaction userId (repo_accountId repository) points
                 "review_submitted" prId "pullrequest") ;;;
            checkAndUpdateUserLevel userId (repo_accountId repository)
        end
    end
  else ret tt.

(** ** Pull-request files *)

(** A file entry of the GitHub API. *)
Record GitHubFile := mkGitHubFile {
  filename : string;
  status : string;
  additions : Z;
  deletions : Z;
  changes : Z;
  patch : option string
}.

Definition fileRow (prId : string) (file : GitHubFile) : PullRequestFile :=
  mkPullRequestFile prId (filename file) (status file) (additions file)
    (deletions file) (changes file) (patch file).

(** [storePullRequestFiles], lines 1890-1923.  [files] is an array, so
    [!files || files.length === 0] is the test for the empty list; the
    [catch] logs and swallows. *)
Definition storePullRequestFiles (prId : string) (files : list GitHubFile)
    : Prisma unit :=
  tryCatch
    (match files with
     | [] => ret tt
     | _ :: _ =>
         prisma.pullRequestFile_deleteMany prId ;;;
         forOf files (fun file => prisma.pullRequestFile_create (fileRow prId file))
     end)
    (fun _ => ret tt).

(** ** Commit linking *)

(** [commitData.author] (a GitHub user) or [commitData.commit.author] (the
    git author), read through the same four fields. *)
Record AuthorData := mkAuthorData {
  author_id : option Z;
  author_login : option string;
  author_name : option string;
  author_email : option string
}.

Record GitAuthor := mkGitAuthor {
  git_name : option string;
  git_email : option string;
  git_date : Z
}.

(** An entry of [getPullRequestCommits]. *)
Record CommitData := mkCommitData {
  sha : string;
  author : option AuthorData;
  commit_message_of : string;      (* [commitData.commit.message] *)
  commit_author : option GitAuthor (* [commitData.commit.author] *)
}.

(** The GitHub capability, as far as the linker uses it. *)
Record GitHub := mkGitHub {
  getPullRequestCommits : string -> string -> Z -> Outcome (option (list CommitData))
}.

(** [a || b] on optional strings. *)
Definition orElse (a b : option string) : option string :=
  match a with
  | Some s => if Js.truthy_string s then Some s else b
  | None => b
  end.

Definition optionEqb (a : option string) (b : string) : bool :=
  match a with Some s => String.eqb s b | None => false end.

(** [commitData.author || commitData.commit?.author] *)
Definition authorDataOf (commitData : CommitData) : option AuthorData :=
  match author commitData with
  | Some a => Some a
  | None =>
      match commit_author commitData with
      | Some g => Some (mkAuthorData None None (git_name g) (git_email g))
      | None => None
      end
  end.

(** The [OR] filter of lines 458-464; a disjunct whose value is
    [undefined] selects no row. *)
Definition authorMatches (a : AuthorData) (userId : string) (u : User) : bool :=
  match author_id a with
  | Some n => String.eqb userId (Js.toString n)
  | None => false
  end
  || match orElse (author_login a) (author_name a) with
     | Some l => String.eqb (user_login u) l
     | None => false
     end
  || match author_email a with
     | Some e => Js.truthy_string e && optionEqb (user_email u) e
     | None => false
     end.

Definition commit_findFirst_bySha (sha : string) : Prisma (option (string * Commit)) :=
  gets (fun db =>
          List.find (fun '(cid, c) => String.eqb (commit_sha c) sha || String.eqb cid sha)
                    (map_to_list (commits db))).

(** The commits linked to a pull request. *)
Definition linkedCommits (prId : string) (db : DB) : list (string * Commit) :=
  List.filter (fun '(cid, _) => bool_decide ((prId, cid) ∈ prCommits db))
              (map_to_list (commits db)).

(** [orderBy: { committedAt: 'asc' }] followed by taking the first row. *)
Fixpoint earliest (l : list (string * Commit)) : option (string * Commit) :=
  match l with
  | [] => None
  | x :: l' =>
      match earliest l' with
      | Some y =>
          if commit_committedAt (snd x) <=? commit_committedAt (snd y)
          then Some x else Some y
      | None => Some x
      end
  end.

(** [pullRequest.update] with [commits: { connect: { id } }] *)
Definition pullRequest_connectCommit (prId commitId : string) : Prisma unit :=
  let! pr := prisma.pullRequest_findUnique prId in
  match pr with
  | None => throw RecordNotFound
  | Some _ =>
      let! c := gets (fun db => commits db !! commitId) in
      match c with
      | None => throw RecordNotFound
      | Some _ => modify (set_prCommits (fun s => {[ (prId, commitId) ]} ∪ s))
      end
  end.

(** [commit.create] with [pullRequests: { connect: { id: prId } }] *)
Definition commit_createLinked (commitId : string) (c : Commit) (prId : string)
    : Prisma unit :=
  let! existing := gets (fun db => commits db !! commitId) in
  match existing with
  | Some _ => throw UniqueConstraint
  | None =>
      let! pr := prisma.pullRequest_findUnique prId in
      match pr with
      | None => throw RecordNotFound
      | Some _ =>
          modify (set_commits (insert commitId c)) ;;;
          modify (set_prCommits (fun s => {[ (prId, commitId) ]} ∪ s))
      end
  end.

(** The body of the loop of lines 398-507 for one commit; [now] is what
    [Date.now()] returns while it runs.  A [continue] ends the body.  The
    counter [linkedCount] feeds a log line only and is left out. *)
Definition linkCommit (prId : string) (now : Z) (commitData : CommitData)
    : Prisma unit :=
  let! commit := commit_findFirst_bySha (sha commitData) in
  match commit with
  | Some (commitId, _) =>
      let! existingLink :=
        gets (fun db =>
                match pullRequests db !! prId with
                | Some _ => bool_decide ((prId, commitId) ∈ prCommits db)
                | None => false
                end) in
      if existingLink then ret tt
      else pullRequest_connectCommit prId commitId
  | None =>
      let! pr := prisma.pullRequest_findUnique prId in
      match pr with
      | None => ret tt
      | Some pr =>
          (* [include: { repository: true }] *)
          let! repository := prisma.repository_findUnique (pr_repositoryId pr) in
          match authorDataOf commitData with
          | None => ret tt
          | Some authorData =>
              let! user := prisma.user_findFirst (authorMatches authorData) in
              let! authorId :=
                match user with
                | Some (userId, _) => ret userId
                | None =>
                    match repository with
                    | None => throw TypeError
                    | Some repository =>
                        let newId :=
                          match author_id authorData with
                          | Some n => Js.toString n
                          | None => "commit-author-" ++ Js.toString now
                          end in
                        let newLogin :=
                          match orElse (orElse (author_login authorData)
                                               (author_name authorData)) None with
                          | Some l => l
                          | None => "unknown-" ++ Js.toString now
                          end in
                        prisma.user_create newId
                          (mkUser newLogin (author_email authorData)
                                  (author_name authorData)
                                  (repo_accountId repository) 0 1) ;;;
                        ret newId
                    end
                end in
              match commit_author commitData with
              | None => throw TypeError
              | Some gitAuthor =>
                  commit_createLinked (sha commitData)
                    (mkCommit (sha commitData) (commit_message_of commitData) authorId
                              (pr_repositoryId pr) (git_date gitAuthor))
                    prId
              end
          end
      end
  end.

(** The loop, with the clock read at each iteration. *)
Fixpoint linkCommits (prId : string) (clock : nat -> Z) (i : nat)
    (prCommits : list CommitData) : Prisma unit :=
  match prCommits with
  | [] => ret tt
  | commitData :: rest =>
      linkCommit prId (clock i) commitData ;;;
      linkCommits prId clock (S i) rest
  end.

(** Lines 511-534: the first-commit timestamp is taken from the earliest
    commit linked to the pull request, when there is one. *)
Definition updateFirstCommitAt (prId : string) : Prisma unit :=
  let! earliestCommit := gets (fun db => earliest (linkedCommits prId db)) in
  match earliestCommit with
  | Some (_, c) =>
      prisma.pullRequest_update prId (setFirstCommitAt (commit_committedAt c))
  | None => ret tt
  end.

(** The [try] block of [linkCommitsToPullRequest], lines 385-534. *)
Definition linkCommitsToPullRequest_try (prId owner repo : string) (prNumber : Z)
    (github : GitHub) (clock : nat -> Z) : Prisma unit :=
  let! prCommits := liftOutcome (getPullRequestCommits github owner repo prNumber) in
  match prCommits with
  | None | Some [] => ret tt
  | Some (c :: cs) =>
      linkCommits prId clock 0%nat (c :: cs) ;;;
      updateFirstCommitAt prId
  end.

(** [linkCommitsToPullRequest], lines 381-538: whatever is thrown inside is
    logged and swallowed. *)
Definition linkCommitsToPullRequest (prId owner repo : string) (prNumber : Z)
    (github : GitHub) (clock : nat -> Z) : Prisma unit :=
  tryCatch (linkCommitsToPullRequest_try prId owner repo prNumber github clock)
           (fun _ => ret tt).

(** ** Vocabulary of the statements *)

(** What [ensureUserExists] adds for a user that is already there: the
    account, when it is missing, and the membership, when it is missing. *)
Definition withAccount (login accountId : string) (db : DB) : DB :=
  match accounts db !! accountId with
  | None => set_accounts (insert accountId (mkAccount login ORGANIZATION "unknown")) db
  | Some _ => db
  end.

Definition withMembership (userId accountId : string) (db : DB) : DB :=
  match userOrganizations db !! (userId, accountId) with
  | None =>
      set_userOrganizations (insert (userId, accountId) (mkMembership "member")) db
  | Some _ => db
  end.

(** What a handler goes on with, given the candidate the precedence order
    selects. *)
Definition resolved (candidate : option Z) : Resolution :=
  match candidate with
  | Some n => AccountId (Js.toString n)
  | None => NoAccountId
  end.

(** The file rows persisted for a pull request, and the rows of the other
    pull requests. *)
Definition filesOf (prId : string) (db : DB) : list PullRequestFile :=
  List.filter (fun r => String.eqb (file_pullRequestId r) prId) (pullRequestFiles db).

Definition filesOfOthers (prId : string) (db : DB) : list PullRequestFile :=
  List.filter (fun r => negb (String.eqb (file_pullRequestId r) prId))
              (pullRequestFiles db).

(** ** Example stores *)

Definition acme : Account := mkAccount "acme" ORGANIZATION "5001".
Definition widgets : Repository := mkRepository "widgets" "acme/widgets" "100".

(** alice's home account is acme; bob holds a membership in acme while his
    home account is another one. *)
Definition alice : User := mkUser "alice" None None "100" 120 2.
Definition bob : User := mkUser "bob" None None "900" 40 1.

Definition examplePR (authorId : string) (state : PRState) (score : option Q)
    : PullRequest :=
  mkPullRequest 7 "Add widget" (Some "plain text") "200" authorId state
                10 2 3 [] None None None score None.

(** Pull request 300 by alice is merged with score 85, 301 by alice has score
    0, 302 by bob has score 85. *)
Definition exampleStore : DB :=
  mkDB {[ "100" := acme ]}
       {[ "200" := widgets ]}
       (<[ "1" := alice ]> {[ "2" := bob ]})
       (<[ ("1", "100") := mkMembership "member" ]>
          {[ ("2", "100") := mkMembership "member" ]})
       (<[ "300" := examplePR "1" MERGED (Some (85 # 1)%Q) ]>
          (<[ "301" := examplePR "1" MERGED (Some (0 # 1)%Q) ]>
             {[ "302" := examplePR "2" MERGED (Some (85 # 1)%Q) ]}))
       ∅ ∅ [] [].

(** ** Sequences of point awards *)

(** The two operations that award points. *)
Inductive AwardOp :=
| MergeAward (prId : string)
| ReviewAward (userId prId reviewState : string).

Definition runAward (op : AwardOp) : Prisma unit :=
  match op with
  | MergeAward prId => calculateAndAwardPoints prId
  | ReviewAward userId prId reviewState => awardPointsForReview userId prId reviewState
  end.

(** The store after a sequence of awards, each run on what the previous one
    left, whether it returned or threw. *)
Definition runAwards (ops : list AwardOp) (db : DB) : DB :=
  List.fold_left (fun db op => exec (runAward op) db) ops db.

(** No user disappears and no level goes down from [db] to [db']. *)
Definition levelsPreserved (db db' : DB) : Prop :=
  forall (userId : string) (u : User),
    users db !! userId = Some u ->
    exists u', users db' !! userId = Some u' /\ user_level u <= user_level u'.

(** A computation that never lowers a level, whatever its outcome. *)
Definition levelMonotone {A} (m : Prisma A) : Prop :=
  forall db, levelsPreserved db (exec m db).

Definition readme : GitHubFile := mkGitHubFile "README.md" "modified" 3 1 4 None.
Definition mainTs : GitHubFile :=
  mkGitHubFile "src/main.ts" "added" 20 0 20 (Some "@@ -0,0 +1,20 @@").

(** The example store with one file row persisted for pull request 300 and
    one for pull request 301. *)
Definition storeWithFiles : DB :=
  set_pullRequestFiles (fun _ => [fileRow "300" readme; fileRow "301" mainTs])
                       exampleStore.

(** An encryption capability that marks ciphertext with a prefix, and one
    whose [encryptContent] always throws (a missing key, say). *)
Definition prefixEncrypt (text : string) : Outcome string := Ok ("enc:" ++ text).
Definition prefixIsEncrypted (text : string) : bool := Js.startsWith text "enc:".
Definition failingEncrypt (text : string) : Outcome string := Throw CapabilityError.

(** A closed, unmerged pull request with a plaintext description. *)
Definition closedPrData : PrData :=
  mkPrData 400 8 "Fix gadget" (Some "secret notes") "closed" false 5 1 2
           None (Some 1700000000000) 1.

(** A delivery whose payload carries all four candidate ids: installation
    account 7, organization 9, repository owner 11, sender 13. *)
Definition widgetsPayload : RepositoryPayload :=
  mkRepositoryPayload 200 "acme/widgets" (Some (mkWithId (Some 11))).

Definition fullPayload : Payload :=
  mkPayload "created"
            (Some (mkInstallationPayload (Some 55) (Some (mkWithId (Some 7)))))
            (Some (mkWithId (Some 9)))
            (Some widgetsPayload)
            (Some (mkWithId (Some 13)))
            (Some (mkWithId (Some 300)))
            (Some (mkWithId (Some 600)))
            (Some (mkIssuePayload (Some "https://api.github.com/repos/acme/widgets/pulls/7"))).

(** A delivery whose only candidate is the installation account. *)
Definition installationOnlyPayload : Payload :=
  mkPayload "created"
            (Some (mkInstallationPayload (Some 55) (Some (mkWithId (Some 7)))))
            None
            (Some (mkRepositoryPayload 200 "acme/widgets" None))
            None
            (Some (mkWithId (Some 300)))
            (Some (mkWithId (Some 600)))
            (Some (mkIssuePayload (Some "https://api.github.com/repos/acme/widgets/pulls/7"))).

(** A pull request with three upstream commits.  Commit [aaa] is already
    stored (and not linked); [bbb] and [ccc] are not stored.  [bbb] is by
    alice, [ccc] by a GitHub user the store does not know. *)
Definition aliceData : AuthorData := mkAuthorData (Some 1) (Some "alice") None None.
Definition carolData : AuthorData := mkAuthorData (Some 42) (Some "carol") None None.

Definition upstreamCommits : list CommitData :=
  [ mkCommitData "aaa" (Some aliceData) "first"
                 (Some (mkGitAuthor (Some "Alice") (Some "alice@example.com") 3000));
    mkCommitData "bbb" (Some aliceData) "second"
                 (Some (mkGitAuthor (Some "Alice") (Some "alice@example.com") 1000));
    mkCommitData "ccc" (Some carolData) "third"
                 (Some (mkGitAuthor (Some "Carol") (Some "carol@example.com") 2000)) ].

Definition storeWithLocalCommit : DB :=
  set_commits (insert "aaa" (mkCommit "aaa" "first" "1" "200" 3000)) exampleStore.

Definition githubWith (result : Outcome (option (list CommitData))) : GitHub :=
  mkGitHub (fun _ _ _ => result).

Definition fixedClock (i : nat) : Z := 1700000000000 + Z.of_nat i.

(** An upstream list whose second entry has no git author: building its
    commit row dereferences [commit.author] and throws. *)
Definition brokenUpstream : list CommitData :=
  [ mkCommitData "bbb" (Some aliceData) "second"
                 (Some (mkGitAuthor (Some "Alice") (Some "alice@example.com") 1000));
    mkCommitData "ddd" (Some aliceData) "fourth" None ].

(** The example store after a linking run on [brokenUpstream]. *)
Definition storeAfterSwallowedError : DB :=
  exec (linkCommitsToPullRequest "300" "acme" "widgets" 7
          (githubWith (Ok (Some brokenUpstream))) fixedClock) exampleStore.

(** ** Running computations *)

Ltac unfold_monad :=
  unfold exec, outcome, tryCatch, bind, ret, throw, gets, modify, liftOutcome in *.

Ltac unfold_prisma :=
  unfold prisma.account_findUnique, prisma.account_create,
    prisma.user_findUnique, prisma.user_findFirst, prisma.user_create,
    prisma.user_update, prisma.userOrganization_findUnique,
    prisma.userOrganization_create, prisma.repository_findUnique,
    prisma.pullRequest_findUnique, prisma.pullRequest_update,
    prisma.pullRequest_upsert, prisma.pointTransaction_create,
    prisma.pullRequestFile_deleteMany, prisma.pullRequestFile_create in *.

(** * Further parts of the processor *)

From Stdlib Require Import Lqa.

(** ** Reading a description back *)

Section Decryption.

(** [decryptContent] throws on malformed ciphertext or a missing key. *)
Variable decryptContent : string -> Outcome string.
Variable isEncrypted : string -> bool.

(** [getPRDescription], lines 1315-1354: both [catch] blocks log and
    return [null]. *)
Definition getPRDescription (prId : string) : Prisma (option string) :=
  tryCatch
    (let! pr := prisma.pullRequest_findUnique prId in
     match pr with
     | None => ret None
     | Some pr =>
         match pr_description pr with
         | None => ret None
         | Some text =>
             if negb (Js.truthy_string text) then ret None
             else if isEncrypted text
             then tryCatch
                    (let! plain := liftOutcome (decryptContent text) in
                     ret (Some plain))
                    (fun _ => ret None)
             else ret (Some text)
         end
     end)
    (fun _ => ret None).

End Decryption.

(** The inverse of [prefixEncrypt]. *)
Definition prefixDecrypt (cipher : string) : Outcome string :=
  if Js.startsWith cipher "enc:"
  then Ok (String.substring 4 (String.length cipher - 4) cipher)
  else Throw CapabilityError.

(** ** Score labels *)

Record LabelProps := mkLabelProps {
  label_name : string;
  label_color : string;
  label_description : string
}.

(** [generateScoreLabelProps], lines 1847-1882, on a finite score. *)
Definition generateScoreLabelProps (score : Q) : LabelProps :=
  let normalizedScore := Z.max 0 (Z.min 100 (Math_round score)) in
  let '(category, color, description) :=
    if normalizedScore >=? 90
    then ("Excellent", "0e8a16", "Excellent code quality (90-100)")
    else if normalizedScore >=? 75
    then ("Good", "85cf32", "Good code quality (75-89)")
    else if normalizedScore >=? 60
    then ("Average", "fbca04", "Average code quality (60-74)")
    else if normalizedScore >=? 40
    then ("Needs Work", "f79232", "Needs improvement (40-59)")
    else ("Critical Issues", "d73a4a", "Significant issues detected (<40)") in
  mkLabelProps ("Wellcode Score: " ++ Js.toString normalizedScore ++ " - " ++ category)
               color description.

(** The filter of [addScoreLabelToPR], lines 1810-1815: the names of the
    labels it removes before it adds the new one. *)
Definition scoreLabels (labels : list string) : list string :=
  List.filter (fun name => Js.startsWith name "Wellcode:"
                           || Js.startsWith name "Wellcode Score:") labels.

(** ** The ledger of a user *)

(** The sum of the amounts the ledger holds for a user. *)
Definition ledgerOf (userId : string) (txs : list PointTransaction) : Z :=
  List.fold_right
    (fun tx acc => if String.eqb (tx_userId tx) userId then tx_amount tx + acc else acc)
    0 txs.

(** A sequence of awards every one of which returns normally. *)
Fixpoint runAwardsOk (ops : list AwardOp) (db : DB) : option DB :=
  match ops with
  | [] => Some db
  | op :: rest =>
      match runAward op db with
      | (Ok _, db') => runAwardsOk rest db'
      | (Throw _, _) => None
      end
  end.

(** [awarded userId amount db db'] : from [db] to [db'] the user gained
    [amount] points, the level was raised to what the new points justify
    when that is more, one ledger entry of that amount was appended for the
    user, and no other user row, account, repository or membership
    changed. *)
Definition awarded (userId : string) (amount : Z) (db db' : DB) : Prop :=
  exists (u u' : User) (tx : PointTransaction),
    users db !! userId = Some u /\
    users db' = <[userId := u']> (users db) /\
    user_points u' = user_points u + amount /\
    user_level u' = Z.max (user_level u) ((user_points u + amount) / 100 + 1) /\
    user_login u' = user_login u /\
    user_accountId u' = user_accountId u /\
    pointTransactions db' = (pointTransactions db ++ [tx])%list /\
    tx_userId tx = userId /\
    tx_amount tx = amount /\
    accounts db' = accounts db /\
    repositories db' = repositories db /\
    userOrganizations db' = userOrganizations db.

(** Points and ledger move together for every user from [db] to [db']. *)
Definition ledgerAgrees (db db' : DB) : Prop :=
  forall (userId : string) (u : User),
    users db !! userId = Some u ->
    exists u',
      users db' !! userId = Some u' /\
      user_points u' - user_points u
        = ledgerOf userId (pointTransactions db') - ledgerOf userId (pointTransactions db).

(** ** Relations a computation keeps *)

(** [keeps R m]: whatever the outcome, the store [m] leaves is related by
    [R] to the store it found. *)
Definition keeps (R : DB -> DB -> Prop) {A} (m : Prisma A) : Prop :=
  forall db, R db (exec m db).

(** The ledger of [db'] is the ledger of [db] with entries appended. *)
Definition ledgerExtends (db db' : DB) : Prop :=
  exists suffix, pointTransactions db' = (pointTransactions db ++ suffix)%list.

(** ** What commit linking may change *)

(** [pr'] is [pr], up to the first-commit time. *)
Definition sameButFirstCommitAt (pr pr' : PullRequest) : Prop :=
  pr' = pr \/ exists t, pr' = setFirstCommitAt t pr.

(** From [db] to [db'] commits, links and users were only added, the pull
    request [prId] changed in its first-commit time at most, and nothing
    else changed. *)
Definition linkGrows (prId : string) (db db' : DB) : Prop :=
  commits db ⊆ commits db' /\
  prCommits db ⊆ prCommits db' /\
  users db ⊆ users db' /\
  (forall id, id <> prId -> pullRequests db' !! id = pullRequests db !! id) /\
  option_Forall2 sameButFirstCommitAt (pullRequests db !! prId) (pullRequests db' !! prId) /\
  accounts db' = accounts db /\
  repositories db' = repositories db /\
  userOrganizations db' = userOrganizations db /\
  pullRequestFiles db' = pullRequestFiles db /\
  pointTransactions db' = pointTransactions db.

(** A commit with the given sha (as its [sha] or as its id) is stored. *)
Definition storedSha (s : string) (db : DB) : Prop :=
  exists cid row, commits db !! cid = Some row /\ (commit_sha row = s \/ cid = s).

(** A commit with the given sha is stored and linked to the pull
    request. *)
Definition linkedSha (prId s : string) (db : DB) : Prop :=
  exists cid row,
    commits db !! cid = Some row /\ (commit_sha row = s \/ cid = s) /\
    (prId, cid) ∈ prCommits db.

(** The pull-request table is the same in [db] and [db']. *)
Definition samePullRequests (db db' : DB) : Prop :=
  pullRequests db' = pullRequests db.

(** Commits, links and pull requests are the same in [db] and [db']. *)
Definition sameCommitsAndPullRequests (db db' : DB) : Prop :=
  commits db' = commits db /\
  prCommits db' = prCommits db /\
  pullRequests db' = pullRequests db.

(** ** Tables beside the core store *)

Inductive ReviewState := PENDING | COMMENTED | APPROVED | CHANGES_REQUESTED.

Record Review := mkReview {
  review_pullRequestId : string;
  review_authorId : string;
  review_state : ReviewState;
  review_body : option string;
  review_submittedAt : Z
}.

(** A [WebhookEvent] row, as far as the processor writes it. *)
Record WebhookEvent := mkWebhookEvent {
  event_status : string;
  event_error : option string;
  event_processedAt : option Z
}.

(** A [Comment] row; the sentiment score is a rational standing for the
    stored float. *)
Record Comment := mkComment {
  comment_pullRequestId : string;
  comment_authorId : string;
  comment_body : string;
  comment_sentimentScore : Q;
  comment_createdAt : Z;
  comment_updatedAt : Z
}.

(** The whole persistent state: the core store, the review and comment
    tables, the [reviewers] relation between pull requests and users, the
    delivery table, and the deliveries handed to [addToRetryQueue] (whose
    body in the source is a log line). *)
Record World := mkWorld {
  store : DB;
  reviews : gmap string Review;
  comments : gmap string Comment;
  reviewers : gset (string * string);
  webhookEvents : gmap string WebhookEvent;
  retryQueue : list string
}.

Definition set_store (f : DB -> DB) (w : World) : World :=
  mkWorld (f (store w)) (reviews w) (comments w) (reviewers w) (webhookEvents w)
          (retryQueue w).

Definition set_reviews (f : gmap string Review -> gmap string Review) (w : World)
    : World :=
  mkWorld (store w) (f (reviews w)) (comments w) (reviewers w) (webhookEvents w)
          (retryQueue w).

Definition set_comments (f : gmap string Comment -> gmap string Comment) (w : World)
    : World :=
  mkWorld (store w) (reviews w) (f (comments w)) (reviewers w) (webhookEvents w)
          (retryQueue w).

Definition set_reviewers (f : gset (string * string) -> gset (string * string))
    (w : World) : World :=
  mkWorld (store w) (reviews w) (comments w) (f (reviewers w)) (webhookEvents w)
          (retryQueue w).

Definition set_webhookEvents
    (f : gmap string WebhookEvent -> gmap string WebhookEvent) (w : World) : World :=
  mkWorld (store w) (reviews w) (comments w) (reviewers w) (f (webhookEvents w))
          (retryQueue w).

Definition set_retryQueue (f : list string -> list string) (w : World) : World :=
  mkWorld (store w) (reviews w) (comments w) (reviewers w) (webhookEvents w)
          (f (retryQueue w)).

(** An [async] computation over the whole state. *)
Definition Task (A : Type) : Type := World -> Outcome A * World.

Module task.

Definition ret {A} (a : A) : Task A := fun w => (Ok a, w).

Definition throw {A} (e : Exn) : Task A := fun w => (Throw e, w).

Definition bind {A B} (m : Task A) (k : A -> Task B) : Task B :=
  fun w =>
    match m w with
    | (Ok a, w') => k a w'
    | (Throw e, w') => (Throw e, w')
    end.

Definition tryCatch {A} (m : Task A) (handler : Exn -> Task A) : Task A :=
  fun w =>
    match m w with
    | (Ok a, w') => (Ok a, w')
    | (Throw e, w') => handler e w'
    end.

Definition gets {A} (f : World -> A) : Task A := fun w => (Ok (f w), w).

Definition modify (f : World -> World) : Task unit := fun w => (Ok tt, f w).

(** A computation on the core store, run on the whole state. *)
Definition onStore {A} (m : Prisma A) : Task A :=
  fun w =>
    match m (store w) with
    | (o, db') => (o, set_store (fun _ => db') w)
    end.

End task.

Notation "'let*' x ':=' m 'in' k" := (task.bind m (fun x => k))
  (at level 10, x name, m at level 100, k at level 200).
Notation "m ';;*' k" := (task.bind m (fun _ => k))
  (at level 100, k at level 200, right associativity).

(** ** Reviews *)

(** [mapReviewState], lines 1443-1450. *)
Definition mapReviewState (state : string) : ReviewState :=
  if String.eqb state "APPROVED" then APPROVED
  else if String.eqb state "CHANGES_REQUESTED" then CHANGES_REQUESTED
  else if String.eqb state "COMMENTED" then COMMENTED
  else PENDING.

(** The review object of a [pull_request_review] delivery. *)
Record ReviewData := mkReviewData {
  reviewData_id : Z;
  reviewData_state : string;
  reviewData_body : option string;
  reviewData_submitted_at : Z
}.

(** [review.body || null] *)
Definition bodyOrNull (body : option string) : option string :=
  match body with
  | Some text => if Js.truthy_string text then Some text else None
  | None => None
  end.

(** [storeReview], lines 1424-1441: an upsert by the review id. *)
Definition storeReview (review : ReviewData) (prId reviewerId : string) : Task unit :=
  let key := Js.toString (reviewData_id review) in
  let* existing := task.gets (fun w => reviews w !! key) in
  match existing with
  | Some old =>
      task.modify (set_reviews (insert key
        (mkReview (review_pullRequestId old) (review_authorId old)
                  (mapReviewState (reviewData_state review))
                  (bodyOrNull (reviewData_body review))
                  (reviewData_submitted_at review))))
  | None =>
      task.modify (set_reviews (insert key
        (mkReview prId reviewerId
                  (mapReviewState (reviewData_state review))
                  (bodyOrNull (reviewData_body review))
                  (reviewData_submitted_at review))))
  end.

Definition pushReviewer (reviewerId : string) (pr : PullRequest) : PullRequest :=
  mkPullRequest (pr_number pr) (pr_title pr) (pr_description pr) (pr_repositoryId pr)
    (pr_authorId pr) (pr_state pr) (pr_additions pr) (pr_deletions pr)
    (pr_changedFiles pr) (pr_reviewerIds pr ++ [reviewerId])%list (pr_firstCommitAt pr)
    (pr_mergedAt pr) (pr_closedAt pr) (pr_overallScore pr) (pr_pointsAwarded pr).

(** [reviewerIds.includes(reviewerId)] *)
Definition includesId (ids : list string) (x : string) : bool :=
  List.existsb (String.eqb x) ids.

(** [addReviewerToPullRequest], lines 1452-1469.  The update pushes the id
    onto [reviewerIds] and connects the user through the [reviewers]
    relation; the connect needs the user row. *)
Definition addReviewerToPullRequest (prId reviewerId : string) : Task unit :=
  let* pr := task.gets (fun w => pullRequests (store w) !! prId) in
  match pr with
  | None => task.ret tt
  | Some pr =>
      if negb (includesId (pr_reviewerIds pr) reviewerId) then
        let* user := task.gets (fun w => users (store w) !! reviewerId) in
        match user with
        | None => task.throw RecordNotFound
        | Some _ =>
            task.modify (set_store (set_pullRequests
                           (insert prId (pushReviewer reviewerId pr)))) ;;*
            task.modify (set_reviewers (fun s => {[ (prId, reviewerId) ]} ∪ s))
        end
      else task.ret tt
  end.

(** The [try] block of [handleReviewEvent], lines 592-633, entered once the
    account id, the pull request id and the reviewer are known.  The
    persona hook [onReviewSubmitted] and the constructor of the GitHub
    client are parameters.  [token] is what [getInstallationToken] returned
    at the head of the block; that function catches every error and
    returns null instead, and writes nothing.  The [catch] logs and
    rethrows. *)
Definition handleReviewEvent_try
    (onReviewSubmitted : ReviewData -> PullRequest -> Task unit)
    (newGitHubClient : string -> Outcome unit) (token : option string)
    (action accountId prId reviewerId login : string) (review : ReviewData)
    : Task unit :=
  task.tryCatch
    (task.onStore (ensureUserExists reviewerId login accountId) ;;*
     storeReview review prId reviewerId ;;*
     addReviewerToPullRequest prId reviewerId ;;*
     task.onStore (awardPointsForReview reviewerId prId (reviewData_state review)) ;;*
     let* prData := task.gets (fun w => pullRequests (store w) !! prId) in
     match prData with
     | Some prData =>
         if String.eqb action "submitted" then onReviewSubmitted review prData
         else task.ret tt
     | None => task.ret tt
     end ;;*
     match token with
     | Some token =>
         if Js.truthy_string token then (fun w => (newGitHubClient token, w))
         else task.ret tt
     | None => task.ret tt
     end)
    (fun error => task.throw error).

(** ** The router *)

(** The five handlers [processEvent] routes to. *)
Record Handlers := mkHandlers {
  handleInstallationEvent : Payload -> Task unit;
  handlePullRequestEvent : Payload -> Task unit;
  handleReviewEvent : Payload -> Task unit;
  handlePushEvent : Payload -> Task unit;
  handleIssueCommentEvent : Payload -> Task unit
}.

(** The [switch] of lines 111-145. *)
Definition route (handlers : Handlers) (eventName : string) (payload : Payload)
    : Task unit :=
  if String.eqb eventName "installation" then handleInstallationEvent handlers payload
  else if String.eqb eventName "pull_request" then handlePullRequestEvent handlers payload
  else if String.eqb eventName "pull_request_review" then handleReviewEvent handlers payload
  else if String.eqb eventName "push" then handlePushEvent handlers payload
  else if String.eqb eventName "issue_comment" then handleIssueCommentEvent handlers payload
  else task.ret tt.

(** [webhookEvent.update({ where: { id }, data })] *)
Definition webhookEvent_update (deliveryId : string)
    (f : WebhookEvent -> WebhookEvent) : Task unit :=
  let* existing := task.gets (fun w => webhookEvents w !! deliveryId) in
  match existing with
  | Some row => task.modify (set_webhookEvents (insert deliveryId (f row)))
  | None => task.throw RecordNotFound
  end.

Definition markProcessed (now : Z) (row : WebhookEvent) : WebhookEvent :=
  mkWebhookEvent "processed" (event_error row) (Some now).

Definition markFailed (errorMessage : string) (now : Z) (row : WebhookEvent)
    : WebhookEvent :=
  mkWebhookEvent "failed" (Some errorMessage) (Some now).

(** [addToRetryQueue], lines 1793-1797. *)
Definition addToRetryQueue (deliveryId : string) : Task unit :=
  task.modify (set_retryQueue (fun q => (q ++ [deliveryId])%list)).

(** [processEvent], lines 87-184.  [messageOf] gives the [message] of what
    was thrown and [now] is the time read when a status is written.  The
    [catch] block first logs the error; the third log line, line 157,
    serialises it with [JSON.stringify(error,
    Object.getOwnPropertyNames(error))], which throws on an error that
    holds a reference to itself (or a BigInt) in an own property.
    [JSON_stringify] is that call; what it throws leaves [processEvent]. *)
Definition processEvent (handlers : Handlers) (messageOf : Exn -> string)
    (JSON_stringify : Exn -> Outcome string) (now : Z)
    (eventName : string) (payload : Payload) (deliveryId : string) : Task unit :=
  task.tryCatch
    (route handlers eventName payload ;;*
     webhookEvent_update deliveryId (markProcessed now))
    (fun error =>
       let* _details := (fun w => (JSON_stringify error, w)) in
       let errorMessage :=
         if Js.truthy_string (messageOf error) then messageOf error
         else "Unknown error" in
       task.tryCatch (webhookEvent_update deliveryId (markFailed errorMessage now))
                     (fun _ => task.ret tt) ;;*
       if isRetryableError {| message := messageOf error |}
       then addToRetryQueue deliveryId
       else task.ret tt).

(** Example deliveries. *)
Definition exampleWorld : World :=
  mkWorld exampleStore ∅ ∅ ∅
          {[ "d-1" := mkWebhookEvent "pending" None None ]} [].

Definition exampleMessages (e : Exn) : string :=
  match e with
  | TypeError => "Cannot read properties of undefined"
  | RecordNotFound => "Record to update not found."
  | UniqueConstraint => "Unique constraint failed on the fields: (`id`)"
  | CapabilityError => "connection timeout"
  end.

(** Every example error serialises, but for the capability error, which
    here carries a reference to itself. *)
Definition exampleStringify (e : Exn) : Outcome string :=
  match e with
  | CapabilityError => Throw TypeError
  | _ => Ok (exampleMessages e)
  end.


Definition idleHandlers : Handlers :=
  mkHandlers (fun _ => task.ret tt) (fun _ => task.ret tt) (fun _ => task.ret tt)
             (fun _ => task.ret tt) (fun _ => task.ret tt).

(** No stored overall score is negative. *)
Definition scoresNonNegative (db : DB) : Prop :=
  forall (prId : string) (pr : PullRequest) (score : Q),
    pullRequests db !! prId = Some pr ->
    pr_overallScore pr = Some score ->
    0 <= Qnum score.

(** The row [storePullRequest] writes, given the processed description and
    the row stored so far. *)
Definition upsertedRow (prData : PrData) (repoId : string)
    (description : option string) (existing : option PullRequest) : PullRequest :=
  match existing with
  | Some old =>
      mkPullRequest (pr_number old) (prData_title prData) description
        (pr_repositoryId old) (pr_authorId old)
        (mapPRState (prData_state prData) (prData_merged prData))
        (prData_additions prData) (prData_deletions prData)
        (prData_changed_files prData) (pr_reviewerIds old) (pr_firstCommitAt old)
        (prData_merged_at prData) (prData_closed_at prData)
        (pr_overallScore old) (pr_pointsAwarded old)
  | None =>
      mkPullRequest (prData_number prData) (prData_title prData) description
        repoId (Js.toString (prData_user_id prData))
        (mapPRState (prData_state prData) (prData_merged prData))
        (prData_additions prData) (prData_deletions prData)
        (prData_changed_files prData) [] None
        (prData_merged_at prData) (prData_closed_at prData) None None
  end.

(** An encryption that gives a different ciphertext for the same text, as
    a second call with a fresh nonce does. *)
Definition freshEncrypt (text : string) : Outcome string := Ok ("enc:2:" ++ text).

(** ** Comments *)

(** The comment object of an [issue_comment] delivery. *)
Record CommentData := mkCommentData {
  commentData_id : Z;
  commentData_body : option string;
  commentData_created_at : Z;
  commentData_updated_at : option Z
}.

(** [comment.body || ''] *)
Definition bodyOrEmpty (body : option string) : string :=
  match body with
  | Some text => text
  | None => EmptyString
  end.

(** [Math.max(0, sentimentScore - 0.5)] *)
Definition penalised (sentimentScore : Q) : Q :=
  if Qle_bool 0 (sentimentScore - (1 # 2)) then (sentimentScore - (1 # 2))%Q else 0%Q.

Section Sentiment.

(** The sentiment capability of [../ai/sentimentAnalyzer]; the author
    context it is given beside the text is part of the capability. *)
Variable analyzeSentiment : string -> Outcome Q.
Variable isOffensiveContent : string -> Outcome bool.

(** [storeComment], lines 1931-1983; [now] is the time read by
    [new Date()].  The update with empty [data] that follows the upsert
    for an offensive comment changes no column.  The [catch] logs and
    rethrows. *)
Definition storeComment (now : Z) (comment : CommentData) (prId authorId : string)
    : Task Q :=
  task.tryCatch
    (let commentBody := bodyOrEmpty (commentData_body comment) in
     let key := Js.toString (commentData_id comment) in
     let* sentimentScore := (fun w => (analyzeSentiment commentBody, w)) in
     let* isOffensive := (fun w => (isOffensiveContent commentBody, w)) in
     let adjustedScore := if isOffensive then penalised sentimentScore
                          else sentimentScore in
     let* existing := task.gets (fun w => comments w !! key) in
     task.modify (set_comments (insert key
       match existing with
       | Some old =>
           mkComment (comment_pullRequestId old) (comment_authorId old) commentBody
                     adjustedScore (comment_createdAt old) now
       | None =>
           mkComment prId authorId commentBody adjustedScore
                     (commentData_created_at comment)
                     (match commentData_updated_at comment with
                      | Some t => t
                      | None => commentData_created_at comment
                      end)
       end)) ;;*
     (if isOffensive then
        let* row := task.gets (fun w => comments w !! key) in
        match row with
        | Some _ => task.ret tt
        | None => task.throw RecordNotFound
        end
      else task.ret tt) ;;*
     task.ret adjustedScore)
    (fun error => task.throw error).

End Sentiment.

(** * Properties *)

(** ** JavaScript strings *)

Lemma startsWith_spec (s p : string) :
  Js.startsWith s p = true <-> exists post, s = p ++ post.
Proof.
  revert s. induction p as [|a p IH]; intros s; simpl.
  - split; [intros _; exists s; reflexivity | intros _; by destruct s].
  - destruct s as [|b s]; cbn [Js.startsWith].
    + split; [discriminate | intros [post H]; discriminate].
    + destruct (Ascii.eqb_spec a b) as [->|Hne].
      * rewrite IH. split; intros [post H]; exists post.
        -- simpl. by rewrite H.
        -- simpl in H. by injection H.
      * split; [discriminate | intros [post H]; simpl in H].
        injection H as H _. by destruct Hne.
Qed.

Lemma includes_spec (s needle : string) :
  Js.includes s needle = true <-> Js.contains s needle.
Proof.
  unfold Js.contains. induction s as [|a s IH].
  - cbn [Js.includes]. rewrite orb_false_r, startsWith_spec. split.
    + intros [post H]. exists "", post. exact H.
    + intros [pre [post H]]. destruct pre; [|discriminate].
      exists post. exact H.
  - cbn [Js.includes]. rewrite orb_true_iff, startsWith_spec, IH. split.
    + intros [[post H] | [pre [post H]]].
      * exists "", post. exact H.
      * exists (String a pre), post. simpl. by rewrite H.
    + intros [pre [post H]]. destruct pre as [|b pre].
      * left. exists post. exact H.
      * right. simpl in H. injection H as _ H. exists pre, post. exact H.
Qed.

Lemma includes_false (s needle : string) :
  Js.includes s needle = false <-> ~ Js.contains s needle.
Proof.
  rewrite <- includes_spec. destruct (Js.includes s needle); split; done.
Qed.

(** ** Retry classification *)

(** C1: an error is classified non-retryable exactly when its message
    contains "not found", "invalid signature" or "already exists", and
    retryable otherwise; "Pull request not found" is non-retryable and
    "connection timeout" is retryable. *)
Theorem isRetryableError_classification :
  forall error : JsError,
    (isRetryableError error = false <->
       Js.contains (message error) "not found" \/
       Js.contains (message error) "invalid signature" \/
       Js.contains (message error) "already exists") /\
    (isRetryableError error = true <->
       ~ (Js.contains (message error) "not found" \/
          Js.contains (message error) "invalid signature" \/
          Js.contains (message error) "already exists")) /\
    isRetryableError {| message := "Pull request not found" |} = false /\
    isRetryableError {| message := "connection timeout" |} = true.
Proof.
  intros [msg]. unfold isRetryableError. cbn [message].
  rewrite <- !includes_spec.
  destruct (Js.includes msg "not found"),
           (Js.includes msg "invalid signature"),
           (Js.includes msg "already exists"); cbn;
    repeat split; try done; try tauto; intros; intuition discriminate.
Qed.

(** ** Pull-request state *)

(** C2: the stored state is MERGED whenever the merged flag is set, whatever
    the raw state string (also "open"); OPEN when the flag is not set and
    the raw state is "open"; CLOSED otherwise.  This is the state of the
    row [storePullRequest] persists: whenever it returns, the row it
    returns is stored under the id of the pull request with the state so
    derived, on a create and on an update alike; and it returns unless the
    encryption of the description throws. *)
Theorem mapPRState_merged_wins :
  forall (state : string) (merged : bool),
    (merged = true -> mapPRState state merged = MERGED) /\
    (merged = false -> state = "open" -> mapPRState state merged = OPEN) /\
    (merged = false -> state <> "open" -> mapPRState state merged = CLOSED) /\
    mapPRState "open" true = MERGED /\
    (forall (encryptContent : string -> Outcome string) (isEncrypted : string -> bool)
            (db : DB) (prData : PrData) (accountId repoId : string),
       prData_state prData = state ->
       prData_merged prData = merged ->
       let run := storePullRequest encryptContent isEncrypted prData accountId repoId db in
       (forall row, fst run = Ok row ->
          pullRequests (snd run) !! Js.toString (prData_id prData) = Some row /\
          pr_state row = mapPRState state merged /\
          (merged = true -> pr_state row = MERGED) /\
          (merged = false -> state = "open" -> pr_state row = OPEN) /\
          (merged = false -> state <> "open" -> pr_state row = CLOSED)) /\
       (forall e, fst run = Throw e ->
          exists text, prData_body prData = Some text /\ encryptContent text = Throw e)).
Proof.
  intros state merged.
  assert (Hmerged : merged = true -> mapPRState state merged = MERGED)
    by (by intros ->).
  assert (Hopen : merged = false -> state = "open" -> mapPRState state merged = OPEN)
    by (by intros -> ->).
  assert (Hclosed : merged = false -> state <> "open" ->
                    mapPRState state merged = CLOSED).
  { intros -> Hne. unfold mapPRState. destruct (String.eqb_spec state "open"); done. }
  do 4 (split; [done|]).
  intros encryptContent isEncrypted db prData accountId repoId Hstate Hflag run.
  assert (Hstored : forall description,
    let row := match pullRequests db !! Js.toString (prData_id prData) with
               | Some old =>
                   mkPullRequest (pr_number old) (prData_title prData) description
                     (pr_repositoryId old) (pr_authorId old) (mapPRState state merged)
                     (prData_additions prData) (prData_deletions prData)
                     (prData_changed_files prData) (pr_reviewerIds old)
                     (pr_firstCommitAt old) (prData_merged_at prData)
                     (prData_closed_at prData) (pr_overallScore old)
                     (pr_pointsAwarded old)
               | None =>
                   mkPullRequest (prData_number prData) (prData_title prData) description
                     repoId (Js.toString (prData_user_id prData))
                     (mapPRState state merged)
                     (prData_additions prData) (prData_deletions prData)
                     (prData_changed_files prData) [] None (prData_merged_at prData)
                     (prData_closed_at prData) None None
               end in
    pullRequests (set_pullRequests (insert (Js.toString (prData_id prData)) row) db)
      !! Js.toString (prData_id prData) = Some row /\
    pr_state row = mapPRState state merged).
  { intros description row. split; [apply lookup_insert_eq|].
    subst row. by destruct (pullRequests db !! _). }
  assert (Hrow : forall db' row,
    pullRequests db' !! Js.toString (prData_id prData) = Some row /\
    pr_state row = mapPRState state merged ->
    pullRequests db' !! Js.toString (prData_id prData) = Some row /\
    pr_state row = mapPRState state merged /\
    (merged = true -> pr_state row = MERGED) /\
    (merged = false -> state = "open" -> pr_state row = OPEN) /\
    (merged = false -> state <> "open" -> pr_state row = CLOSED)).
  { intros db' row [Hlookup Hs]. rewrite Hs. repeat split; auto. }
  subst run. unfold storePullRequest. rewrite Hstate, Hflag.
  unfold_prisma. unfold_monad.
  destruct (prData_body prData) as [body|]; cbn.
  2: { split; [|discriminate]. intros row [= <-]. exact (Hrow _ _ (Hstored None)). }
  destruct (Js.truthy_string body); cbn.
  2: { split; [|discriminate]. intros row [= <-]. exact (Hrow _ _ (Hstored None)). }
  destruct (_ && negb (isEncrypted body)); cbn.
  2: { split; [|discriminate]. intros row [= <-]. exact (Hrow _ _ (Hstored (Some body))). }
  destruct (encryptContent body) as [cipher|e] eqn:Henc; cbn.
  - split; [|discriminate]. intros row [= <-]. exact (Hrow _ _ (Hstored (Some cipher))).
  - split; [discriminate|]. intros e' [= <-]. by exists body.
Qed.

Lemma mapPRState_merged_wins_witness :
  mapPRState "closed" true = MERGED /\
  mapPRState "open" false = OPEN /\
  mapPRState "closed" false = CLOSED /\
  pr_state <$>
    pullRequests
      (snd (storePullRequest prefixEncrypt prefixIsEncrypted
              (mkPrData 402 10 "Merged while open" None "open" true 1 0 1
                        (Some 1700000000000) None 1) "100" "200" exampleStore))
    !! "402" = Some MERGED.
Proof.
  split; [|split; [|split]].
  - destruct (mapPRState_merged_wins "closed" true) as (H & _).
    apply H. reflexivity.
  - destruct (mapPRState_merged_wins "open" false) as (_ & H & _).
    apply H; reflexivity.
  - destruct (mapPRState_merged_wins "closed" false) as (_ & _ & H & _).
    apply H; [reflexivity | discriminate].
  - destruct (mapPRState_merged_wins "open" true) as (_ & _ & _ & _ & H).
    destruct (H prefixEncrypt prefixIsEncrypted exampleStore
                (mkPrData 402 10 "Merged while open" None "open" true 1 0 1
                          (Some 1700000000000) None 1) "100" "200" eq_refl eq_refl)
      as (Hstored & _).
    destruct (Hstored _ eq_refl) as (Hlookup & _ & Hstate & _).
    etransitivity; [exact (f_equal (fmap pr_state) Hlookup)|].
    exact (f_equal Some (Hstate eq_refl)).
Defined.

(** ** The registrar *)

(** C10, as amended: for a user that already exists, [ensureUserExists]
    returns normally and leaves the user table as it was (login, points,
    level and home account of every user unchanged); the store it leaves
    differs from the one it found at most by the account row for
    [accountId], created when that account did not exist, and by the one
    membership row for [(userId, accountId)], inserted when it did not
    exist. *)
Theorem ensureUserExists_existing_user :
  forall (db : DB) (userId login accountId : string) (u : User),
    users db !! userId = Some u ->
    outcome (ensureUserExists userId login accountId) db = Ok tt /\
    exec (ensureUserExists userId login accountId) db
      = withMembership userId accountId (withAccount login accountId db) /\
    users (exec (ensureUserExists userId login accountId) db) = users db.
Proof.
  intros [accts repos usrs orgs prs cms links files txs] userId login accountId u Hu.
  cbn in Hu.
  unfold ensureUserExists, withMembership, withAccount.
  unfold_prisma. unfold_monad. cbn.
  destruct (accts !! accountId) eqn:Ha; cbn; rewrite ?Ha; cbn; rewrite Hu; cbn;
    destruct (orgs !! (userId, accountId)) eqn:Ho; cbn; rewrite ?Ho; cbn; done.
Qed.

Lemma ensureUserExists_existing_user_witness :
  users exampleStore !! "1" = Some alice /\
  outcome (ensureUserExists "1" "alice" "777") exampleStore = Ok tt /\
  exec (ensureUserExists "1" "alice" "777") exampleStore
    = withMembership "1" "777" (withAccount "alice" "777" exampleStore) /\
  users (exec (ensureUserExists "1" "alice" "777") exampleStore) = users exampleStore.
Proof.
  split; [reflexivity|].
  apply (ensureUserExists_existing_user exampleStore "1" "alice" "777" alice).
  reflexivity.
Defined.

(** C10 as stated fails: alice exists and is referenced under account 777,
    which does not exist yet; besides the membership row the call creates
    the account row. *)
Lemma ensureUserExists_creates_account :
  users exampleStore !! "1" = Some alice /\
  accounts exampleStore !! "777" = None /\
  accounts (exec (ensureUserExists "1" "alice" "777") exampleStore) !! "777"
    = Some (mkAccount "alice" ORGANIZATION "unknown").
Proof. repeat split; vm_compute; reflexivity. Qed.

(** ** User levels *)

Lemma levelsPreserved_refl db : levelsPreserved db db.
Proof. intros userId u Hu. exists u. split; [done | lia]. Qed.

Lemma levelsPreserved_trans db1 db2 db3 :
  levelsPreserved db1 db2 -> levelsPreserved db2 db3 -> levelsPreserved db1 db3.
Proof.
  intros H12 H23 userId u Hu.
  destruct (H12 _ _ Hu) as (u2 & Hu2 & Hle2).
  destruct (H23 _ _ Hu2) as (u3 & Hu3 & Hle3).
  exists u3. split; [done | lia].
Qed.

Lemma levelsPreserved_same_users db db' :
  users db' = users db -> levelsPreserved db db'.
Proof. intros Heq userId u Hu. exists u. rewrite Heq. split; [done | lia]. Qed.

Lemma levelsPreserved_insert db userId u u' :
  users db !! userId = Some u ->
  user_level u <= user_level u' ->
  levelsPreserved db (set_users (insert userId u') db).
Proof.
  intros Hu Hle other v Hv. cbn.
  destruct (decide (userId = other)) as [->|Hne].
  - rewrite lookup_insert_eq. exists u'. split; [done|]. congruence.
  - rewrite lookup_insert_ne by done. exists v. split; [done | lia].
Qed.

Lemma levelMonotone_ret {A} (a : A) : levelMonotone (ret a).
Proof. intros db. apply levelsPreserved_refl. Qed.

Lemma levelMonotone_throw {A} (e : Exn) : levelMonotone (@throw A e).
Proof. intros db. apply levelsPreserved_refl. Qed.

Lemma levelMonotone_gets {A} (f : DB -> A) : levelMonotone (gets f).
Proof. intros db. apply levelsPreserved_refl. Qed.

Lemma levelMonotone_bind {A B} (m : Prisma A) (k : A -> Prisma B) :
  levelMonotone m -> (forall a, levelMonotone (k a)) -> levelMonotone (bind m k).
Proof.
  intros Hm Hk db. specialize (Hm db). unfold exec, bind in *.
  destruct (m db) as [[a|e] db1]; cbn in *; [|done].
  eapply levelsPreserved_trans; [exact Hm | apply Hk].
Qed.

Lemma levelMonotone_modify (f : DB -> DB) :
  (forall db, users (f db) = users db) -> levelMonotone (modify f).
Proof. intros Hf db. apply levelsPreserved_same_users, Hf. Qed.

Lemma levelMonotone_user_update userId filter f :
  (forall u, user_level u <= user_level (f u)) ->
  levelMonotone (prisma.user_update userId filter f).
Proof.
  intros Hf db. unfold prisma.user_update, prisma.user_findUnique.
  unfold_monad. cbn.
  destruct (users db !! userId) as [u|] eqn:Hu; cbn; [|apply levelsPreserved_refl].
  destruct (filter u); cbn; [|apply levelsPreserved_refl].
  eapply levelsPreserved_insert; [exact Hu | apply Hf].
Qed.

Lemma levelMonotone_pointTransaction_create tx :
  levelMonotone (prisma.pointTransaction_create tx).
Proof.
  unfold prisma.pointTransaction_create, prisma.account_findUnique.
  apply levelMonotone_bind; [apply levelMonotone_gets|].
  intros [a|]; [|apply levelMonotone_throw].
  by apply levelMonotone_modify.
Qed.

Lemma levelMonotone_pullRequest_update prId f :
  levelMonotone (prisma.pullRequest_update prId f).
Proof.
  unfold prisma.pullRequest_update, prisma.pullRequest_findUnique.
  apply levelMonotone_bind; [apply levelMonotone_gets|].
  intros [pr|]; [|apply levelMonotone_throw].
  by apply levelMonotone_modify.
Qed.

(** What one recomputation does to the store. *)
Lemma checkAndUpdateUserLevel_run db userId accountId :
  checkAndUpdateUserLevel userId accountId db =
    (Ok tt,
     match users db !! userId with
     | Some u =>
         if user_points u / 100 + 1 >? user_level u
         then set_users (insert userId (prisma.setLevel (user_points u / 100 + 1) u)) db
         else db
     | None => db
     end).
Proof.
  unfold checkAndUpdateUserLevel, prisma.user_update, prisma.user_findUnique.
  unfold_monad. cbn.
  destruct (users db !! userId) as [u|] eqn:Hu; cbn; [|done].
  destruct (user_points u / 100 + 1 >? user_level u); cbn; [|done].
  by rewrite Hu.
Qed.

Lemma levelMonotone_checkAndUpdateUserLevel userId accountId :
  levelMonotone (checkAndUpdateUserLevel userId accountId).
Proof.
  intros db. unfold exec. rewrite checkAndUpdateUserLevel_run. cbn.
  destruct (users db !! userId) as [u|] eqn:Hu; [|apply levelsPreserved_refl].
  destruct (Z.gtb_spec (user_points u / 100 + 1) (user_level u));
    [|apply levelsPreserved_refl].
  eapply levelsPreserved_insert; [exact Hu | cbn; lia].
Qed.

Lemma levelMonotone_calculateAndAwardPoints prId :
  levelMonotone (calculateAndAwardPoints prId).
Proof.
  unfold calculateAndAwardPoints, prisma.pullRequest_findUnique,
    prisma.repository_findUnique, prisma.userOrganization_findUnique.
  apply levelMonotone_bind; [apply levelMonotone_gets|].
  intros [pr|]; [|apply levelMonotone_ret].
  destruct (pr_overallScore pr) as [score|]; [|apply levelMonotone_ret].
  destruct (falsyScore (Some score)); [apply levelMonotone_ret|].
  apply levelMonotone_bind; [apply levelMonotone_gets|].
  intros [repository|]; [|apply levelMonotone_throw].
  apply levelMonotone_bind; [apply levelMonotone_gets|].
  intros [membership|]; [|apply levelMonotone_ret].
  apply levelMonotone_bind; [apply levelMonotone_user_update; intros u; cbn; lia|].
  intros _. apply levelMonotone_bind; [apply levelMonotone_pointTransaction_create|].
  intros _. apply levelMonotone_bind; [apply levelMonotone_pullRequest_update|].
  intros _. apply levelMonotone_checkAndUpdateUserLevel.
Qed.

Lemma levelMonotone_awardPointsForReview userId prId reviewState :
  levelMonotone (awardPointsForReview userId prId reviewState).
Proof.
  unfold awardPointsForReview, prisma.pullRequest_findUnique,
    prisma.repository_findUnique.
  destruct (reviewPoints reviewState >? 0); [|apply levelMonotone_ret].
  apply levelMonotone_bind; [apply levelMonotone_gets|].
  intros [pr|]; [|apply levelMonotone_ret].
  apply levelMonotone_bind; [apply levelMonotone_gets|].
  intros repository.
  apply levelMonotone_bind; [apply levelMonotone_user_update; intros u; cbn; lia|].
  intros _. destruct repository as [repository|]; [|apply levelMonotone_throw].
  apply levelMonotone_bind; [apply levelMonotone_pointTransaction_create|].
  intros _. apply levelMonotone_checkAndUpdateUserLevel.
Qed.

Lemma levelsPreserved_runAwards ops db : levelsPreserved db (runAwards ops db).
Proof.
  revert db. induction ops as [|op ops IH]; intros db; cbn.
  - apply levelsPreserved_refl.
  - eapply levelsPreserved_trans; [|apply IH].
    destruct op; cbn.
    + apply levelMonotone_calculateAndAwardPoints.
    + apply levelMonotone_awardPointsForReview.
Qed.

(** C9: a level recomputation takes [floor(points / 100) + 1] as the
    candidate and writes it only when it is strictly greater than the
    stored level, so the stored level becomes the larger of the two and
    nothing else changes; and over any sequence of point awards no user's
    level ever decreases. *)
Theorem level_candidate_and_monotonicity :
  forall (db : DB) (userId accountId : string) (u : User),
    users db !! userId = Some u ->
    let candidate := user_points u / 100 + 1 in
    let db' := exec (checkAndUpdateUserLevel userId accountId) db in
    (100 * (candidate - 1) <= user_points u < 100 * candidate) /\
    outcome (checkAndUpdateUserLevel userId accountId) db = Ok tt /\
    (candidate > user_level u ->
       db' = set_users (insert userId (prisma.setLevel candidate u)) db) /\
    (candidate <= user_level u -> db' = db) /\
    (exists u', users db' !! userId = Some u' /\
                user_level u' = Z.max (user_level u) candidate /\
                user_points u' = user_points u) /\
    (forall ops : list AwardOp,
       exists u', users (runAwards ops db) !! userId = Some u' /\
                  user_level u <= user_level u').
Proof.
  intros db userId accountId u Hu candidate db'.
  subst db'. unfold exec, outcome. rewrite checkAndUpdateUserLevel_run. cbn.
  rewrite Hu. fold candidate.
  split; [subst candidate; pose proof (Z.div_mod (user_points u) 100);
          pose proof (Z.mod_pos_bound (user_points u) 100); lia|].
  split; [done|].
  destruct (Z.gtb_spec candidate (user_level u)) as [Hgt|Hle].
  - split; [done|]. split; [lia|]. split.
    + exists (prisma.setLevel candidate u). cbn. rewrite lookup_insert_eq.
      split; [done|]. split; [lia | done].
    + intros ops. exact (levelsPreserved_runAwards ops db userId u Hu).
  - split; [lia|]. split; [done|]. split.
    + exists u. split; [done|]. split; [lia | done].
    + intros ops. exact (levelsPreserved_runAwards ops db userId u Hu).
Qed.

Lemma level_candidate_and_monotonicity_witness :
  users exampleStore !! "1" = Some alice /\
  exists u', users (runAwards [MergeAward "300"; ReviewAward "1" "302" "APPROVED"]
                              exampleStore) !! "1" = Some u' /\
             user_level alice <= user_level u'.
Proof.
  split; [reflexivity|].
  apply (level_candidate_and_monotonicity exampleStore "1" "100" alice eq_refl).
Defined.

(** ** The points ledger *)

#[local] Arguments checkAndUpdateUserLevel : simpl never.

Lemma reviewPoints_table :
  reviewPoints "APPROVED" = 10 /\
  reviewPoints "CHANGES_REQUESTED" = 15 /\
  reviewPoints "COMMENTED" = 5 /\
  (forall s, s <> "APPROVED" -> s <> "CHANGES_REQUESTED" -> s <> "COMMENTED" ->
             reviewPoints s = 0).
Proof.
  repeat split; try reflexivity.
  intros s H1 H2 H3. unfold reviewPoints.
  destruct (String.eqb_spec s "APPROVED"); [done|].
  destruct (String.eqb_spec s "CHANGES_REQUESTED"); [done|].
  destruct (String.eqb_spec s "COMMENTED"); done.
Qed.

Lemma reviewPoints_nonneg s : 0 <= reviewPoints s.
Proof.
  unfold reviewPoints.
  repeat match goal with |- context [String.eqb ?a ?b] => destruct (String.eqb a b) end;
    lia.
Qed.

(** The store [awardPointsForReview] leaves when the pull request, its
    repository, the repository's account and the reviewer are all there and
    the review earns points. *)
Lemma awardPointsForReview_run db userId prId reviewState pr repository acct u :
  pullRequests db !! prId = Some pr ->
  repositories db !! pr_repositoryId pr = Some repository ->
  accounts db !! repo_accountId repository = Some acct ->
  users db !! userId = Some u ->
  reviewPoints reviewState > 0 ->
  awardPointsForReview userId prId reviewState db =
    checkAndUpdateUserLevel userId (repo_accountId repository)
      (set_pointTransactions
         (fun l => (l ++ [mkPointTransaction userId (repo_accountId repository)
                            (reviewPoints reviewState) "review_submitted" prId
                            "pullrequest"])%list)
         (set_users (insert userId (prisma.incrementPoints (reviewPoints reviewState) u))
                    db)).
Proof.
  intros Hpr Hrepo Hacct Hu Hpos. unfold awardPointsForReview.
  destruct (Z.gtb_spec (reviewPoints reviewState) 0) as [_|]; [|lia].
  unfold_prisma. unfold_monad. cbn.
  rewrite Hpr. cbn. rewrite Hrepo. cbn. rewrite Hu. cbn. rewrite Hacct. cbn.
  reflexivity.
Qed.

(** C5, as amended: the points for a review depend on the review state
    alone, APPROVED 10, CHANGES_REQUESTED 15, COMMENTED 5 and anything else
    0.  When the pull request is stored (with its repository, the
    repository's account and the reviewer's user row), the reviewer's points
    grow by that amount, and when it is positive exactly one transaction
    with reason [review_submitted] and that amount is appended for the
    reviewer, while a state worth 0 leaves the store untouched.  When the
    pull request is not found, the call returns normally and changes
    nothing. *)
Theorem awardPointsForReview_by_state :
  forall (db : DB) (userId prId reviewState : string),
    let points := reviewPoints reviewState in
    let db' := exec (awardPointsForReview userId prId reviewState) db in
    (reviewState = "APPROVED" -> points = 10) /\
    (reviewState = "CHANGES_REQUESTED" -> points = 15) /\
    (reviewState = "COMMENTED" -> points = 5) /\
    (reviewState <> "APPROVED" -> reviewState <> "CHANGES_REQUESTED" ->
     reviewState <> "COMMENTED" -> points = 0) /\
    (pullRequests db !! prId = None ->
       outcome (awardPointsForReview userId prId reviewState) db = Ok tt /\ db' = db) /\
    (forall (pr : PullRequest) (repository : Repository) (acct : Account) (u : User),
       pullRequests db !! prId = Some pr ->
       repositories db !! pr_repositoryId pr = Some repository ->
       accounts db !! repo_accountId repository = Some acct ->
       users db !! userId = Some u ->
       outcome (awardPointsForReview userId prId reviewState) db = Ok tt /\
       (exists u', users db' !! userId = Some u' /\
                   user_points u' = user_points u + points) /\
       (points > 0 ->
          pointTransactions db' =
            (pointTransactions db ++
               [mkPointTransaction userId (repo_accountId repository) points
                  "review_submitted" prId "pullrequest"])%list) /\
       (points = 0 -> db' = db)).
Proof.
  intros db userId prId reviewState points db'.
  destruct reviewPoints_table as (Ha & Hc & Hm & Hother).
  split; [intros ->; exact Ha|].
  split; [intros ->; exact Hc|].
  split; [intros ->; exact Hm|].
  split; [apply Hother|].
  subst db'. unfold exec, outcome.
  pose proof (reviewPoints_nonneg reviewState) as Hnn. fold points in Hnn.
  split.
  - intros Hnone. unfold awardPointsForReview. fold points.
    destruct (points >? 0); [|done].
    unfold_prisma. unfold_monad. cbn. by rewrite Hnone.
  - intros pr repository acct u Hpr Hrepo Hacct Hu.
    destruct (decide (points = 0)) as [Hz|Hnz].
    + unfold awardPointsForReview. fold points. rewrite Hz. cbn.
      split; [done|]. split; [exists u; split; [done | lia]|].
      split; [lia | done].
    + assert (Hpos : reviewPoints reviewState > 0) by (fold points; lia).
      rewrite (awardPointsForReview_run db userId prId reviewState pr repository acct u)
        by done.
      rewrite checkAndUpdateUserLevel_run. cbn. rewrite lookup_insert_eq.
      fold points. split; [done|]. split.
      * destruct (_ >? _); cbn.
        -- rewrite lookup_insert_eq. eexists. split; [done|]. cbn. lia.
        -- rewrite lookup_insert_eq. eexists. split; [done|]. cbn. lia.
      * split; [|lia]. intros _. by destruct (_ >? _).
Qed.

Lemma awardPointsForReview_by_state_witness :
  pullRequests exampleStore !! "302" = Some (examplePR "2" MERGED (Some (85 # 1)%Q)) /\
  repositories exampleStore !! "200" = Some widgets /\
  accounts exampleStore !! "100" = Some acme /\
  users exampleStore !! "1" = Some alice /\
  outcome (awardPointsForReview "1" "302" "APPROVED") exampleStore = Ok tt /\
  pointTransactions (exec (awardPointsForReview "1" "302" "APPROVED") exampleStore)
    = [mkPointTransaction "1" "100" 10 "review_submitted" "302" "pullrequest"].
Proof.
  do 4 (split; [reflexivity|]).
  destruct (awardPointsForReview_by_state exampleStore "1" "302" "APPROVED")
    as (_ & _ & _ & _ & _ & Hfound).
  destruct (Hfound (examplePR "2" MERGED (Some (85 # 1)%Q)) widgets acme alice
              eq_refl eq_refl eq_refl eq_refl)
    as (Hok & _ & Htx & _).
  split; [exact Hok|]. apply Htx. reflexivity.
Defined.

(** C5 as stated fails when the pull request of the review is not stored:
    an APPROVED review is worth 10 points, yet for pull request 999 the
    reviewer's points stay as they were and nothing is appended to the
    ledger. *)
Lemma awardPointsForReview_unknown_pull_request :
  reviewPoints "APPROVED" = 10 /\
  pullRequests exampleStore !! "999" = None /\
  users exampleStore !! "1" = Some alice /\
  outcome (awardPointsForReview "1" "999" "APPROVED") exampleStore = Ok tt /\
  users (exec (awardPointsForReview "1" "999" "APPROVED") exampleStore) !! "1"
    = Some alice /\
  pointTransactions (exec (awardPointsForReview "1" "999" "APPROVED") exampleStore) = [].
Proof. repeat split; vm_compute; reflexivity. Qed.

(** [Math.round] returns the integer nearest to its argument, the upper one
    at a half. *)
Lemma Math_round_nearest (q : Q) :
  (inject_Z (Math_round q) - (1 # 2) <= q)%Q /\
  (q < inject_Z (Math_round q) + (1 # 2))%Q.
Proof.
  unfold Math_round. split.
  - pose proof (Qfloor_le (q + (1 # 2))) as H.
    apply (Qplus_le_l _ _ (1 # 2)). ring_simplify.
    ring_simplify in H. exact H.
  - pose proof (Qlt_floor (q + (1 # 2))) as H.
    rewrite inject_Z_plus in H.
    apply (Qplus_lt_l _ _ (1 # 2)).
    eapply Qlt_le_trans; [exact H|].
    assert (E : (inject_Z (Qfloor (q + (1 # 2))) + (1 # 2) + (1 # 2) ==
                 inject_Z (Qfloor (q + (1 # 2))) + inject_Z 1)%Q) by ring.
    rewrite E. apply Qle_refl.
Qed.

Example Math_round_85 : Math_round (85 # 1) = 85.
Proof. reflexivity. Qed.

Example Math_round_half_up : Math_round (169 # 2) = 85 /\ Math_round (-5 # 2) = -2.
Proof. split; reflexivity. Qed.

Lemma falsyScore_nonzero (score : Q) :
  Qnum score <> 0 -> falsyScore (Some score) = false.
Proof. intros H. cbn. by apply Z.eqb_neq. Qed.

(** C4, as amended: for a pull request whose overall score is neither null
    nor zero, the award first looks up the author's membership in the
    account of the pull request's repository.  Without a membership it
    returns normally and changes nothing.  With a membership and the author's
    user row homed in that account, it adds [round(overallScore)] to the
    author's points, appends exactly one transaction with reason
    [pr_merged] and that amount, and stores that amount as
    [pointsAwarded].  With a membership but the user row homed in another
    account, the points update is rejected and nothing is changed. *)
Theorem calculateAndAwardPoints_gate :
  forall (db : DB) (prId : string) (pr : PullRequest) (score : Q)
         (repository : Repository),
    pullRequests db !! prId = Some pr ->
    pr_overallScore pr = Some score ->
    Qnum score <> 0 ->
    repositories db !! pr_repositoryId pr = Some repository ->
    let accountId := repo_accountId repository in
    let points := Math_round score in
    let db' := exec (calculateAndAwardPoints prId) db in
    (userOrganizations db !! (pr_authorId pr, accountId) = None ->
       outcome (calculateAndAwardPoints prId) db = Ok tt /\ db' = db) /\
    (forall (m : Membership) (u : User) (acct : Account),
       userOrganizations db !! (pr_authorId pr, accountId) = Some m ->
       users db !! pr_authorId pr = Some u ->
       user_accountId u = accountId ->
       accounts db !! accountId = Some acct ->
       outcome (calculateAndAwardPoints prId) db = Ok tt /\
       (exists u', users db' !! pr_authorId pr = Some u' /\
                   user_points u' = user_points u + points) /\
       pointTransactions db' =
         (pointTransactions db ++
            [mkPointTransaction (pr_authorId pr) accountId points
               "pr_merged" prId "pullrequest"])%list /\
       (exists pr', pullRequests db' !! prId = Some pr' /\
                    pr_pointsAwarded pr' = Some points)) /\
    (forall (m : Membership) (u : User),
       userOrganizations db !! (pr_authorId pr, accountId) = Some m ->
       users db !! pr_authorId pr = Some u ->
       user_accountId u <> accountId ->
       outcome (calculateAndAwardPoints prId) db = Throw RecordNotFound /\ db' = db).
Proof.
  intros db prId pr score repository Hpr Hscore Hnz Hrepo accountId points db'.
  subst db'. unfold exec, outcome, calculateAndAwardPoints.
  unfold_prisma. unfold_monad. cbn.
  rewrite Hpr. cbn. rewrite Hscore. cbn.
  rewrite (proj2 (Z.eqb_neq _ _) Hnz). cbn. rewrite Hrepo. cbn.
  fold accountId. fold points.
  split; [|split].
  - intros ->. done.
  - intros m u acct -> Hu Hhome Hacct. cbn. rewrite Hu. cbn.
    rewrite Hhome, String.eqb_refl. cbn. rewrite Hacct. cbn. rewrite Hpr. cbn.
    rewrite checkAndUpdateUserLevel_run. cbn. rewrite lookup_insert_eq.
    split; [done|].
    destruct (_ >? _); cbn; rewrite ?lookup_insert_eq.
    + split; [eexists; split; [done | cbn; lia]|]. split; [done|].
      eexists; split; done.
    + split; [eexists; split; [done | cbn; lia]|]. split; [done|].
      eexists; split; done.
  - intros m u -> Hu Hhome. cbn. rewrite Hu. cbn.
    destruct (String.eqb_spec (user_accountId u) accountId); [done|]. done.
Qed.

Lemma calculateAndAwardPoints_gate_witness :
  pullRequests exampleStore !! "300" = Some (examplePR "1" MERGED (Some (85 # 1)%Q)) /\
  repositories exampleStore !! "200" = Some widgets /\
  userOrganizations exampleStore !! ("1", "100") = Some (mkMembership "member") /\
  users exampleStore !! "1" = Some alice /\
  accounts exampleStore !! "100" = Some acme /\
  outcome (calculateAndAwardPoints "300") exampleStore = Ok tt /\
  pointTransactions (exec (calculateAndAwardPoints "300") exampleStore)
    = [mkPointTransaction "1" "100" 85 "pr_merged" "300" "pullrequest"].
Proof.
  do 5 (split; [reflexivity|]).
  assert (Hnz : Qnum (85 # 1) <> 0) by discriminate.
  destruct (calculateAndAwardPoints_gate exampleStore "300"
              (examplePR "1" MERGED (Some (85 # 1)%Q)) (85 # 1)%Q widgets
              eq_refl eq_refl Hnz eq_refl)
    as (_ & Hmember & _).
  destruct (Hmember (mkMembership "member") alice acme eq_refl eq_refl eq_refl eq_refl)
    as (Hok & _ & Htx & _).
  split; [exact Hok | exact Htx].
Defined.

(** C4 as stated fails on two pull requests of the example store.  Pull
    request 301 has the non-null score 0 and an author with a membership:
    nothing is appended to the ledger and [pointsAwarded] stays null.  Pull
    request 302 has score 85 and an author with a membership whose user
    row is homed in another account: the award throws and nothing is
    awarded. *)
Lemma calculateAndAwardPoints_not_always_awarded :
  (pr_overallScore <$> pullRequests exampleStore !! "301" = Some (Some (0 # 1)%Q) /\
   userOrganizations exampleStore !! ("1", "100") = Some (mkMembership "member") /\
   pointTransactions (exec (calculateAndAwardPoints "301") exampleStore) = [] /\
   pr_pointsAwarded <$> pullRequests (exec (calculateAndAwardPoints "301") exampleStore)
                          !! "301" = Some None) /\
  (pr_overallScore <$> pullRequests exampleStore !! "302" = Some (Some (85 # 1)%Q) /\
   userOrganizations exampleStore !! ("2", "100") = Some (mkMembership "member") /\
   outcome (calculateAndAwardPoints "302") exampleStore = Throw RecordNotFound /\
   users (exec (calculateAndAwardPoints "302") exampleStore) !! "2" = Some bob /\
   pointTransactions (exec (calculateAndAwardPoints "302") exampleStore) = []).
Proof. repeat split; vm_compute; reflexivity. Qed.

(** ** Pull-request files *)

Lemma forOf_create_rows prId files db :
  forOf files (fun file => prisma.pullRequestFile_create (fileRow prId file)) db =
    (Ok tt,
     set_pullRequestFiles (fun rows => (rows ++ List.map (fileRow prId) files)%list) db).
Proof.
  revert db. induction files as [|file files IH]; intros db.
  - cbn. unfold ret, set_pullRequestFiles. rewrite app_nil_r. by destruct db.
  - cbn [forOf]. unfold bind at 1. unfold prisma.pullRequestFile_create at 1.
    unfold modify at 1. rewrite IH. unfold set_pullRequestFiles. cbn.
    by rewrite <- app_assoc.
Qed.

Lemma storePullRequestFiles_run prId file files db :
  storePullRequestFiles prId (file :: files) db =
    (Ok tt,
     set_pullRequestFiles
       (fun rows =>
          (List.filter (fun r => negb (String.eqb (file_pullRequestId r) prId)) rows
           ++ List.map (fileRow prId) (file :: files))%list) db).
Proof.
  unfold storePullRequestFiles, tryCatch.
  unfold bind at 1. unfold prisma.pullRequestFile_deleteMany, modify at 1.
  rewrite forOf_create_rows. reflexivity.
Qed.

Lemma filter_fileRow_same prId files :
  List.filter (fun r => String.eqb (file_pullRequestId r) prId)
              (List.map (fileRow prId) files) = List.map (fileRow prId) files.
Proof.
  induction files as [|f files IH]; [done|].
  cbn. rewrite String.eqb_refl. by rewrite IH.
Qed.

Lemma filter_fileRow_other prId files :
  List.filter (fun r => negb (String.eqb (file_pullRequestId r) prId))
              (List.map (fileRow prId) files) = [].
Proof.
  induction files as [|f files IH]; [done|].
  cbn. rewrite String.eqb_refl. cbn. exact IH.
Qed.

Lemma filter_other_same prId (rows : list PullRequestFile) :
  List.filter (fun r => String.eqb (file_pullRequestId r) prId)
    (List.filter (fun r => negb (String.eqb (file_pullRequestId r) prId)) rows) = [].
Proof.
  induction rows as [|r rows IH]; [done|].
  cbn. destruct (String.eqb (file_pullRequestId r) prId) eqn:E; cbn; [done|].
  by rewrite E.
Qed.

Lemma filter_other_idem prId (rows : list PullRequestFile) :
  List.filter (fun r => negb (String.eqb (file_pullRequestId r) prId))
    (List.filter (fun r => negb (String.eqb (file_pullRequestId r) prId)) rows)
  = List.filter (fun r => negb (String.eqb (file_pullRequestId r) prId)) rows.
Proof.
  induction rows as [|r rows IH]; [done|].
  cbn. destruct (String.eqb (file_pullRequestId r) prId) eqn:E; cbn; [done|].
  rewrite E. cbn. by rewrite IH.
Qed.

(** C7, as amended: for every pull request id and every non-empty file
    list, [storePullRequestFiles] deletes the rows of that pull request and
    inserts the given files, so that afterwards the rows persisted for the
    pull request are exactly the given list, in order and without
    duplication, and the rows of other pull requests are as before; a
    second call with the same list changes nothing.  For an empty list the
    call returns before deleting and the store is left as it was. *)
Theorem storePullRequestFiles_replaces :
  forall (db : DB) (prId : string) (files : list GitHubFile),
    let db' := exec (storePullRequestFiles prId files) db in
    outcome (storePullRequestFiles prId files) db = Ok tt /\
    (files = [] -> db' = db) /\
    (files <> [] ->
       filesOf prId db' = List.map (fileRow prId) files /\
       filesOfOthers prId db' = filesOfOthers prId db /\
       exec (storePullRequestFiles prId files) db' = db').
Proof.
  intros db prId files db'. subst db'. unfold exec, outcome.
  destruct files as [|file files].
  - cbn. split; [done|]. split; done.
  - rewrite storePullRequestFiles_run. cbn [fst snd].
    split; [done|]. split; [done|]. intros _.
    unfold filesOf, filesOfOthers. cbn [pullRequestFiles set_pullRequestFiles].
    rewrite !List.filter_app, filter_other_same, filter_fileRow_same,
      filter_other_idem, filter_fileRow_other, app_nil_r.
    split; [done|]. split; [done|].
    rewrite storePullRequestFiles_run. cbn [snd].
    unfold set_pullRequestFiles.
    cbn [accounts repositories users userOrganizations pullRequests commits
         prCommits pullRequestFiles pointTransactions].
    by rewrite List.filter_app, filter_other_idem, filter_fileRow_other, app_nil_r.
Qed.

Lemma storePullRequestFiles_replaces_witness :
  [readme; mainTs] <> [] /\
  filesOf "300" (exec (storePullRequestFiles "300" [readme; mainTs]) storeWithFiles)
    = [fileRow "300" readme; fileRow "300" mainTs] /\
  filesOfOthers "300" (exec (storePullRequestFiles "300" [readme; mainTs]) storeWithFiles)
    = [fileRow "301" mainTs].
Proof.
  assert (Hne : [readme; mainTs] <> []) by discriminate.
  split; [exact Hne|].
  destruct (storePullRequestFiles_replaces storeWithFiles "300" [readme; mainTs])
    as (_ & _ & Hreplace).
  destruct (Hreplace Hne) as (Hrows & Hothers & _).
  split; [exact Hrows | exact Hothers].
Defined.

(** C7 as stated fails for the empty list: pull request 300 has a row
    persisted, the call with no files returns at once, and the stale row
    is still there although the given list is empty. *)
Lemma storePullRequestFiles_empty_keeps_rows :
  filesOf "300" storeWithFiles = [fileRow "300" readme] /\
  filesOf "300" (exec (storePullRequestFiles "300" []) storeWithFiles)
    = [fileRow "300" readme] /\
  filesOf "300" (exec (storePullRequestFiles "300" []) storeWithFiles)
    <> List.map (fileRow "300") [].
Proof. repeat split; try reflexivity. discriminate. Qed.

(** ** Pull-request upsert *)

Section EncryptionProperties.

Variable encryptContent : string -> Outcome string.
Variable isEncrypted : string -> bool.

(** When [encryptContent] returns, a closed or merged pull request is
    stored with the ciphertext as its description. *)
Lemma storePullRequest_encrypts db prData accountId repoId text cipher :
  prData_body prData = Some text ->
  Js.truthy_string text = true ->
  mapPRState (prData_state prData) (prData_merged prData) <> OPEN ->
  isEncrypted text = false ->
  encryptContent text = Ok cipher ->
  exists row,
    outcome (storePullRequest encryptContent isEncrypted prData accountId repoId) db
      = Ok row /\
    pr_description row = Some cipher /\
    pullRequests (exec (storePullRequest encryptContent isEncrypted prData accountId repoId) db)
      !! Js.toString (prData_id prData) = Some row.
Proof.
  intros Hbody Htruthy Hstate Hplain Henc.
  unfold storePullRequest, exec, outcome. rewrite Hbody, Htruthy, Hplain.
  destruct (mapPRState (prData_state prData) (prData_merged prData)); [done| |];
    unfold_prisma; unfold_monad; cbn; rewrite Henc; cbn;
    destruct (pullRequests db !! Js.toString (prData_id prData));
    cbn; eexists; rewrite lookup_insert_eq; done.
Qed.

(** When [encryptContent] throws, [storePullRequest] throws too and stores
    nothing: the call is made before the [try] block. *)
Lemma storePullRequest_encrypt_failure db prData accountId repoId text e :
  prData_body prData = Some text ->
  Js.truthy_string text = true ->
  mapPRState (prData_state prData) (prData_merged prData) <> OPEN ->
  isEncrypted text = false ->
  encryptContent text = Throw e ->
  storePullRequest encryptContent isEncrypted prData accountId repoId db = (Throw e, db).
Proof.
  intros Hbody Htruthy Hstate Hplain Henc.
  unfold storePullRequest. rewrite Hbody, Htruthy, Hplain.
  destruct (mapPRState (prData_state prData) (prData_merged prData)); [done| |];
    unfold_monad; cbn; by rewrite Henc.
Qed.

(** When [encryptContent] throws, [updatePullRequestStatus] returns
    normally and keeps the plaintext description. *)
Lemma updatePullRequestStatus_encrypt_failure db prId state mergedAt closedAt pr text e :
  pullRequests db !! prId = Some pr ->
  pr_description pr = Some text ->
  Js.truthy_string text = true ->
  isEncrypted text = false ->
  encryptContent text = Throw e ->
  updatePullRequestStatus encryptContent isEncrypted prId state mergedAt closedAt db =
    (Ok tt,
     set_pullRequests
       (insert prId (setDescriptionAndStatus state (Some text) mergedAt (Some closedAt) pr))
       db).
Proof.
  intros Hpr Hdesc Htruthy Hplain Henc.
  unfold updatePullRequestStatus. unfold_prisma. unfold_monad. cbn.
  rewrite Hpr. cbn. rewrite Hdesc, Htruthy, Hplain. cbn. rewrite Henc. cbn.
  by rewrite Hpr.
Qed.

(** When [encryptContent] returns, [updatePullRequestStatus] stores the
    ciphertext. *)
Lemma updatePullRequestStatus_encrypts db prId state mergedAt closedAt pr text cipher :
  pullRequests db !! prId = Some pr ->
  pr_description pr = Some text ->
  Js.truthy_string text = true ->
  isEncrypted text = false ->
  encryptContent text = Ok cipher ->
  updatePullRequestStatus encryptContent isEncrypted prId state mergedAt closedAt db =
    (Ok tt,
     set_pullRequests
       (insert prId (setDescriptionAndStatus state (Some cipher) mergedAt (Some closedAt) pr))
       db).
Proof.
  intros Hpr Hdesc Htruthy Hplain Henc.
  unfold updatePullRequestStatus. unfold_prisma. unfold_monad. cbn.
  rewrite Hpr. cbn. rewrite Hdesc, Htruthy, Hplain. cbn. rewrite Henc. cbn.
  by rewrite Hpr.
Qed.

End EncryptionProperties.

(** C3: a closed pull request with the plaintext description "secret notes"
    is stored while [encryptContent] throws.  The claim has the plaintext
    persisted and no error leaving the operation; [storePullRequest] throws
    the encryption error and persists no row, whereas
    [updatePullRequestStatus] on a stored pull request returns normally and
    keeps the plaintext. *)
Theorem storePullRequest_encryption_error_propagates :
  mapPRState (prData_state closedPrData) (prData_merged closedPrData) = CLOSED /\
  prData_body closedPrData = Some "secret notes" /\
  prefixIsEncrypted "secret notes" = false /\
  outcome (storePullRequest failingEncrypt prefixIsEncrypted closedPrData "100" "200")
          exampleStore = Throw CapabilityError /\
  pullRequests
    (exec (storePullRequest failingEncrypt prefixIsEncrypted closedPrData "100" "200")
          exampleStore) !! "400" = None /\
  outcome (updatePullRequestStatus failingEncrypt prefixIsEncrypted "300" CLOSED None
             1700000000000) exampleStore = Ok tt /\
  pr_description <$>
    pullRequests
      (exec (updatePullRequestStatus failingEncrypt prefixIsEncrypted "300" CLOSED None
               1700000000000) exampleStore) !! "300" = Some (Some "plain text").
Proof.
  do 3 (split; [reflexivity|]).
  unfold exec, outcome.
  rewrite (storePullRequest_encrypt_failure failingEncrypt prefixIsEncrypted exampleStore
             closedPrData "100" "200" "secret notes" CapabilityError)
    by (try reflexivity; discriminate).
  do 2 (split; [reflexivity|]).
  rewrite (updatePullRequestStatus_encrypt_failure failingEncrypt prefixIsEncrypted
             exampleStore "300" CLOSED None 1700000000000
             (examplePR "1" MERGED (Some (85 # 1)%Q)) "plain text" CapabilityError)
    by reflexivity.
  split; reflexivity.
Qed.

(** ** Account-id resolution *)

Lemma resolveWithInstallation_precedence p repository :
  resolveWithInstallation p repository = resolved (firstPresent (precedence p repository)).
Proof.
  unfold resolveWithInstallation, precedence, firstPresent, resolved. cbn.
  destruct (installationAccount p); [done|].
  destruct (present (payload_organization p)); [done|].
  destruct (present (repository_owner repository)); [done|].
  destruct (present (payload_sender p)); done.
Qed.

(** The pull-request handler follows the four-step precedence and never
    throws while resolving. *)
Lemma handlePullRequestEvent_precedence p pull_request repository :
  payload_pull_request p = Some pull_request ->
  payload_repository p = Some repository ->
  handlePullRequestEvent_accountId p
    = Ok (resolved (firstPresent (precedence p repository))).
Proof.
  intros Hpr Hrepo. unfold handlePullRequestEvent_accountId.
  by rewrite Hpr, Hrepo, resolveWithInstallation_precedence.
Qed.

(** So does the review handler. *)
Lemma handleReviewEvent_precedence p review pull_request repository :
  payload_review p = Some review ->
  payload_pull_request p = Some pull_request ->
  payload_repository p = Some repository ->
  handleReviewEvent_accountId p
    = Ok (resolved (firstPresent (precedence p repository))).
Proof.
  intros Hreview Hpr Hrepo. unfold handleReviewEvent_accountId.
  by rewrite Hreview, Hpr, Hrepo, resolveWithInstallation_precedence.
Qed.

(** So does the issue-comment handler, for a created or edited comment on a
    pull request of a delivery that names its repository. *)
Lemma handleIssueCommentEvent_precedence p url repository :
  payload_issue p = Some (mkIssuePayload (Some url)) ->
  payload_action p = "created" \/ payload_action p = "edited" ->
  payload_repository p = Some repository ->
  handleIssueCommentEvent_accountId p
    = Ok (resolved (firstPresent (precedence p repository))).
Proof.
  intros Hissue Haction Hrepo. unfold handleIssueCommentEvent_accountId.
  rewrite Hissue, Hrepo. cbn.
  assert (negb (payload_action p =? "created")%string
          && negb (payload_action p =? "edited")%string = false) as ->.
  { destruct Haction as [-> | ->]; reflexivity. }
  unfold precedence, firstPresent, resolved. cbn.
  destruct (installationAccount p); [done|].
  destruct (present (payload_organization p)); [done|].
  destruct (present (repository_owner repository)); [done|].
  destruct (present (payload_sender p)); done.
Qed.

(** Without a repository object the issue-comment handler throws as soon as
    the chain reaches [repository.owner]. *)
Lemma handleIssueCommentEvent_missing_repository p url :
  payload_issue p = Some (mkIssuePayload (Some url)) ->
  payload_action p = "created" ->
  installationAccount p = None ->
  present (payload_organization p) = None ->
  payload_repository p = None ->
  handleIssueCommentEvent_accountId p = Throw TypeError.
Proof.
  intros Hissue Haction Hinst Horg Hrepo. unfold handleIssueCommentEvent_accountId.
  by rewrite Hissue, Haction, Hinst, Horg, Hrepo.
Qed.

(** The push handler resolves among organization, repository owner and
    sender only. *)
Lemma handlePushEvent_precedence p repository :
  payload_repository p = Some repository ->
  handlePushEvent_accountId p
    = Ok (resolved (firstPresent [ present (payload_organization p);
                                   present (repository_owner repository);
                                   present (payload_sender p) ])).
Proof.
  intros Hrepo. unfold handlePushEvent_accountId. rewrite Hrepo.
  unfold firstPresent, resolved. cbn.
  destruct (present (payload_organization p)); [done|].
  destruct (present (repository_owner repository)); [done|].
  destruct (present (payload_sender p)); done.
Qed.

(** C6: on a delivery that carries installation account 7, organization 9,
    repository owner 11 and sender 13, the precedence order gives 7, and the
    pull-request, review and issue-comment handlers resolve 7, but the push
    handler resolves 9; on a delivery whose only candidate is the
    installation account the push handler finds no account id and drops
    the event. *)
Theorem handlePushEvent_skips_installation_account :
  firstPresent (precedence fullPayload widgetsPayload) = Some 7 /\
  handlePullRequestEvent_accountId fullPayload = Ok (AccountId "7") /\
  handleReviewEvent_accountId fullPayload = Ok (AccountId "7") /\
  handleIssueCommentEvent_accountId fullPayload = Ok (AccountId "7") /\
  handlePushEvent_accountId fullPayload = Ok (AccountId "9") /\
  handlePullRequestEvent_accountId installationOnlyPayload = Ok (AccountId "7") /\
  handlePushEvent_accountId installationOnlyPayload = Ok NoAccountId.
Proof. repeat split; vm_compute; reflexivity. Qed.

(** ** Commit linking *)

Lemma earliest_nil (l : list (string * Commit)) : earliest l = None <-> l = [].
Proof.
  destruct l as [|x l]; [done|]. cbn.
  destruct (earliest l) as [y|]; [|done].
  destruct (_ <=? _); done.
Qed.

(** [earliest] returns a member of the list whose [committedAt] is a lower
    bound of all of them. *)
Lemma earliest_minimum (l : list (string * Commit)) (x : string * Commit) :
  earliest l = Some x ->
  In x l /\
  forall y, In y l -> commit_committedAt (snd x) <= commit_committedAt (snd y).
Proof.
  revert x. induction l as [|a l IH]; intros x; [done|]. cbn.
  destruct (earliest l) as [m|] eqn:Hm.
  - destruct (IH m eq_refl) as (Hin & Hmin).
    destruct (Z.leb_spec (commit_committedAt (snd a)) (commit_committedAt (snd m)))
      as [Hle|Hgt]; intros [= <-].
    + split; [by left|]. intros y [<-|Hy]; [lia|]. specialize (Hmin y Hy). lia.
    + split; [by right|]. intros y [<-|Hy]; [lia|]. by apply Hmin.
  - intros [= <-]. apply earliest_nil in Hm. subst l.
    split; [by left|]. intros y [<-|[]]. lia.
Qed.

Lemma linkedCommits_set_pullRequests prId f db :
  linkedCommits prId (set_pullRequests f db) = linkedCommits prId db.
Proof. reflexivity. Qed.

(** What the recomputation of lines 511-534 leaves. *)
Lemma updateFirstCommitAt_run prId db :
  updateFirstCommitAt prId db =
    match earliest (linkedCommits prId db) with
    | None => (Ok tt, db)
    | Some (_, c) =>
        match pullRequests db !! prId with
        | Some pr =>
            (Ok tt,
             set_pullRequests
               (insert prId (setFirstCommitAt (commit_committedAt c) pr)) db)
        | None => (Throw RecordNotFound, db)
        end
    end.
Proof.
  unfold updateFirstCommitAt. unfold_prisma. unfold_monad. cbn.
  destruct (earliest (linkedCommits prId db)) as [[cid c]|]; [|done].
  cbn. destruct (pullRequests db !! prId); done.
Qed.

Lemma linkCommitsToPullRequest_try_run db prId owner repo prNumber github clock c0 cs :
  getPullRequestCommits github owner repo prNumber = Ok (Some (c0 :: cs)) ->
  linkCommitsToPullRequest_try prId owner repo prNumber github clock db =
    match linkCommits prId clock 0%nat (c0 :: cs) db with
    | (Ok _, db1) => updateFirstCommitAt prId db1
    | (Throw e, db1) => (Throw e, db1)
    end.
Proof.
  intros Hgithub. unfold linkCommitsToPullRequest_try. rewrite Hgithub.
  reflexivity.
Qed.

Lemma linkCommitsToPullRequest_run db prId owner repo prNumber github clock :
  exec (linkCommitsToPullRequest prId owner repo prNumber github clock) db =
    snd (linkCommitsToPullRequest_try prId owner repo prNumber github clock db).
Proof.
  unfold linkCommitsToPullRequest, exec, tryCatch, ret.
  by destruct (linkCommitsToPullRequest_try _ _ _ _ _ _ db) as [[[]|e] db1].
Qed.

(** ** Computations and the relations they keep *)

Section Keeps.

Context (R : DB -> DB -> Prop) `{!PreOrder R}.

Lemma keeps_ret {A} (a : A) : keeps R (ret a).
Proof. intros db. reflexivity. Qed.

Lemma keeps_throw {A} (e : Exn) : keeps R (@throw A e).
Proof. intros db. reflexivity. Qed.

Lemma keeps_gets {A} (f : DB -> A) : keeps R (gets f).
Proof. intros db. reflexivity. Qed.

Lemma keeps_liftOutcome {A} (o : Outcome A) : keeps R (liftOutcome o).
Proof. intros db. reflexivity. Qed.

Lemma keeps_modify (f : DB -> DB) : (forall db, R db (f db)) -> keeps R (modify f).
Proof. intros Hf db. apply Hf. Qed.

Lemma keeps_bind {A B} (m : Prisma A) (k : A -> Prisma B) :
  keeps R m -> (forall a, keeps R (k a)) -> keeps R (bind m k).
Proof.
  intros Hm Hk db. specialize (Hm db). unfold exec, bind in *.
  destruct (m db) as [[a|e] db1]; cbn in *; [|done].
  etransitivity; [exact Hm | apply Hk].
Qed.

Lemma keeps_tryCatch {A} (m : Prisma A) (handler : Exn -> Prisma A) :
  keeps R m -> (forall e, keeps R (handler e)) -> keeps R (tryCatch m handler).
Proof.
  intros Hm Hh db. specialize (Hm db). unfold exec, tryCatch in *.
  destruct (m db) as [[a|e] db1]; cbn in *; [done|].
  etransitivity; [exact Hm | apply Hh].
Qed.

Lemma keeps_forOf {A} (xs : list A) (body : A -> Prisma unit) :
  (forall x, keeps R (body x)) -> keeps R (forOf xs body).
Proof.
  intros Hbody. induction xs as [|x xs IH]; cbn [forOf].
  - apply keeps_ret.
  - apply keeps_bind; [apply Hbody | intros _; exact IH].
Qed.

End Keeps.

(** Walks down a computation, leaving one goal for each write. *)
Ltac keeps_class := try (match goal with |- PreOrder _ => apply _ end).

Ltac unfold_ops :=
  unfold calculateAndAwardPoints, awardPointsForReview, checkAndUpdateUserLevel,
    ensureUserExists, storePullRequestFiles, updateFirstCommitAt,
    pullRequest_connectCommit, commit_createLinked, commit_findFirst_bySha;
  unfold_prisma.

Ltac keeps_walk :=
  repeat match goal with
    | |- keeps _ (ret _) => apply keeps_ret; keeps_class
    | |- keeps _ (throw _) => apply keeps_throw; keeps_class
    | |- keeps _ (gets _) => apply keeps_gets; keeps_class
    | |- keeps _ (liftOutcome _) => apply keeps_liftOutcome; keeps_class
    | |- keeps _ (bind _ _) => apply keeps_bind; keeps_class; [|intros ?]
    | |- keeps _ (tryCatch _ _) => apply keeps_tryCatch; keeps_class; [|intros ?]
    | |- keeps _ (forOf _ _) => apply keeps_forOf; keeps_class; intros ?
    | |- keeps _ (modify _) => apply keeps_modify; intros ?
    | |- keeps _ (match ?x with _ => _ end) => destruct x
    | |- keeps _ _ => progress unfold_ops
    end.

#[local] Instance samePullRequests_preorder : PreOrder samePullRequests.
Proof.
  split.
  - intros db. reflexivity.
  - intros db1 db2 db3 H12 H23. unfold samePullRequests in *. congruence.
Qed.

(** The loop of lines 393-509 writes commits, links and users, never a
    pull-request row. *)
Lemma linkCommit_samePullRequests prId now commitData :
  keeps samePullRequests (linkCommit prId now commitData).
Proof. unfold linkCommit. keeps_walk; reflexivity. Qed.

Lemma linkCommits_samePullRequests prId clock i upstream :
  keeps samePullRequests (linkCommits prId clock i upstream).
Proof.
  revert i. induction upstream as [|c cs IH]; intros i; cbn [linkCommits].
  - apply keeps_ret; apply _.
  - apply keeps_bind; [apply _ | apply linkCommit_samePullRequests | intros _; apply IH].
Qed.

(** C8, as amended: when the upstream commit list is not empty and nothing
    is thrown (and swallowed) while linking, then after
    [linkCommitsToPullRequest] a pull request with at least one linked
    commit has [firstCommitAt] equal to the minimum [committedAt] over the
    commits linked to it: the value is the [committedAt] of a linked commit
    and no linked commit is earlier.  When the upstream list is missing or
    empty the store is left as it was, and when an error is thrown (and
    swallowed) while linking, every pull-request row, and so every
    [firstCommitAt], is left as it was. *)
Theorem linkCommitsToPullRequest_firstCommitAt :
  forall (db : DB) (prId owner repo : string) (prNumber : Z) (github : GitHub)
         (clock : nat -> Z),
    let db' := exec (linkCommitsToPullRequest prId owner repo prNumber github clock) db in
    (forall upstream : list CommitData,
       getPullRequestCommits github owner repo prNumber = Ok (Some upstream) ->
       upstream <> [] ->
       outcome (linkCommitsToPullRequest_try prId owner repo prNumber github clock) db
         = Ok tt ->
       linkedCommits prId db' <> [] ->
       exists (pr : PullRequest) (t : Z),
         pullRequests db' !! prId = Some pr /\
         pr_firstCommitAt pr = Some t /\
         (exists c, In c (linkedCommits prId db') /\ commit_committedAt (snd c) = t) /\
         (forall c, In c (linkedCommits prId db') -> t <= commit_committedAt (snd c))) /\
    (getPullRequestCommits github owner repo prNumber = Ok None \/
     getPullRequestCommits github owner repo prNumber = Ok (Some []) ->
       db' = db) /\
    (forall e,
       outcome (linkCommitsToPullRequest_try prId owner repo prNumber github clock) db
         = Throw e ->
       pullRequests db' = pullRequests db /\
       forall id pr, pullRequests db !! id = Some pr ->
         pr_firstCommitAt <$> pullRequests db' !! id = Some (pr_firstCommitAt pr)).
Proof.
  intros db prId owner repo prNumber github clock db'.
  subst db'. rewrite linkCommitsToPullRequest_run. unfold outcome.
  split; [|split].
  - intros upstream Hgithub Hne Hok.
    destruct upstream as [|c0 cs]; [done|].
    rewrite (linkCommitsToPullRequest_try_run db prId owner repo prNumber github clock
               c0 cs Hgithub) in *.
    destruct (linkCommits prId clock 0%nat (c0 :: cs) db) as [[[]|e] db1];
      [|cbn in Hok; discriminate].
    rewrite updateFirstCommitAt_run in *.
    destruct (earliest (linkedCommits prId db1)) as [[cid c]|] eqn:Hearliest.
    + destruct (pullRequests db1 !! prId) as [pr|] eqn:Hpr; [|cbn in Hok; discriminate].
      cbn [fst snd]. rewrite linkedCommits_set_pullRequests. intros _.
      destruct (earliest_minimum _ _ Hearliest) as (Hin & Hmin).
      exists (setFirstCommitAt (commit_committedAt c) pr), (commit_committedAt c).
      split; [cbn; apply lookup_insert_eq|]. split; [done|].
      split; [by exists (cid, c)|]. intros y Hy. exact (Hmin y Hy).
    + cbn [fst snd]. apply earliest_nil in Hearliest. done.
  - intros Hgithub. unfold linkCommitsToPullRequest_try, bind, liftOutcome.
    by destruct Hgithub as [-> | ->].
  - intros e Hthrow.
    assert (Hsame : pullRequests
                      (snd (linkCommitsToPullRequest_try prId owner repo prNumber github
                              clock db)) = pullRequests db).
    { destruct (getPullRequestCommits github owner repo prNumber)
        as [[[|c0 cs]|]|e0] eqn:Hgithub;
        try (unfold linkCommitsToPullRequest_try, bind, liftOutcome in *;
             by rewrite Hgithub in *).
      rewrite (linkCommitsToPullRequest_try_run db prId owner repo prNumber github clock
                 c0 cs Hgithub) in *.
      pose proof (linkCommits_samePullRequests prId clock 0%nat (c0 :: cs) db) as Hloop.
      unfold exec, samePullRequests in Hloop.
      destruct (linkCommits prId clock 0%nat (c0 :: cs) db) as [[[]|e1] db1];
        [|exact Hloop].
      rewrite updateFirstCommitAt_run in *.
      destruct (earliest (linkedCommits prId db1)) as [[cid c]|]; [|discriminate].
      destruct (pullRequests db1 !! prId); [discriminate | exact Hloop]. }
    split; [exact Hsame|]. intros id pr Hpr. by rewrite Hsame, Hpr.
Qed.

Lemma linkCommitsToPullRequest_firstCommitAt_witness :
  getPullRequestCommits (githubWith (Ok (Some upstreamCommits))) "acme" "widgets" 7
    = Ok (Some upstreamCommits) /\
  commits storeWithLocalCommit !! "aaa" = Some (mkCommit "aaa" "first" "1" "200" 3000) /\
  commits storeWithLocalCommit !! "bbb" = None /\
  commits storeWithLocalCommit !! "ccc" = None /\
  List.map fst
    (linkedCommits "300"
       (exec (linkCommitsToPullRequest "300" "acme" "widgets" 7
                (githubWith (Ok (Some upstreamCommits))) fixedClock)
             storeWithLocalCommit))
    = ["ccc"; "aaa"; "bbb"] /\
  (exists (pr : PullRequest) (t : Z),
    pullRequests
      (exec (linkCommitsToPullRequest "300" "acme" "widgets" 7
               (githubWith (Ok (Some upstreamCommits))) fixedClock)
            storeWithLocalCommit) !! "300" = Some pr /\
    pr_firstCommitAt pr = Some t /\
    (exists c,
       In c (linkedCommits "300"
               (exec (linkCommitsToPullRequest "300" "acme" "widgets" 7
                        (githubWith (Ok (Some upstreamCommits))) fixedClock)
                     storeWithLocalCommit)) /\
       commit_committedAt (snd c) = t) /\
    (forall c,
       In c (linkedCommits "300"
               (exec (linkCommitsToPullRequest "300" "acme" "widgets" 7
                        (githubWith (Ok (Some upstreamCommits))) fixedClock)
                     storeWithLocalCommit)) ->
       t <= commit_committedAt (snd c))) /\
  exec (linkCommitsToPullRequest "300" "acme" "widgets" 7 (githubWith (Ok (Some [])))
          fixedClock) storeAfterSwallowedError = storeAfterSwallowedError /\
  outcome (linkCommitsToPullRequest_try "300" "acme" "widgets" 7
             (githubWith (Ok (Some brokenUpstream))) fixedClock) exampleStore
    = Throw TypeError /\
  pullRequests
    (exec (linkCommitsToPullRequest "300" "acme" "widgets" 7
             (githubWith (Ok (Some brokenUpstream))) fixedClock) exampleStore)
    = pullRequests exampleStore.
Proof.
  do 4 (split; [reflexivity|]).
  split; [vm_compute; reflexivity|].
  split; [|split; [|split]].
  - destruct (linkCommitsToPullRequest_firstCommitAt storeWithLocalCommit "300" "acme"
                "widgets" 7 (githubWith (Ok (Some upstreamCommits))) fixedClock)
      as (Hlinked & _).
    apply (Hlinked upstreamCommits).
    + reflexivity.
    + discriminate.
    + vm_compute. reflexivity.
    + vm_compute. discriminate.
  - destruct (linkCommitsToPullRequest_firstCommitAt storeAfterSwallowedError "300"
                "acme" "widgets" 7 (githubWith (Ok (Some []))) fixedClock)
      as (_ & Hempty & _).
    apply Hempty. right. reflexivity.
  - vm_compute. reflexivity.
  - destruct (linkCommitsToPullRequest_firstCommitAt exampleStore "300" "acme"
                "widgets" 7 (githubWith (Ok (Some brokenUpstream))) fixedClock)
      as (_ & _ & Hthrown).
    apply (Hthrown TypeError). vm_compute. reflexivity.
Defined.

(** The scenario of the claim: three upstream commits, one stored and two
    not; afterwards all three are linked and [firstCommitAt] is the
    earliest of their timestamps. *)
Example linkCommitsToPullRequest_three_commits :
  let db' := exec (linkCommitsToPullRequest "300" "acme" "widgets" 7
                     (githubWith (Ok (Some upstreamCommits))) fixedClock)
                  storeWithLocalCommit in
  List.map (fun c => (fst c, commit_committedAt (snd c))) (linkedCommits "300" db')
    = [("ccc", 2000); ("aaa", 3000); ("bbb", 1000)] /\
  pr_firstCommitAt <$> pullRequests db' !! "300" = Some (Some 1000).
Proof. split; vm_compute; reflexivity. Qed.

(** C8 as stated fails in two ways.  On [brokenUpstream] the first commit
    is created and linked, the second throws, the error is swallowed and
    [firstCommitAt] is still null although a commit is linked.  On the
    store this leaves, a run whose upstream list is empty returns at once:
    the pull request still has its linked commit, with [committedAt]
    1000, and [firstCommitAt] is still null. *)
Lemma linkCommits_stale_firstCommitAt :
  (outcome (linkCommitsToPullRequest "300" "acme" "widgets" 7
              (githubWith (Ok (Some brokenUpstream))) fixedClock) exampleStore = Ok tt /\
   List.map (fun c => (fst c, commit_committedAt (snd c)))
            (linkedCommits "300" storeAfterSwallowedError) = [("bbb", 1000)] /\
   pr_firstCommitAt <$> pullRequests storeAfterSwallowedError !! "300" = Some None) /\
  (let db' := exec (linkCommitsToPullRequest "300" "acme" "widgets" 7
                      (githubWith (Ok (Some []))) fixedClock)
                   storeAfterSwallowedError in
   outcome (linkCommitsToPullRequest "300" "acme" "widgets" 7
              (githubWith (Ok (Some []))) fixedClock) storeAfterSwallowedError = Ok tt /\
   List.map (fun c => (fst c, commit_committedAt (snd c))) (linkedCommits "300" db')
     = [("bbb", 1000)] /\
   pr_firstCommitAt <$> pullRequests db' !! "300" = Some None).
Proof. repeat split; vm_compute; reflexivity. Qed.

(** * Properties of the further parts *)

(** ** Pull-request upsert and descriptions *)

Section DescriptionProperties.

Variable encryptContent decryptContent : string -> Outcome string.
Variable isEncrypted : string -> bool.

(** X1: [storePullRequest] writes one row or nothing.  When it throws the
    store is as before; when it returns, the store differs by the row under
    the pull request's id only, the row carries the mapped state, and on an
    update it keeps the number, repository, author, reviewers, first-commit
    time, overall score and awarded points of the row it replaces. *)
Theorem storePullRequest_frame :
  forall (db : DB) (prData : PrData) (accountId repoId : string),
    let key := Js.toString (prData_id prData) in
    let run := storePullRequest encryptContent isEncrypted prData accountId repoId db in
    (forall e, fst run = Throw e -> snd run = db) /\
    (forall row, fst run = Ok row ->
       snd run = set_pullRequests (insert key row) db /\
       pr_state row = mapPRState (prData_state prData) (prData_merged prData) /\
       pr_title row = prData_title prData /\
       (forall old, pullRequests db !! key = Some old ->
          pr_number row = pr_number old /\
          pr_repositoryId row = pr_repositoryId old /\
          pr_authorId row = pr_authorId old /\
          pr_reviewerIds row = pr_reviewerIds old /\
          pr_firstCommitAt row = pr_firstCommitAt old /\
          pr_overallScore row = pr_overallScore old /\
          pr_pointsAwarded row = pr_pointsAwarded old) /\
       (pullRequests db !! key = None ->
          pr_number row = prData_number prData /\
          pr_repositoryId row = repoId /\
          pr_authorId row = Js.toString (prData_user_id prData) /\
          pr_reviewerIds row = [] /\
          pr_firstCommitAt row = None /\
          pr_overallScore row = None /\
          pr_pointsAwarded row = None)).
Proof.
  intros db prData accountId repoId key run. subst run key.
  unfold storePullRequest. unfold_prisma. unfold_monad.
  destruct (prData_body prData) as [body|]; cbn.
  2: { split; [discriminate|]. intros row [= <-].
       destruct (pullRequests db !! _) eqn:E; cbn; repeat split; try done;
         intros; simplify_eq; done. }
  destruct (Js.truthy_string body); cbn.
  2: { split; [discriminate|]. intros row [= <-].
       destruct (pullRequests db !! _) eqn:E; cbn; repeat split; try done;
         intros; simplify_eq; done. }
  destruct (_ && negb (isEncrypted body)); cbn.
  2: { split; [discriminate|]. intros row [= <-].
       destruct (pullRequests db !! _) eqn:E; cbn; repeat split; try done;
         intros; simplify_eq; done. }
  destruct (encryptContent body) as [cipher|e]; cbn.
  - split; [discriminate|]. intros row [= <-].
    destruct (pullRequests db !! _) eqn:E; cbn; repeat split; try done;
      intros; simplify_eq; done.
  - split; [done | discriminate].
Qed.


(** X2: while a pull request is open, or when its description is already
    encrypted, [storePullRequest] stores the description as it came and
    does not call [encryptContent]: it returns normally even if
    encryption would throw. *)
Theorem storePullRequest_keeps_description :
  forall (db : DB) (prData : PrData) (accountId repoId text : string),
    prData_body prData = Some text ->
    Js.truthy_string text = true ->
    mapPRState (prData_state prData) (prData_merged prData) = OPEN \/
      isEncrypted text = true ->
    exists row,
      outcome (storePullRequest encryptContent isEncrypted prData accountId repoId) db
        = Ok row /\
      pr_description row = Some text /\
      pullRequests
        (exec (storePullRequest encryptContent isEncrypted prData accountId repoId) db)
        !! Js.toString (prData_id prData) = Some row.
Proof.
  intros db prData accountId repoId text Hbody Htruthy Hkeep.
  unfold storePullRequest, exec, outcome. rewrite Hbody, Htruthy.
  assert ((match mapPRState (prData_state prData) (prData_merged prData) with
           | OPEN => false | _ => true end) && negb (isEncrypted text) = false) as ->.
  { destruct Hkeep as [-> | ->]; [done|]. by rewrite andb_false_r. }
  unfold_prisma. unfold_monad. cbn.
  destruct (pullRequests db !! _); cbn; eexists; rewrite lookup_insert_eq; done.
Qed.

(** X3: [getPRDescription] never throws and never writes; when the stored
    description is encrypted and [decryptContent] throws, it returns
    null. *)
Theorem getPRDescription_total :
  forall (db : DB) (prId : string),
    (exists result, getPRDescription decryptContent isEncrypted prId db = (Ok result, db)) /\
    (forall pr text e,
       pullRequests db !! prId = Some pr ->
       pr_description pr = Some text ->
       isEncrypted text = true ->
       decryptContent text = Throw e ->
       getPRDescription decryptContent isEncrypted prId db = (Ok None, db)).
Proof.
  intros db prId. unfold getPRDescription. unfold_prisma. unfold_monad. cbn.
  split.
  - destruct (pullRequests db !! prId) as [pr|]; cbn; [|by eexists].
    destruct (pr_description pr) as [text|]; cbn; [|by eexists].
    destruct (Js.truthy_string text); cbn; [|by eexists].
    destruct (isEncrypted text); cbn; [|by eexists].
    destruct (decryptContent text); cbn; by eexists.
  - intros pr text e -> -> Henc Hdec. cbn.
    destruct (Js.truthy_string text); cbn; [|done].
    by rewrite Henc, Hdec.
Qed.

(** X4: a plaintext description survives the closing of its pull request.
    If every ciphertext [encryptContent] returns for it is a non-empty text
    that [isEncrypted] recognises and [decryptContent] turns back, then
    after [updatePullRequestStatus] the description read by
    [getPRDescription] is the original text, whether the encryption
    succeeded or threw. *)
Theorem description_round_trip :
  forall (db : DB) (prId : string) (state : PRState) (mergedAt : option Z)
         (closedAt : Z) (pr : PullRequest) (text : string),
    pullRequests db !! prId = Some pr ->
    pr_description pr = Some text ->
    Js.truthy_string text = true ->
    isEncrypted text = false ->
    (forall cipher,
       encryptContent text = Ok cipher ->
       Js.truthy_string cipher = true /\ isEncrypted cipher = true /\
       decryptContent cipher = Ok text) ->
    outcome (getPRDescription decryptContent isEncrypted prId)
      (exec (updatePullRequestStatus encryptContent isEncrypted prId state mergedAt closedAt)
            db)
      = Ok (Some text).
Proof.
  intros db prId state mergedAt closedAt pr text Hpr Hdesc Htruthy Hplain Hsound.
  unfold exec, outcome.
  destruct (encryptContent text) as [cipher|e] eqn:Henc.
  - rewrite (updatePullRequestStatus_encrypts encryptContent isEncrypted db prId state
               mergedAt closedAt pr text cipher) by done.
    destruct (Hsound cipher eq_refl) as (Hc1 & Hc2 & Hc3).
    unfold getPRDescription. unfold_prisma. unfold_monad. cbn.
    rewrite lookup_insert_eq. cbn. by rewrite Hc1, Hc2, Hc3.
  - rewrite (updatePullRequestStatus_encrypt_failure encryptContent isEncrypted db prId
               state mergedAt closedAt pr text e) by done.
    unfold getPRDescription. unfold_prisma. unfold_monad. cbn.
    rewrite lookup_insert_eq. cbn. by rewrite Htruthy, Hplain.
Qed.

End DescriptionProperties.

Lemma storePullRequest_frame_witness :
  exists row,
    outcome (storePullRequest prefixEncrypt prefixIsEncrypted closedPrData "100" "200")
            exampleStore = Ok row /\
    exec (storePullRequest prefixEncrypt prefixIsEncrypted closedPrData "100" "200")
         exampleStore = set_pullRequests (insert "400" row) exampleStore /\
    pr_state row = CLOSED /\
    pr_description row = Some "enc:secret notes".
Proof.
  eexists. split; [reflexivity|].
  destruct (storePullRequest_frame prefixEncrypt prefixIsEncrypted exampleStore
              closedPrData "100" "200") as (_ & Hok).
  destruct (Hok _ eq_refl) as (Hstore & Hstate & _).
  split; [exact Hstore|]. split; [exact Hstate | reflexivity].
Defined.

Lemma storePullRequest_keeps_description_witness :
  mapPRState "open" false = OPEN /\
  exists row,
    outcome (storePullRequest failingEncrypt prefixIsEncrypted
               (mkPrData 401 9 "Draft" (Some "work in progress") "open" false 1 0 1
                         None None 1) "100" "200") exampleStore = Ok row /\
    pr_description row = Some "work in progress".
Proof.
  split; [reflexivity|].
  destruct (storePullRequest_keeps_description failingEncrypt prefixIsEncrypted
              exampleStore
              (mkPrData 401 9 "Draft" (Some "work in progress") "open" false 1 0 1
                        None None 1)
              "100" "200" "work in progress" eq_refl eq_refl (or_introl eq_refl))
    as (row & Hok & Hdesc & _).
  exists row. split; [exact Hok | exact Hdesc].
Defined.

Lemma getPRDescription_total_witness :
  getPRDescription (fun _ => Throw CapabilityError) (fun _ => true) "300" exampleStore
    = (Ok None, exampleStore).
Proof.
  destruct (getPRDescription_total (fun _ => Throw CapabilityError) (fun _ => true)
              exampleStore "300") as (_ & Hfail).
  apply (Hfail (examplePR "1" MERGED (Some (85 # 1)%Q)) "plain text" CapabilityError);
    reflexivity.
Defined.

Lemma description_round_trip_witness :
  pullRequests exampleStore !! "300" = Some (examplePR "1" MERGED (Some (85 # 1)%Q)) /\
  prefixEncrypt "plain text" = Ok "enc:plain text" /\
  outcome (getPRDescription prefixDecrypt prefixIsEncrypted "300")
    (exec (updatePullRequestStatus prefixEncrypt prefixIsEncrypted "300" CLOSED None
             1700000000000) exampleStore)
    = Ok (Some "plain text").
Proof.
  do 2 (split; [reflexivity|]).
  apply (description_round_trip prefixEncrypt prefixDecrypt prefixIsEncrypted
           exampleStore "300" CLOSED None 1700000000000
           (examplePR "1" MERGED (Some (85 # 1)%Q)) "plain text");
    try reflexivity.
  intros cipher [= <-]. repeat split; vm_compute; reflexivity.
Defined.

(** ** The registrar *)

Ltac run_ensureUserExists :=
  unfold ensureUserExists; unfold_prisma; unfold_monad; cbn in *.

(** X5: for a user the store does not know, [ensureUserExists] creates the
    user with the given login, the account as home account, 0 points and
    level 1, together with the membership in that account (and the account
    itself when it is missing), and returns normally. *)
Theorem ensureUserExists_new_user :
  forall (db : DB) (userId login accountId : string),
    users db !! userId = None ->
    userOrganizations db !! (userId, accountId) = None ->
    let db' := exec (ensureUserExists userId login accountId) db in
    outcome (ensureUserExists userId login accountId) db = Ok tt /\
    users db' = <[userId := mkUser login None None accountId 0 1]> (users db) /\
    userOrganizations db'
      = <[(userId, accountId) := mkMembership "member"]> (userOrganizations db) /\
    accounts db' = accounts (withAccount login accountId db) /\
    repositories db' = repositories db /\
    pullRequests db' = pullRequests db /\
    commits db' = commits db /\
    prCommits db' = prCommits db /\
    pullRequestFiles db' = pullRequestFiles db /\
    pointTransactions db' = pointTransactions db.
Proof.
  intros [accts repos usrs orgs prs cms links files txs] userId login accountId Hu Ho.
  unfold withAccount. run_ensureUserExists.
  destruct (accts !! accountId) eqn:Ha; cbn; rewrite ?Ha; cbn; rewrite Hu; cbn;
    rewrite Hu; cbn; rewrite Ho; cbn; done.
Qed.

Lemma ensureUserExists_new_user_witness :
  users exampleStore !! "3" = None /\
  outcome (ensureUserExists "3" "carol" "100") exampleStore = Ok tt /\
  users (exec (ensureUserExists "3" "carol" "100") exampleStore) !! "3"
    = Some (mkUser "carol" None None "100" 0 1).
Proof.
  split; [reflexivity|].
  destruct (ensureUserExists_new_user exampleStore "3" "carol" "100" eq_refl eq_refl)
    as (Hok & Husers & _).
  split; [exact Hok|]. rewrite Husers. apply lookup_insert_eq.
Defined.

(** X6: when [ensureUserExists] returns normally, the account, the user
    and the membership all exist afterwards, and a second call with the
    same arguments returns normally and changes nothing. *)
Theorem ensureUserExists_idempotent :
  forall (db : DB) (userId login accountId : string),
    outcome (ensureUserExists userId login accountId) db = Ok tt ->
    let db' := exec (ensureUserExists userId login accountId) db in
    is_Some (accounts db' !! accountId) /\
    is_Some (users db' !! userId) /\
    is_Some (userOrganizations db' !! (userId, accountId)) /\
    ensureUserExists userId login accountId db' = (Ok tt, db').
Proof.
  intros [accts repos usrs orgs prs cms links files txs] userId login accountId.
  run_ensureUserExists.
  destruct (accts !! accountId) eqn:Ha; cbn; rewrite ?Ha; cbn;
    destruct (usrs !! userId) eqn:Hu; cbn; rewrite ?Hu; cbn;
    destruct (orgs !! (userId, accountId)) eqn:Ho; cbn; rewrite ?Ho; cbn;
    intros Hok; try discriminate;
    rewrite ?lookup_insert_eq, ?Ha, ?Hu, ?Ho; cbn;
    rewrite ?lookup_insert_eq, ?Ha, ?Hu, ?Ho; cbn;
    rewrite ?lookup_insert_eq, ?Ha, ?Hu, ?Ho; cbn;
    repeat split; eauto.
Qed.

Lemma ensureUserExists_idempotent_witness :
  outcome (ensureUserExists "3" "carol" "777") exampleStore = Ok tt /\
  ensureUserExists "3" "carol" "777"
    (exec (ensureUserExists "3" "carol" "777") exampleStore)
    = (Ok tt, exec (ensureUserExists "3" "carol" "777") exampleStore).
Proof.
  split; [reflexivity|].
  apply (ensureUserExists_idempotent exampleStore "3" "carol" "777" eq_refl).
Defined.

(** X7: whatever its outcome, [ensureUserExists] only adds rows: every
    account, user and membership of the store it found is still there,
    unchanged, and no other table is touched. *)
Theorem ensureUserExists_only_adds :
  forall (db : DB) (userId login accountId : string),
    let db' := exec (ensureUserExists userId login accountId) db in
    accounts db ⊆ accounts db' /\
    users db ⊆ users db' /\
    userOrganizations db ⊆ userOrganizations db' /\
    repositories db' = repositories db /\
    pullRequests db' = pullRequests db /\
    commits db' = commits db /\
    prCommits db' = prCommits db /\
    pullRequestFiles db' = pullRequestFiles db /\
    pointTransactions db' = pointTransactions db.
Proof.
  intros [accts repos usrs orgs prs cms links files txs] userId login accountId.
  run_ensureUserExists.
  destruct (accts !! accountId) eqn:Ha; cbn; rewrite ?Ha; cbn;
    destruct (usrs !! userId) eqn:Hu; cbn; rewrite ?Hu; cbn;
    destruct (orgs !! (userId, accountId)) eqn:Ho; cbn; rewrite ?Ho; cbn;
    repeat split; try done; by apply insert_subseteq.
Qed.

(** ** The points ledger *)

#[local] Arguments Math_round : simpl never.

Lemma awardPointsForReview_cases db userId prId reviewState :
  fst (awardPointsForReview userId prId reviewState db) = Ok tt ->
  snd (awardPointsForReview userId prId reviewState db) = db \/
  (0 < reviewPoints reviewState /\
   is_Some (pullRequests db !! prId) /\
   pullRequests (snd (awardPointsForReview userId prId reviewState db)) = pullRequests db /\
   awarded userId (reviewPoints reviewState) db
           (snd (awardPointsForReview userId prId reviewState db))).
Proof.
  unfold awardPointsForReview.
  destruct (Z.gtb_spec (reviewPoints reviewState) 0) as [Hpos|]; [|by left].
  unfold_prisma. unfold_monad. cbn.
  destruct (pullRequests db !! prId) as [pr|] eqn:Hpr; cbn; [|by left].
  destruct (users db !! userId) as [u|] eqn:Hu; cbn; [|discriminate].
  destruct (repositories db !! pr_repositoryId pr) as [repository|]; cbn; [|discriminate].
  destruct (accounts db !! repo_accountId repository); cbn; [|discriminate].
  rewrite checkAndUpdateUserLevel_run. cbn. rewrite lookup_insert_eq. cbn.
  intros _. right. split; [lia|]. split; [done|].
  destruct (Z.gtb_spec ((user_points u + reviewPoints reviewState) / 100 + 1)
                       (user_level u)); cbn.
  - split; [done|]. eexists u, _, _. split; [done|]. split.
    { cbn. by rewrite insert_insert_eq. }
    cbn. repeat split; try done. lia.
  - split; [done|]. eexists u, _, _. split; [done|]. split; [done|].
    cbn. repeat split; try done. lia.
Qed.

Lemma calculateAndAwardPoints_cases db prId :
  fst (calculateAndAwardPoints prId db) = Ok tt ->
  snd (calculateAndAwardPoints prId db) = db \/
  exists pr score,
    pullRequests db !! prId = Some pr /\
    pr_overallScore pr = Some score /\
    pullRequests (snd (calculateAndAwardPoints prId db))
      = <[prId := setPointsAwarded (Math_round score) pr]> (pullRequests db) /\
    awarded (pr_authorId pr) (Math_round score) db (snd (calculateAndAwardPoints prId db)).
Proof.
  unfold calculateAndAwardPoints. unfold_prisma. unfold_monad. cbn.
  destruct (pullRequests db !! prId) as [pr|] eqn:Hpr; cbn; [|by left].
  destruct (pr_overallScore pr) as [score|] eqn:Hscore; cbn; [|by left].
  destruct (Qnum score =? 0); cbn; [by left|].
  destruct (repositories db !! pr_repositoryId pr) as [repository|]; cbn; [|discriminate].
  destruct (userOrganizations db !! _); cbn; [|by left].
  destruct (users db !! pr_authorId pr) as [u|] eqn:Hu; cbn; [|discriminate].
  destruct (_ =? _)%string; cbn; [|discriminate].
  destruct (accounts db !! repo_accountId repository); cbn; [|discriminate].
  rewrite Hpr. cbn.
  rewrite checkAndUpdateUserLevel_run. cbn. rewrite lookup_insert_eq. cbn.
  intros _. right. exists pr, score. split; [done|]. split; [done|].
  destruct (Z.gtb_spec ((user_points u + Math_round score) / 100 + 1) (user_level u)); cbn.
  - split; [done|]. eexists u, _, _. split; [done|]. split.
    { cbn. by rewrite insert_insert_eq. }
    cbn. repeat split; try done. lia.
  - split; [done|]. eexists u, _, _. split; [done|]. split; [done|].
    cbn. repeat split; try done. lia.
Qed.

Lemma ledgerOf_app userId txs tx :
  ledgerOf userId (txs ++ [tx])
    = ledgerOf userId txs + (if String.eqb (tx_userId tx) userId then tx_amount tx else 0).
Proof.
  unfold ledgerOf. induction txs as [|t txs IH]; cbn.
  - destruct (_ =? _)%string; lia.
  - rewrite IH. destruct (tx_userId t =? userId)%string; lia.
Qed.

Lemma ledgerAgrees_refl db : ledgerAgrees db db.
Proof. intros userId u Hu. exists u. split; [done | lia]. Qed.

Lemma ledgerAgrees_trans db1 db2 db3 :
  ledgerAgrees db1 db2 -> ledgerAgrees db2 db3 -> ledgerAgrees db1 db3.
Proof.
  intros H12 H23 userId u Hu.
  destruct (H12 _ _ Hu) as (u2 & Hu2 & E2).
  destruct (H23 _ _ Hu2) as (u3 & Hu3 & E3).
  exists u3. split; [done | lia].
Qed.

Lemma awarded_ledgerAgrees userId amount db db' :
  awarded userId amount db db' -> ledgerAgrees db db'.
Proof.
  intros (u & u' & tx & Hu & Husers & Hpoints & _ & _ & _ & Htxs & Htxu & Htxa & _).
  intros other v Hv. rewrite Husers, Htxs, ledgerOf_app, Htxu, Htxa.
  destruct (String.eqb_spec userId other) as [->|Hne].
  - rewrite lookup_insert_eq. exists u'. split; [done|].
    assert (v = u) by congruence. subst v. lia.
  - rewrite lookup_insert_ne by done. exists v. split; [done | lia].
Qed.

Lemma runAward_ledgerAgrees op db :
  fst (runAward op db) = Ok tt -> ledgerAgrees db (snd (runAward op db)).
Proof.
  destruct op as [prId | userId prId reviewState]; unfold runAward; intros Hok.
  - destruct (calculateAndAwardPoints_cases db prId Hok)
      as [-> | (pr & score & _ & _ & _ & Haward)].
    + apply ledgerAgrees_refl.
    + eapply awarded_ledgerAgrees, Haward.
  - destruct (awardPointsForReview_cases db userId prId reviewState Hok)
      as [-> | (_ & _ & _ & Haward)].
    + apply ledgerAgrees_refl.
    + eapply awarded_ledgerAgrees, Haward.
Qed.

(** X8: the ledger explains the points.  Over any sequence of merge and
    review awards that all return normally, every user's points change by
    exactly the sum of the amounts appended to the ledger for that user. *)
Theorem points_match_ledger :
  forall (ops : list AwardOp) (db db' : DB),
    runAwardsOk ops db = Some db' ->
    forall (userId : string) (u : User),
      users db !! userId = Some u ->
      exists u',
        users db' !! userId = Some u' /\
        user_points u' - user_points u
          = ledgerOf userId (pointTransactions db')
            - ledgerOf userId (pointTransactions db).
Proof.
  intros ops db db' Hrun. change (ledgerAgrees db db').
  revert db Hrun. induction ops as [|op ops IH]; intros db Hrun; cbn in Hrun.
  - injection Hrun as <-. apply ledgerAgrees_refl.
  - destruct (runAward op db) as [[[]|e] db1] eqn:Hop; [|discriminate].
    eapply ledgerAgrees_trans; [|exact (IH db1 Hrun)].
    pose proof (runAward_ledgerAgrees op db) as H. rewrite Hop in H. by apply H.
Qed.

Lemma points_match_ledger_witness :
  exists u',
    users (exec (runAward (ReviewAward "1" "302" "APPROVED"))
                (exec (runAward (MergeAward "300")) exampleStore)) !! "1" = Some u' /\
    user_points u' - user_points alice = 95.
Proof.
  destruct (points_match_ledger [MergeAward "300"; ReviewAward "1" "302" "APPROVED"]
              exampleStore
              (exec (runAward (ReviewAward "1" "302" "APPROVED"))
                    (exec (runAward (MergeAward "300")) exampleStore))
              eq_refl "1" alice eq_refl) as (u' & Hu' & Hdelta).
  exists u'. split; [exact Hu'|]. rewrite Hdelta. reflexivity.
Defined.

(** ** The ledger over sequences of awards *)

#[local] Instance ledgerExtends_preorder : PreOrder ledgerExtends.
Proof.
  split.
  - intros db. exists []. by rewrite app_nil_r.
  - intros db1 db2 db3 [s1 H1] [s2 H2]. exists (s1 ++ s2)%list.
    by rewrite H2, H1, app_assoc.
Qed.

Lemma runAward_ledgerExtends op : keeps ledgerExtends (runAward op).
Proof.
  destruct op; unfold runAward; unfold_ops; keeps_walk;
    first [ by (exists []; cbn; rewrite app_nil_r) | by (eexists; cbn) ].
Qed.

(** X9: the ledger is append-only.  Over any sequence of merge and review
    awards, whether they return or throw, the ledger afterwards is the
    ledger before with entries appended: no entry is removed, reordered
    or altered. *)
Theorem ledger_append_only :
  forall (ops : list AwardOp) (db : DB),
    exists suffix,
      pointTransactions (runAwards ops db) = (pointTransactions db ++ suffix)%list.
Proof.
  intros ops db. change (ledgerExtends db (runAwards ops db)).
  revert db. induction ops as [|op ops IH]; intros db; cbn.
  - reflexivity.
  - etransitivity; [apply runAward_ledgerExtends | apply IH].
Qed.

(** The effect of a review award on a store that holds everything it
    refers to. *)
Lemma awardPointsForReview_effect db userId prId reviewState pr repository acct u :
  pullRequests db !! prId = Some pr ->
  repositories db !! pr_repositoryId pr = Some repository ->
  accounts db !! repo_accountId repository = Some acct ->
  users db !! userId = Some u ->
  reviewPoints reviewState > 0 ->
  exists (db1 : DB) (u1 : User),
    awardPointsForReview userId prId reviewState db = (Ok tt, db1) /\
    users db1 = <[userId := u1]> (users db) /\
    user_points u1 = user_points u + reviewPoints reviewState /\
    pointTransactions db1 =
      (pointTransactions db ++
         [mkPointTransaction userId (repo_accountId repository)
            (reviewPoints reviewState) "review_submitted" prId "pullrequest"])%list /\
    pullRequests db1 = pullRequests db /\
    repositories db1 = repositories db /\
    accounts db1 = accounts db /\
    userOrganizations db1 = userOrganizations db.
Proof.
  intros Hpr Hrepo Hacct Hu Hpos.
  rewrite (awardPointsForReview_run db userId prId reviewState pr repository acct u)
    by done.
  rewrite checkAndUpdateUserLevel_run. cbn. rewrite lookup_insert_eq. cbn.
  destruct (_ >? _); eexists _, _; (split; [reflexivity|]); cbn;
    rewrite ?insert_insert_eq; repeat split; reflexivity.
Qed.

(** X10: a review award is repeated on redelivery.  Running
    [awardPointsForReview] twice for the same reviewer, pull request and
    state adds the points twice and appends two ledger entries; nothing
    records that the review was already rewarded. *)
Theorem awardPointsForReview_repeats :
  forall (db : DB) (userId prId reviewState : string)
         (pr : PullRequest) (repository : Repository) (acct : Account) (u : User),
    pullRequests db !! prId = Some pr ->
    repositories db !! pr_repositoryId pr = Some repository ->
    accounts db !! repo_accountId repository = Some acct ->
    users db !! userId = Some u ->
    reviewPoints reviewState > 0 ->
    let award := awardPointsForReview userId prId reviewState in
    let entry := mkPointTransaction userId (repo_accountId repository)
                   (reviewPoints reviewState) "review_submitted" prId "pullrequest" in
    outcome award (exec award db) = Ok tt /\
    (exists u2, users (exec award (exec award db)) !! userId = Some u2 /\
                user_points u2 = user_points u + 2 * reviewPoints reviewState) /\
    pointTransactions (exec award (exec award db))
      = (pointTransactions db ++ [entry; entry])%list.
Proof.
  intros db userId prId reviewState pr repository acct u Hpr Hrepo Hacct Hu Hpos
         award entry.
  destruct (awardPointsForReview_effect db userId prId reviewState pr repository acct u)
    as (db1 & u1 & Hrun1 & Husers1 & Hpts1 & Htx1 & Hprs1 & Hrepos1 & Haccts1 & _);
    try done.
  destruct (awardPointsForReview_effect db1 userId prId reviewState pr repository acct u1)
    as (db2 & u2 & Hrun2 & Husers2 & Hpts2 & Htx2 & _); try done.
  { by rewrite Hprs1. } { by rewrite Hrepos1. } { by rewrite Haccts1. }
  { rewrite Husers1. apply lookup_insert_eq. }
  subst award. unfold exec, outcome. rewrite Hrun1. cbn [fst snd]. rewrite Hrun2.
  cbn [fst snd].
  split; [done|]. split.
  - exists u2. rewrite Husers2, lookup_insert_eq. split; [done | lia].
  - rewrite Htx2, Htx1, <- app_assoc. done.
Qed.

Lemma awardPointsForReview_repeats_witness :
  reviewPoints "APPROVED" > 0 /\
  pointTransactions
    (exec (awardPointsForReview "1" "302" "APPROVED")
          (exec (awardPointsForReview "1" "302" "APPROVED") exampleStore))
    = [mkPointTransaction "1" "100" 10 "review_submitted" "302" "pullrequest";
       mkPointTransaction "1" "100" 10 "review_submitted" "302" "pullrequest"].
Proof.
  assert (Hpos : reviewPoints "APPROVED" > 0) by reflexivity.
  split; [exact Hpos|].
  destruct (awardPointsForReview_repeats exampleStore "1" "302" "APPROVED"
              (examplePR "2" MERGED (Some (85 # 1)%Q)) widgets acme alice
              eq_refl eq_refl eq_refl eq_refl Hpos) as (_ & _ & Htx).
  exact Htx.
Defined.

(** The effect of a merge award on a store that holds everything it refers
    to. *)
Lemma calculateAndAwardPoints_effect db prId pr score repository m u acct :
  pullRequests db !! prId = Some pr ->
  pr_overallScore pr = Some score ->
  Qnum score <> 0 ->
  repositories db !! pr_repositoryId pr = Some repository ->
  userOrganizations db !! (pr_authorId pr, repo_accountId repository) = Some m ->
  users db !! pr_authorId pr = Some u ->
  user_accountId u = repo_accountId repository ->
  accounts db !! repo_accountId repository = Some acct ->
  exists (db1 : DB) (u1 : User),
    calculateAndAwardPoints prId db = (Ok tt, db1) /\
    users db1 = <[pr_authorId pr := u1]> (users db) /\
    user_points u1 = user_points u + Math_round score /\
    user_accountId u1 = user_accountId u /\
    pointTransactions db1 =
      (pointTransactions db ++
         [mkPointTransaction (pr_authorId pr) (repo_accountId repository)
            (Math_round score) "pr_merged" prId "pullrequest"])%list /\
    pullRequests db1 = <[prId := setPointsAwarded (Math_round score) pr]> (pullRequests db) /\
    repositories db1 = repositories db /\
    userOrganizations db1 = userOrganizations db /\
    accounts db1 = accounts db.
Proof.
  intros Hpr Hscore Hnz Hrepo Hm Hu Hhome Hacct.
  unfold calculateAndAwardPoints. unfold_prisma. unfold_monad. cbn.
  rewrite Hpr. cbn. rewrite Hscore. cbn.
  rewrite (proj2 (Z.eqb_neq _ _) Hnz). cbn. rewrite Hrepo. cbn. rewrite Hm. cbn.
  rewrite Hu. cbn. rewrite Hhome, String.eqb_refl. cbn. rewrite Hacct. cbn.
  rewrite Hpr. cbn. rewrite checkAndUpdateUserLevel_run. cbn.
  rewrite lookup_insert_eq. cbn.
  destruct (_ >? _); eexists _, _; (split; [reflexivity|]); cbn;
    rewrite ?insert_insert_eq; repeat split; first [reflexivity | cbn; congruence].
Qed.

(** X11: a merge award is repeated on redelivery.  Running
    [calculateAndAwardPoints] twice for the same pull request adds
    [round(overallScore)] to the author's points twice and appends two
    ledger entries: the [pointsAwarded] written by the first run does not
    stop the second. *)
Theorem calculateAndAwardPoints_repeats :
  forall (db : DB) (prId : string) (pr : PullRequest) (score : Q)
         (repository : Repository) (m : Membership) (u : User) (acct : Account),
    pullRequests db !! prId = Some pr ->
    pr_overallScore pr = Some score ->
    Qnum score <> 0 ->
    repositories db !! pr_repositoryId pr = Some repository ->
    userOrganizations db !! (pr_authorId pr, repo_accountId repository) = Some m ->
    users db !! pr_authorId pr = Some u ->
    user_accountId u = repo_accountId repository ->
    accounts db !! repo_accountId repository = Some acct ->
    let award := calculateAndAwardPoints prId in
    let entry := mkPointTransaction (pr_authorId pr) (repo_accountId repository)
                   (Math_round score) "pr_merged" prId "pullrequest" in
    pr_pointsAwarded <$> pullRequests (exec award db) !! prId
      = Some (Some (Math_round score)) /\
    outcome award (exec award db) = Ok tt /\
    (exists u2, users (exec award (exec award db)) !! pr_authorId pr = Some u2 /\
                user_points u2 = user_points u + 2 * Math_round score) /\
    pointTransactions (exec award (exec award db))
      = (pointTransactions db ++ [entry; entry])%list.
Proof.
  intros db prId pr score repository m u acct Hpr Hscore Hnz Hrepo Hm Hu Hhome Hacct
         award entry.
  destruct (calculateAndAwardPoints_effect db prId pr score repository m u acct)
    as (db1 & u1 & Hrun1 & Husers1 & Hpts1 & Hhome1 & Htx1 & Hprs1 & Hrepos1 & Horgs1
        & Haccts1); try done.
  destruct (calculateAndAwardPoints_effect db1 prId (setPointsAwarded (Math_round score) pr)
              score repository m u1 acct)
    as (db2 & u2 & Hrun2 & Husers2 & Hpts2 & _ & Htx2 & _); try done.
  { rewrite Hprs1. apply lookup_insert_eq. }
  { cbn. by rewrite Hrepos1. }
  { cbn. by rewrite Horgs1. }
  { cbn. rewrite Husers1. apply lookup_insert_eq. }
  { congruence. }
  { by rewrite Haccts1. }
  subst award. unfold exec, outcome. rewrite Hrun1. cbn [fst snd]. rewrite Hrun2.
  cbn [fst snd].
  split; [by rewrite Hprs1, lookup_insert_eq|]. split; [done|]. split.
  - exists u2. cbn in Husers2. rewrite Husers2, lookup_insert_eq. split; [done | lia].
  - cbn in Htx2. rewrite Htx2, Htx1, <- app_assoc. done.
Qed.

Lemma calculateAndAwardPoints_repeats_witness :
  pointTransactions
    (exec (calculateAndAwardPoints "300") (exec (calculateAndAwardPoints "300") exampleStore))
    = [mkPointTransaction "1" "100" 85 "pr_merged" "300" "pullrequest";
       mkPointTransaction "1" "100" 85 "pr_merged" "300" "pullrequest"].
Proof.
  assert (Hnz : Qnum (85 # 1) <> 0) by discriminate.
  destruct (calculateAndAwardPoints_repeats exampleStore "300"
              (examplePR "1" MERGED (Some (85 # 1)%Q)) (85 # 1)%Q widgets
              (mkMembership "member") alice acme
              eq_refl eq_refl Hnz eq_refl eq_refl eq_refl eq_refl eq_refl)
    as (_ & _ & _ & Htx).
  exact Htx.
Defined.

(** X12: an award never leaves a user below the level the points justify.
    Whenever a merge or review award returns normally and has changed a
    user's points, that user's level afterwards is at least
    [floor(points / 100) + 1]. *)
Theorem award_level_covers_points :
  forall (op : AwardOp) (db : DB) (userId : string) (u u' : User),
    outcome (runAward op) db = Ok tt ->
    users db !! userId = Some u ->
    users (exec (runAward op) db) !! userId = Some u' ->
    user_points u' <> user_points u ->
    user_points u' / 100 + 1 <= user_level u'.
Proof.
  intros op db userId u u' Hok Hu Hu' Hchanged. unfold outcome, exec in *.
  assert (snd (runAward op db) = db \/
          exists who amount, awarded who amount db (snd (runAward op db))) as [Hsame|Haward].
  { destruct op as [prId | reviewer prId reviewState]; unfold runAward in *.
    - destruct (calculateAndAwardPoints_cases db prId Hok)
        as [-> | (pr & score & _ & _ & _ & Haward)]; [by left | right; eauto].
    - destruct (awardPointsForReview_cases db reviewer prId reviewState Hok)
        as [-> | (_ & _ & _ & Haward)]; [by left | right; eauto]. }
  - rewrite Hsame in Hu'. congruence.
  - destruct Haward as (who & amount & v & v' & tx & Hv & Husers & Hpts & Hlevel & _).
    rewrite Husers in Hu'.
    destruct (decide (who = userId)) as [->|Hne].
    + rewrite lookup_insert_eq in Hu'. assert (u' = v') by congruence. subst u'.
      rewrite Hlevel, Hpts. lia.
    + rewrite lookup_insert_ne in Hu' by done. congruence.
Qed.

Lemma award_level_covers_points_witness :
  exists u',
    users (exec (runAward (MergeAward "300")) exampleStore) !! "1" = Some u' /\
    user_points u' = 205 /\
    user_points u' / 100 + 1 <= user_level u'.
Proof.
  eexists. split; [reflexivity|]. split; [reflexivity|].
  apply (award_level_covers_points (MergeAward "300") exampleStore "1" alice);
    [reflexivity | reflexivity | reflexivity | discriminate].
Defined.

(** ** Score labels *)

Lemma generateScoreLabelProps_name score :
  exists category,
    label_name (generateScoreLabelProps score)
      = "Wellcode Score: " ++ Js.toString (Z.max 0 (Z.min 100 (Math_round score)))
        ++ " - " ++ category.
Proof.
  unfold generateScoreLabelProps.
  repeat match goal with |- context [if ?c then _ else _] => destruct c end;
    eexists; reflexivity.
Qed.

(** X13: a score label is always recognised as one.  Whatever the score,
    the label name [generateScoreLabelProps] builds passes the filter by
    which [addScoreLabelToPR] selects the labels to remove, so a label
    added by one run is among those the next run removes. *)
Theorem generated_label_is_removed :
  forall (score : Q) (labels : list string),
    In (label_name (generateScoreLabelProps score)) labels ->
    In (label_name (generateScoreLabelProps score)) (scoreLabels labels).
Proof.
  intros score labels Hin. unfold scoreLabels. apply List.filter_In.
  split; [exact Hin|].
  destruct (generateScoreLabelProps_name score) as [category ->]. reflexivity.
Qed.

Lemma generated_label_is_removed_witness :
  In "Wellcode Score: 85 - Good"
     (scoreLabels ["bug"; "Wellcode Score: 85 - Good"; "help wanted"]).
Proof.
  apply (generated_label_is_removed (85 # 1)%Q
           ["bug"; "Wellcode Score: 85 - Good"; "help wanted"]).
  right. left. reflexivity.
Defined.

(** X14: a score label is consistent.  The number shown in the name is the
    rounded score clamped to 0..100, and it lies in the range the
    description announces: 90-100, 75-89, 60-74, 40-59 or below 40. *)
Theorem generateScoreLabelProps_consistent :
  forall score : Q,
    let shown := Z.max 0 (Z.min 100 (Math_round score)) in
    let props := generateScoreLabelProps score in
    0 <= shown <= 100 /\
    (exists category,
       label_name props = "Wellcode Score: " ++ Js.toString shown ++ " - " ++ category) /\
    (Math_round score <= 0 -> shown = 0) /\
    (100 <= Math_round score -> shown = 100) /\
    (label_description props = "Excellent code quality (90-100)" <-> 90 <= shown) /\
    (label_description props = "Good code quality (75-89)" <-> 75 <= shown <= 89) /\
    (label_description props = "Average code quality (60-74)" <-> 60 <= shown <= 74) /\
    (label_description props = "Needs improvement (40-59)" <-> 40 <= shown <= 59) /\
    (label_description props = "Significant issues detected (<40)" <-> shown <= 39).
Proof.
  intros score shown props.
  split; [subst shown; lia|].
  split; [apply generateScoreLabelProps_name|].
  split; [subst shown; lia|].
  split; [subst shown; lia|].
  subst props. unfold generateScoreLabelProps. fold shown.
  assert (Hrange : 0 <= shown <= 100) by (subst shown; lia).
  clearbody shown.
  destruct (Z.geb_spec shown 90); [cbn; repeat split; intros; first [done | lia]|].
  destruct (Z.geb_spec shown 75); [cbn; repeat split; intros; first [done | lia]|].
  destruct (Z.geb_spec shown 60); [cbn; repeat split; intros; first [done | lia]|].
  destruct (Z.geb_spec shown 40); cbn; repeat split; intros; first [done | lia].
Qed.

Lemma generateScoreLabelProps_consistent_witness :
  label_name (generateScoreLabelProps (1234 # 10)) = "Wellcode Score: 100 - Excellent" /\
  label_name (generateScoreLabelProps (-7 # 1)) = "Wellcode Score: 0 - Critical Issues".
Proof.
  destruct (generateScoreLabelProps_consistent (1234 # 10)) as (_ & _ & _ & Hhigh & _).
  destruct (generateScoreLabelProps_consistent (-7 # 1)) as (_ & _ & Hlow & _).
  assert (H100 : Z.max 0 (Z.min 100 (Math_round (1234 # 10))) = 100)
    by (apply Hhigh; vm_compute; discriminate).
  assert (H0 : Z.max 0 (Z.min 100 (Math_round (-7 # 1))) = 0)
    by (apply Hlow; vm_compute; discriminate).
  split; reflexivity.
Defined.

(** ** Commit linking *)

Lemma sameButFirstCommitAt_refl pr : sameButFirstCommitAt pr pr.
Proof. by left. Qed.

Lemma sameButFirstCommitAt_trans pr1 pr2 pr3 :
  sameButFirstCommitAt pr1 pr2 -> sameButFirstCommitAt pr2 pr3 ->
  sameButFirstCommitAt pr1 pr3.
Proof.
  intros [-> | [t1 ->]] [-> | [t2 ->]].
  - by left.
  - right. by exists t2.
  - right. by exists t1.
  - right. by exists t2.
Qed.

#[local] Instance linkGrows_preorder prId : PreOrder (linkGrows prId).
Proof.
  split.
  - intros db. unfold linkGrows. repeat split; try done.
    destruct (pullRequests db !! prId); constructor. apply sameButFirstCommitAt_refl.
  - intros db1 db2 db3 (Hc1 & Hl1 & Hu1 & Ho1 & Hp1 & Ha1 & Hr1 & Hm1 & Hf1 & Ht1)
                       (Hc2 & Hl2 & Hu2 & Ho2 & Hp2 & Ha2 & Hr2 & Hm2 & Hf2 & Ht2).
    unfold linkGrows. repeat split; try congruence.
    + by etransitivity.
    + by etransitivity.
    + by etransitivity.
    + intros id Hne. by rewrite Ho2, Ho1.
    + destruct Hp1 as [pr1 pr2 H12|]; inversion Hp2 as [pr2' pr3 H23 E1 E2|]; subst;
        constructor. eapply sameButFirstCommitAt_trans; eauto.
Qed.

Lemma linkGrows_user_create prId userId u :
  keeps (linkGrows prId) (prisma.user_create userId u).
Proof.
  intros db. unfold prisma.user_create, prisma.user_findUnique. unfold_monad. cbn.
  destruct (users db !! userId) eqn:Hu; cbn; [reflexivity|].
  unfold linkGrows. cbn. repeat split; try done.
  - by apply insert_subseteq.
  - destruct (pullRequests db !! prId); constructor. apply sameButFirstCommitAt_refl.
Qed.

Lemma linkGrows_connectCommit prId commitId :
  keeps (linkGrows prId) (pullRequest_connectCommit prId commitId).
Proof.
  intros db. unfold pullRequest_connectCommit, prisma.pullRequest_findUnique.
  unfold_monad. cbn.
  destruct (pullRequests db !! prId) eqn:Hpr; cbn; [|reflexivity].
  destruct (commits db !! commitId); cbn; [|reflexivity].
  unfold linkGrows. cbn. repeat split; try done.
  - set_solver.
  - rewrite Hpr. constructor. apply sameButFirstCommitAt_refl.
Qed.

Lemma linkGrows_createLinked prId commitId c :
  keeps (linkGrows prId) (commit_createLinked commitId c prId).
Proof.
  intros db. unfold commit_createLinked, prisma.pullRequest_findUnique.
  unfold_monad. cbn.
  destruct (commits db !! commitId) eqn:Hc; cbn; [reflexivity|].
  destruct (pullRequests db !! prId) eqn:Hpr; cbn; [|reflexivity].
  unfold linkGrows. cbn. repeat split; try done.
  - by apply insert_subseteq.
  - set_solver.
  - rewrite Hpr. constructor. apply sameButFirstCommitAt_refl.
Qed.

Lemma linkGrows_updateFirstCommitAt prId :
  keeps (linkGrows prId) (updateFirstCommitAt prId).
Proof.
  intros db. unfold exec. rewrite updateFirstCommitAt_run.
  destruct (earliest (linkedCommits prId db)) as [[cid c]|]; [|reflexivity].
  destruct (pullRequests db !! prId) as [pr|] eqn:Hpr; [|reflexivity].
  unfold linkGrows. cbn. repeat split; try done.
  - intros id Hne. by rewrite lookup_insert_ne.
  - rewrite Hpr, lookup_insert_eq. constructor. right. by eexists.
Qed.

Lemma linkGrows_linkCommit prId now commitData :
  keeps (linkGrows prId) (linkCommit prId now commitData).
Proof.
  unfold linkCommit, commit_findFirst_bySha, prisma.pullRequest_findUnique,
    prisma.repository_findUnique, prisma.user_findFirst.
  repeat match goal with
    | |- keeps _ (prisma.user_create _ _) => apply linkGrows_user_create
    | |- keeps _ (pullRequest_connectCommit _ _) => apply linkGrows_connectCommit
    | |- keeps _ (commit_createLinked _ _ _) => apply linkGrows_createLinked
    | |- keeps _ (ret _) => apply keeps_ret; keeps_class
    | |- keeps _ (throw _) => apply keeps_throw; keeps_class
    | |- keeps _ (gets _) => apply keeps_gets; keeps_class
    | |- keeps _ (bind _ _) => apply keeps_bind; keeps_class; [|intros ?]
    | |- keeps _ (match ?x with _ => _ end) => destruct x
    end.
Qed.

Lemma linkGrows_linkCommits prId clock i upstream :
  keeps (linkGrows prId) (linkCommits prId clock i upstream).
Proof.
  revert i. induction upstream as [|c cs IH]; intros i; cbn [linkCommits].
  - apply keeps_ret; apply _.
  - apply keeps_bind; [apply _ | apply linkGrows_linkCommit | intros _; apply IH].
Qed.

Lemma linkGrows_linkCommitsToPullRequest prId owner repo prNumber github clock :
  keeps (linkGrows prId)
        (linkCommitsToPullRequest prId owner repo prNumber github clock).
Proof.
  unfold linkCommitsToPullRequest, linkCommitsToPullRequest_try.
  apply keeps_tryCatch; [apply _ | | intros _; apply keeps_ret; apply _].
  apply keeps_bind; [apply _ | apply keeps_liftOutcome; apply _ |].
  intros [[|c cs]|]; try (apply keeps_ret; apply _).
  apply keeps_bind; [apply _ | apply linkGrows_linkCommits |].
  intros _. apply linkGrows_updateFirstCommitAt.
Qed.

(** X15: commit linking is best-effort and only adds.  Whatever the GitHub
    capability returns or throws, [linkCommitsToPullRequest] returns
    normally; every commit, link and user of the store it found is still
    there unchanged; the pull request it is called for keeps every field
    but its first-commit time; no other pull request and no other table
    changes. *)
Theorem linkCommitsToPullRequest_only_adds :
  forall (db : DB) (prId owner repo : string) (prNumber : Z) (github : GitHub)
         (clock : nat -> Z),
    let link := linkCommitsToPullRequest prId owner repo prNumber github clock in
    let db' := exec link db in
    outcome link db = Ok tt /\
    commits db ⊆ commits db' /\
    prCommits db ⊆ prCommits db' /\
    users db ⊆ users db' /\
    (forall id, id <> prId -> pullRequests db' !! id = pullRequests db !! id) /\
    option_Forall2 sameButFirstCommitAt (pullRequests db !! prId) (pullRequests db' !! prId) /\
    accounts db' = accounts db /\
    repositories db' = repositories db /\
    userOrganizations db' = userOrganizations db /\
    pullRequestFiles db' = pullRequestFiles db /\
    pointTransactions db' = pointTransactions db.
Proof.
  intros db prId owner repo prNumber github clock link db'. split.
  - subst link. unfold outcome, linkCommitsToPullRequest, tryCatch, ret.
    by destruct (linkCommitsToPullRequest_try _ _ _ _ _ _ db) as [[[]|e] db1].
  - exact (linkGrows_linkCommitsToPullRequest prId owner repo prNumber github clock db).
Qed.

#[local] Instance sameCommitsAndPullRequests_preorder :
  PreOrder sameCommitsAndPullRequests.
Proof.
  split.
  - intros db. by repeat split.
  - intros db1 db2 db3 (H1 & H2 & H3) (H4 & H5 & H6).
    repeat split; congruence.
Qed.

Lemma linkedSha_grows prId s db db' :
  linkGrows prId db db' -> linkedSha prId s db -> linkedSha prId s db'.
Proof.
  intros (Hc & Hl & _) (cid & row & Hrow & Hsha & Hlink).
  exists cid, row. split; [by eapply lookup_weaken|]. split; [done|]. set_solver.
Qed.

Lemma storedSha_grows prId s db db' :
  linkGrows prId db db' -> storedSha s db -> storedSha s db'.
Proof.
  intros (Hc & _) (cid & row & Hrow & Hsha).
  exists cid, row. split; [by eapply lookup_weaken | done].
Qed.

Lemma pullRequest_stays prId db db' :
  linkGrows prId db db' ->
  is_Some (pullRequests db !! prId) -> is_Some (pullRequests db' !! prId).
Proof.
  intros (_ & _ & _ & _ & Hpr & _) [pr Hsome]. rewrite Hsome in Hpr.
  inversion Hpr. by eexists.
Qed.

Lemma bind_run {A B} (m : Prisma A) (k : A -> Prisma B) db :
  bind m k db =
    match m db with
    | (Ok a, db1) => k a db1
    | (Throw e, db1) => (Throw e, db1)
    end.
Proof. reflexivity. Qed.

Lemma find_commit_stored s db cid row :
  List.find (fun '(cid, c) => String.eqb (commit_sha c) s || String.eqb cid s)
            (map_to_list (commits db)) = Some (cid, row) ->
  commits db !! cid = Some row /\ (commit_sha row = s \/ cid = s).
Proof.
  intros Hfind. apply List.find_some in Hfind as [Hin Hp].
  apply list_elem_of_In, elem_of_map_to_list in Hin.
  split; [done|]. apply orb_true_iff in Hp as [Hp|Hp]; apply String.eqb_eq in Hp; auto.
Qed.

Lemma find_commit_none s db :
  List.find (fun '(cid, c) => String.eqb (commit_sha c) s || String.eqb cid s)
            (map_to_list (commits db)) = None ->
  ~ storedSha s db.
Proof.
  intros Hfind (cid & row & Hrow & Hsha).
  pose proof (List.find_none _ _ Hfind (cid, row)) as Hp. cbn in Hp.
  rewrite orb_false_iff in Hp.
  destruct Hp as [Hp1 Hp2].
  { apply list_elem_of_In, elem_of_map_to_list. exact Hrow. }
  apply String.eqb_neq in Hp1, Hp2. destruct Hsha as [?|?]; congruence.
Qed.

Lemma linkCommit_links prId now commitData db :
  fst (linkCommit prId now commitData db) = Ok tt ->
  is_Some (pullRequests db !! prId) ->
  storedSha (sha commitData) db \/ is_Some (authorDataOf commitData) ->
  linkedSha prId (sha commitData) (snd (linkCommit prId now commitData db)).
Proof.
  intros Hok [pr Hpr] Hable.
  remember (linkCommit prId now commitData db) as r eqn:Hr.
  unfold linkCommit in Hr. rewrite bind_run in Hr.
  unfold commit_findFirst_bySha at 1 in Hr. unfold gets at 1 in Hr.
  destruct (List.find _ (map_to_list (commits db))) as [[cid row]|] eqn:Hfind.
  - apply find_commit_stored in Hfind as [Hrow Hsha].
    rewrite bind_run in Hr. unfold gets at 1 in Hr. rewrite Hpr in Hr.
    destruct (bool_decide ((prId, cid) ∈ prCommits db)) eqn:Hlinked.
    + subst r. cbn. apply bool_decide_eq_true in Hlinked.
      exists cid, row. split; [done|]. split; done.
    + unfold pullRequest_connectCommit, prisma.pullRequest_findUnique in Hr.
      unfold_monad. cbn in Hr. rewrite Hpr in Hr. cbn in Hr. rewrite Hrow in Hr.
      subst r. cbn. exists cid, row. cbn. split; [done|]. split; [done|]. set_solver.
  - apply find_commit_none in Hfind.
    destruct Hable as [Hstored | [authorData Hauthor]]; [done|].
    rewrite bind_run in Hr. unfold prisma.pullRequest_findUnique at 1 in Hr.
    unfold gets at 1 in Hr. rewrite Hpr in Hr. rewrite bind_run in Hr.
    unfold prisma.repository_findUnique at 1 in Hr.
    unfold gets at 1 in Hr. rewrite Hauthor in Hr. rewrite bind_run in Hr.
    unfold prisma.user_findFirst at 1 in Hr. unfold gets at 1 in Hr.
    rewrite bind_run in Hr.
    match type of Hr with
    | _ = (let (o, db1) := ?m db in _) =>
        assert (Hsame : keeps sameCommitsAndPullRequests m)
          by (keeps_walk; by repeat split);
        specialize (Hsame db); unfold exec in Hsame;
        destruct (m db) as [[authorId|e] db2]
    end; [|subst r; discriminate].
    destruct Hsame as (Hc2 & Hl2 & Hp2). cbn in Hc2, Hl2, Hp2.
    destruct (commit_author commitData) as [gitAuthor|]; [|subst r; discriminate].
    unfold commit_createLinked, prisma.pullRequest_findUnique in Hr.
    unfold_monad. cbn in Hr. rewrite Hc2 in Hr.
    destruct (commits db !! sha commitData) eqn:Hfree; [subst r; discriminate|].
    cbn in Hr. rewrite Hp2, Hpr in Hr. cbn in Hr.
    subst r. eexists (sha commitData), _. cbn.
    split; [apply lookup_insert_eq|]. split; [by right|]. set_solver.
Qed.

Lemma linkCommits_links prId clock upstream :
  forall i db,
    fst (linkCommits prId clock i upstream db) = Ok tt ->
    is_Some (pullRequests db !! prId) ->
    forall commitData,
      In commitData upstream ->
      storedSha (sha commitData) db \/ is_Some (authorDataOf commitData) ->
      linkedSha prId (sha commitData) (snd (linkCommits prId clock i upstream db)).
Proof.
  induction upstream as [|c cs IH]; intros i db Hok Hpr commitData Hin Hable; [done|].
  cbn [linkCommits] in *. rewrite bind_run in *.
  pose proof (linkGrows_linkCommit prId (clock i) c db) as Hgrow1. unfold exec in Hgrow1.
  pose proof (linkCommit_links prId (clock i) c db) as Hlink1.
  destruct (linkCommit prId (clock i) c db) as [[[]|e] db1]; [|discriminate].
  cbn [fst snd] in *.
  pose proof (linkGrows_linkCommits prId clock (S i) cs db1) as Hgrow2.
  unfold exec in Hgrow2.
  destruct Hin as [<- | Hin].
  - eapply linkedSha_grows; [exact Hgrow2|]. by apply Hlink1.
  - apply IH; try done.
    + by eapply pullRequest_stays.
    + destruct Hable as [Hstored | Hauthor]; [left | by right].
      by eapply storedSha_grows.
Qed.

(** X16: every upstream commit that can be linked is linked.  When the
    pull request is stored and nothing is thrown while linking, then after
    [linkCommitsToPullRequest] every upstream commit that was already
    stored, or that carries author data, is stored and linked to the pull
    request; only commits that are neither are skipped. *)
Theorem linkCommitsToPullRequest_links_all :
  forall (db : DB) (prId owner repo : string) (prNumber : Z) (github : GitHub)
         (clock : nat -> Z) (upstream : list CommitData),
    getPullRequestCommits github owner repo prNumber = Ok (Some upstream) ->
    outcome (linkCommitsToPullRequest_try prId owner repo prNumber github clock) db
      = Ok tt ->
    is_Some (pullRequests db !! prId) ->
    forall commitData,
      In commitData upstream ->
      storedSha (sha commitData) db \/ is_Some (authorDataOf commitData) ->
      linkedSha prId (sha commitData)
        (exec (linkCommitsToPullRequest prId owner repo prNumber github clock) db).
Proof.
  intros db prId owner repo prNumber github clock upstream Hgithub Hok Hpr
         commitData Hin Hable.
  rewrite linkCommitsToPullRequest_run. unfold outcome in Hok.
  destruct upstream as [|c0 cs]; [done|].
  rewrite (linkCommitsToPullRequest_try_run db prId owner repo prNumber github clock
             c0 cs Hgithub) in *.
  pose proof (linkCommits_links prId clock (c0 :: cs) 0%nat db) as Hloop.
  destruct (linkCommits prId clock 0%nat (c0 :: cs) db) as [[[]|e] db1];
    [|discriminate].
  eapply linkedSha_grows; [apply (linkGrows_updateFirstCommitAt prId db1)|].
  by apply Hloop.
Qed.

Lemma linkCommitsToPullRequest_links_all_witness :
  linkedSha "300" "aaa"
    (exec (linkCommitsToPullRequest "300" "acme" "widgets" 7
             (githubWith (Ok (Some upstreamCommits))) fixedClock) storeWithLocalCommit) /\
  linkedSha "300" "ccc"
    (exec (linkCommitsToPullRequest "300" "acme" "widgets" 7
             (githubWith (Ok (Some upstreamCommits))) fixedClock) storeWithLocalCommit).
Proof.
  assert (Hok : outcome (linkCommitsToPullRequest_try "300" "acme" "widgets" 7
                           (githubWith (Ok (Some upstreamCommits))) fixedClock)
                        storeWithLocalCommit = Ok tt) by (vm_compute; reflexivity).
  assert (Hpr : is_Some (pullRequests storeWithLocalCommit !! "300"))
    by (eexists; reflexivity).
  split.
  - apply (linkCommitsToPullRequest_links_all storeWithLocalCommit "300" "acme" "widgets"
             7 (githubWith (Ok (Some upstreamCommits))) fixedClock upstreamCommits
             eq_refl Hok Hpr
             (mkCommitData "aaa" (Some aliceData) "first"
                (Some (mkGitAuthor (Some "Alice") (Some "alice@example.com") 3000)))).
    + left. reflexivity.
    + left. exists "aaa", (mkCommit "aaa" "first" "1" "200" 3000).
      split; [reflexivity | by left].
  - apply (linkCommitsToPullRequest_links_all storeWithLocalCommit "300" "acme" "widgets"
             7 (githubWith (Ok (Some upstreamCommits))) fixedClock upstreamCommits
             eq_refl Hok Hpr
             (mkCommitData "ccc" (Some carolData) "third"
                (Some (mkGitAuthor (Some "Carol") (Some "carol@example.com") 2000)))).
    + right. right. left. reflexivity.
    + right. eexists. reflexivity.
Defined.

(** ** The router *)

Ltac unfold_task :=
  unfold task.tryCatch, task.bind, task.ret, task.throw, task.gets, task.modify,
    task.onStore in *.

Section Router.

Variable handlers : Handlers.
Variable messageOf : Exn -> string.
Variable JSON_stringify : Exn -> Outcome string.
Variable now : Z.


(** X18: a handled delivery is marked processed.  When the handler returns
    normally and the delivery row exists, [processEvent] returns normally
    and the state it leaves is the state the handler left with one change:
    the delivery row has status [processed] and the processing time, and
    its [error] column keeps whatever an earlier attempt left there.
    Nothing is queued for retry and no other table or row changes. *)
Theorem processEvent_success :
  forall (eventName : string) (payload : Payload) (deliveryId : string)
         (w w1 : World) (row : WebhookEvent),
    route handlers eventName payload w = (Ok tt, w1) ->
    webhookEvents w1 !! deliveryId = Some row ->
    processEvent handlers messageOf JSON_stringify now eventName payload deliveryId w
      = (Ok tt,
         set_webhookEvents
           (insert deliveryId (mkWebhookEvent "processed" (event_error row) (Some now)))
           w1).
Proof.
  intros eventName payload deliveryId w w1 row Hroute Hrow.
  unfold processEvent, webhookEvent_update. unfold_task.
  rewrite Hroute. cbn. rewrite Hrow. cbn. done.
Qed.


(** X20: a missing delivery row turns a success into a failure.  When the
    handler returns normally but the delivery row does not exist, the
    status update throws and the [catch] block runs on that error: if the
    log line can serialise it, [processEvent] returns normally, no status
    is written (the second update fails too and is swallowed), and the
    state it leaves is the state the handler left with at most one change:
    the delivery is appended to the retry queue exactly when
    [isRetryableError] accepts the error of the update. *)
Theorem processEvent_missing_delivery :
  forall (eventName : string) (payload : Payload) (deliveryId : string)
         (w w1 : World) (details : string),
    route handlers eventName payload w = (Ok tt, w1) ->
    webhookEvents w1 !! deliveryId = None ->
    JSON_stringify RecordNotFound = Ok details ->
    processEvent handlers messageOf JSON_stringify now eventName payload deliveryId w
      = (Ok tt,
         set_retryQueue
           (fun queue =>
              (queue ++ if isRetryableError {| message := messageOf RecordNotFound |}
                        then [deliveryId] else [])%list)
           w1).
Proof.
  intros eventName payload deliveryId w w1 details Hroute Hrow Hlog.
  unfold processEvent, webhookEvent_update, addToRetryQueue. unfold_task.
  rewrite Hroute. cbn. rewrite Hrow. cbn. rewrite Hlog. cbn. rewrite Hrow. cbn.
  destruct (isRetryableError _); cbn; [done|].
  destruct w1; unfold set_retryQueue; cbn. by rewrite app_nil_r.
Qed.

End Router.

(** X21: an event of an unknown type runs no handler.  For an event name
    other than the five routed ones, the outcome and the state
    [processEvent] leaves do not depend on the handlers at all, and a
    delivery whose row exists is marked processed. *)
Theorem processEvent_unknown_event :
  forall (handlers handlers' : Handlers) (messageOf : Exn -> string)
         (JSON_stringify : Exn -> Outcome string) (now : Z)
         (eventName : string) (payload : Payload) (deliveryId : string) (w : World),
    eventName <> "installation" ->
    eventName <> "pull_request" ->
    eventName <> "pull_request_review" ->
    eventName <> "push" ->
    eventName <> "issue_comment" ->
    processEvent handlers messageOf JSON_stringify now eventName payload deliveryId w
      = processEvent handlers' messageOf JSON_stringify now eventName payload deliveryId w /\
    (forall row,
       webhookEvents w !! deliveryId = Some row ->
       snd (processEvent handlers messageOf JSON_stringify now eventName payload
              deliveryId w)
         = set_webhookEvents (insert deliveryId (markProcessed now row)) w).
Proof.
  intros handlers handlers' messageOf JSON_stringify now eventName payload deliveryId w
         H1 H2 H3 H4 H5.
  unfold processEvent, route.
  apply String.eqb_neq in H1, H2, H3, H4, H5. rewrite H1, H2, H3, H4, H5.
  split; [reflexivity|]. intros row Hrow.
  unfold webhookEvent_update. unfold_task. cbn. by rewrite Hrow.
Qed.


Lemma processEvent_success_witness :
  event_status <$>
    webhookEvents (snd (processEvent idleHandlers exampleMessages exampleStringify
                          1700000000000 "push" fullPayload "d-1" exampleWorld)) !! "d-1"
    = Some "processed".
Proof.
  rewrite (processEvent_success idleHandlers exampleMessages exampleStringify
             1700000000000 "push" fullPayload "d-1" exampleWorld exampleWorld
             (mkWebhookEvent "pending" None None) eq_refl eq_refl).
  reflexivity.
Defined.


Lemma processEvent_missing_delivery_witness :
  retryQueue (snd (processEvent idleHandlers exampleMessages exampleStringify
                     1700000000000 "push" fullPayload "d-404" exampleWorld)) = [] /\
  webhookEvents (snd (processEvent idleHandlers exampleMessages exampleStringify
                        1700000000000 "push" fullPayload "d-404" exampleWorld))
    !! "d-404" = None.
Proof.
  rewrite (processEvent_missing_delivery idleHandlers exampleMessages exampleStringify
             1700000000000 "push" fullPayload "d-404" exampleWorld exampleWorld
             "Record to update not found." eq_refl eq_refl eq_refl).
  split; reflexivity.
Defined.

Lemma processEvent_unknown_event_witness :
  snd (processEvent idleHandlers exampleMessages exampleStringify 1700000000000
         "star" fullPayload "d-1" exampleWorld)
    = set_webhookEvents
        (insert "d-1" (markProcessed 1700000000000 (mkWebhookEvent "pending" None None)))
        exampleWorld.
Proof.
  destruct (processEvent_unknown_event idleHandlers idleHandlers exampleMessages
              exampleStringify 1700000000000 "star" fullPayload "d-1" exampleWorld)
    as (_ & Hmarked); try discriminate.
  apply Hmarked. reflexivity.
Defined.

(** ** Reviews *)

#[local] Arguments includesId : simpl never.

(** X22: a review is upserted by its id.  For a stored pull request and
    an existing reviewer, [storeReview] returns normally and writes
    exactly the row under the review's id; the stored state is
    APPROVED, CHANGES_REQUESTED or COMMENTED for those three GitHub states
    and PENDING for anything else; the stored body is the body of the
    event, or null when the event has none or an empty one; a later event
    for the same review replaces state, body and submission time but never
    the pull request or the author the review was first stored with. *)
Theorem storeReview_upsert :
  forall (review : ReviewData) (prId reviewerId : string) (w : World),
    is_Some (pullRequests (store w) !! prId) ->
    is_Some (users (store w) !! reviewerId) ->
    let key := Js.toString (reviewData_id review) in
    let w' := snd (storeReview review prId reviewerId w) in
    fst (storeReview review prId reviewerId w) = Ok tt /\
    exists row,
      w' = set_reviews (insert key row) w /\
      review_submittedAt row = reviewData_submitted_at review /\
      (forall text, reviewData_body review = Some text -> text <> "" ->
         review_body row = Some text) /\
      (reviewData_body review = None \/ reviewData_body review = Some "" ->
         review_body row = None) /\
      (reviewData_state review = "APPROVED" -> review_state row = APPROVED) /\
      (reviewData_state review = "CHANGES_REQUESTED" ->
         review_state row = CHANGES_REQUESTED) /\
      (reviewData_state review = "COMMENTED" -> review_state row = COMMENTED) /\
      (reviewData_state review <> "APPROVED" ->
       reviewData_state review <> "CHANGES_REQUESTED" ->
       reviewData_state review <> "COMMENTED" -> review_state row = PENDING) /\
      (forall old, reviews w !! key = Some old ->
         review_pullRequestId row = review_pullRequestId old /\
         review_authorId row = review_authorId old) /\
      (reviews w !! key = None ->
         review_pullRequestId row = prId /\ review_authorId row = reviewerId).
Proof.
  intros review prId reviewerId w _ _ key w'. subst w'. unfold storeReview. fold key.
  unfold_task. cbn.
  assert (Hstate :
    (reviewData_state review = "APPROVED" ->
       mapReviewState (reviewData_state review) = APPROVED) /\
    (reviewData_state review = "CHANGES_REQUESTED" ->
       mapReviewState (reviewData_state review) = CHANGES_REQUESTED) /\
    (reviewData_state review = "COMMENTED" ->
       mapReviewState (reviewData_state review) = COMMENTED) /\
    (reviewData_state review <> "APPROVED" ->
     reviewData_state review <> "CHANGES_REQUESTED" ->
     reviewData_state review <> "COMMENTED" ->
       mapReviewState (reviewData_state review) = PENDING)).
  { unfold mapReviewState. repeat split.
    - by intros ->.
    - by intros ->.
    - by intros ->.
    - intros H1 H2 H3. apply String.eqb_neq in H1, H2, H3. by rewrite H1, H2, H3. }
  destruct Hstate as (Ha & Hc & Hm & Hp).
  assert (Hbody :
    (forall text, reviewData_body review = Some text -> text <> "" ->
       bodyOrNull (reviewData_body review) = Some text) /\
    (reviewData_body review = None \/ reviewData_body review = Some "" ->
       bodyOrNull (reviewData_body review) = None)).
  { split.
    - intros text -> Hne. cbn. by destruct text.
    - by intros [-> | ->]. }
  destruct Hbody as (Hb1 & Hb2).
  destruct (reviews w !! key) as [old|] eqn:Hold; cbn; (split; [done|]);
    eexists; (split; [reflexivity|]); cbn; repeat split; try done;
    intros; simplify_eq; done.
Qed.

Lemma storeReview_upsert_witness :
  exists row,
    reviews (snd (storeReview (mkReviewData 9001 "DISMISSED" (Some "stale") 1700000000000)
                              "300" "2"
                    (snd (storeReview (mkReviewData 9001 "APPROVED" None 1690000000000)
                                      "302" "1" exampleWorld)))) !! "9001" = Some row /\
    review_state row = PENDING /\
    review_body row = Some "stale" /\
    review_submittedAt row = 1700000000000 /\
    review_pullRequestId row = "302" /\
    review_authorId row = "1".
Proof.
  assert (Hpr : is_Some (pullRequests exampleStore !! "300")) by (eexists; reflexivity).
  assert (Hu : is_Some (users exampleStore !! "2")) by (eexists; reflexivity).
  destruct (storeReview_upsert (mkReviewData 9001 "DISMISSED" (Some "stale") 1700000000000)
              "300" "2"
              (snd (storeReview (mkReviewData 9001 "APPROVED" None 1690000000000)
                                "302" "1" exampleWorld)) Hpr Hu)
    as (_ & row & Hw & Htime & Hbody & _ & _ & _ & _ & Hpending & Hold & _).
  exists row. split; [rewrite Hw; apply lookup_insert_eq|].
  split; [apply Hpending; discriminate|].
  split; [apply Hbody; [reflexivity | discriminate]|].
  split; [exact Htime|].
  apply (Hold (mkReview "302" "1" APPROVED None 1690000000000)). reflexivity.
Defined.

Lemma includesId_In ids x : includesId ids x = true <-> In x ids.
Proof.
  unfold includesId. rewrite List.existsb_exists. split.
  - intros (y & Hin & Heq). apply String.eqb_eq in Heq. by subst.
  - intros Hin. exists x. split; [done | apply String.eqb_refl].
Qed.

(** X23: a reviewer is listed once.  For a stored pull request and an
    existing user, [addReviewerToPullRequest] returns normally; afterwards
    the user is among the pull request's reviewers, the reviewers listed
    before are still listed in the same order, a list without duplicates
    stays without duplicates, and a second call changes nothing. *)
Theorem addReviewerToPullRequest_once :
  forall (prId reviewerId : string) (w : World) (pr : PullRequest) (u : User),
    pullRequests (store w) !! prId = Some pr ->
    users (store w) !! reviewerId = Some u ->
    let w' := snd (addReviewerToPullRequest prId reviewerId w) in
    fst (addReviewerToPullRequest prId reviewerId w) = Ok tt /\
    (exists pr' added,
       pullRequests (store w') !! prId = Some pr' /\
       pr_reviewerIds pr' = (pr_reviewerIds pr ++ added)%list /\
       In reviewerId (pr_reviewerIds pr') /\
       (NoDup (pr_reviewerIds pr) -> NoDup (pr_reviewerIds pr'))) /\
    addReviewerToPullRequest prId reviewerId w' = (Ok tt, w').
Proof.
  intros prId reviewerId w pr u Hpr Hu.
  unfold addReviewerToPullRequest. unfold_task. cbn. rewrite Hpr. cbn.
  destruct (includesId (pr_reviewerIds pr) reviewerId) eqn:Hinc; cbn.
  - rewrite Hpr. cbn. rewrite Hinc. cbn. split; [done|]. split; [|done].
    exists pr, []. rewrite app_nil_r. repeat split; try done.
    by apply includesId_In.
  - rewrite Hu. cbn. rewrite lookup_insert_eq. cbn.
    assert (Hnow : includesId (pr_reviewerIds pr ++ [reviewerId]) reviewerId = true).
    { apply includesId_In, in_or_app. right. by left. }
    rewrite Hnow. cbn. split; [done|]. split; [|done].
    eexists _, [reviewerId]. split; [reflexivity|]. cbn.
    split; [done|]. split; [apply in_or_app; right; by left|].
    intros Hnodup. apply NoDup_app. split; [done|]. split.
    + intros x Hx [->|[]]%list_elem_of_In.
      apply list_elem_of_In, includesId_In in Hx. congruence.
    + apply NoDup_singleton.
Qed.

Lemma addReviewerToPullRequest_once_witness :
  exists pr',
    pullRequests (store (snd (addReviewerToPullRequest "300" "2" exampleWorld))) !! "300"
      = Some pr' /\
    pr_reviewerIds pr' = ["2"] /\
    addReviewerToPullRequest "300" "2" (snd (addReviewerToPullRequest "300" "2" exampleWorld))
      = (Ok tt, snd (addReviewerToPullRequest "300" "2" exampleWorld)).
Proof.
  destruct (addReviewerToPullRequest_once "300" "2" exampleWorld
              (examplePR "1" MERGED (Some (85 # 1)%Q)) bob eq_refl eq_refl)
    as (_ & _ & Hagain).
  eexists. split; [reflexivity|]. split; [reflexivity | exact Hagain].
Defined.

Lemma ensureUserExists_existing_run db userId login accountId u :
  users db !! userId = Some u ->
  ensureUserExists userId login accountId db
    = (Ok tt, withMembership userId accountId (withAccount login accountId db)).
Proof.
  destruct db as [accts repos usrs orgs prs cms links files txs]. cbn. intros Hu.
  unfold withMembership, withAccount. run_ensureUserExists.
  destruct (accts !! accountId) eqn:Ha; cbn; rewrite ?Ha; cbn; rewrite Hu; cbn;
    destruct (orgs !! (userId, accountId)) eqn:Ho; cbn; rewrite ?Ho; cbn; done.
Qed.

Lemma registered_store db userId login accountId :
  let db1 := withMembership userId accountId (withAccount login accountId db) in
  pullRequests db1 = pullRequests db /\
  users db1 = users db /\
  repositories db1 = repositories db /\
  pointTransactions db1 = pointTransactions db /\
  accounts db ⊆ accounts db1 /\
  is_Some (userOrganizations db1 !! (userId, accountId)).
Proof.
  destruct db as [accts repos usrs orgs prs cms links files txs].
  unfold withMembership, withAccount. cbn.
  destruct (accts !! accountId) eqn:Ha; cbn;
    destruct (orgs !! (userId, accountId)) eqn:Ho; cbn;
    repeat split; try done; rewrite ?lookup_insert_eq; eauto;
    by apply insert_subseteq.
Qed.

Lemma task_bind_run {A B} (m : Task A) (k : A -> Task B) w :
  task.bind m k w =
    match m w with
    | (Ok a, w1) => k a w1
    | (Throw e, w1) => (Throw e, w1)
    end.
Proof. reflexivity. Qed.

Lemma storeReview_run review prId reviewerId w :
  exists row,
    storeReview review prId reviewerId w
      = (Ok tt, set_reviews (insert (Js.toString (reviewData_id review)) row) w) /\
    review_state row = mapReviewState (reviewData_state review).
Proof.
  unfold storeReview. unfold_task. cbn.
  destruct (reviews w !! _); cbn; eexists; split; reflexivity.
Qed.

Lemma addReviewerToPullRequest_run prId reviewerId w pr u :
  pullRequests (store w) !! prId = Some pr ->
  users (store w) !! reviewerId = Some u ->
  exists w2 pr2,
    addReviewerToPullRequest prId reviewerId w = (Ok tt, w2) /\
    pullRequests (store w2) = <[prId := pr2]> (pullRequests (store w)) /\
    In reviewerId (pr_reviewerIds pr2) /\
    pr_repositoryId pr2 = pr_repositoryId pr /\
    users (store w2) = users (store w) /\
    repositories (store w2) = repositories (store w) /\
    accounts (store w2) = accounts (store w) /\
    userOrganizations (store w2) = userOrganizations (store w) /\
    pointTransactions (store w2) = pointTransactions (store w) /\
    reviews w2 = reviews w.
Proof.
  intros Hpr Hu. unfold addReviewerToPullRequest. unfold_task. cbn. rewrite Hpr. cbn.
  destruct (includesId (pr_reviewerIds pr) reviewerId) eqn:Hinc; cbn.
  - exists w, pr. split; [done|]. split; [by rewrite insert_id|].
    split; [by apply includesId_In|]. done.
  - rewrite Hu. cbn. eexists _, _. split; [reflexivity|]. cbn.
    split; [reflexivity|]. split; [apply in_or_app; right; by left|]. done.
Qed.

(** X24: a review event rewards the reviewer whatever its action.  For a
    stored pull request and an existing reviewer, the body of
    [handleReviewEvent] returns normally for any action other than
    [submitted] (for which the persona hook runs in addition), provided
    the GitHub client can be built from the token when there is one;
    afterwards
    the reviewer is a member of the account, the review is stored with its
    mapped state, the reviewer is listed on the pull request, and the
    reviewer's points have grown by the points of the review state, with
    one ledger entry when that is positive. *)
Theorem handleReviewEvent_try_effect :
  forall (hook : ReviewData -> PullRequest -> Task unit)
         (newGitHubClient : string -> Outcome unit) (token : option string)
         (action accountId prId reviewerId login : string) (review : ReviewData)
         (w : World) (pr : PullRequest) (repository : Repository) (acct : Account)
         (u : User),
    (forall t, token = Some t -> Js.truthy_string t = true ->
               newGitHubClient t = Ok tt) ->
    action <> "submitted" ->
    pullRequests (store w) !! prId = Some pr ->
    repositories (store w) !! pr_repositoryId pr = Some repository ->
    accounts (store w) !! repo_accountId repository = Some acct ->
    users (store w) !! reviewerId = Some u ->
    let run := handleReviewEvent_try hook newGitHubClient token action accountId prId
                 reviewerId login review w in
    let points := reviewPoints (reviewData_state review) in
    fst run = Ok tt /\
    is_Some (userOrganizations (store (snd run)) !! (reviewerId, accountId)) /\
    (exists row,
       reviews (snd run) !! Js.toString (reviewData_id review) = Some row /\
       review_state row = mapReviewState (reviewData_state review)) /\
    (exists pr',
       pullRequests (store (snd run)) !! prId = Some pr' /\
       In reviewerId (pr_reviewerIds pr')) /\
    (exists u',
       users (store (snd run)) !! reviewerId = Some u' /\
       user_points u' = user_points u + points) /\
    pointTransactions (store (snd run)) =
      (pointTransactions (store w) ++
         if points >? 0
         then [mkPointTransaction reviewerId (repo_accountId repository) points
                 "review_submitted" prId "pullrequest"]
         else [])%list.
Proof.
  intros hook newGitHubClient token action accountId prId reviewerId login review w pr
         repository acct u Hclient Haction Hpr Hrepo Hacct Hu run points.
  destruct (registered_store (store w) reviewerId login accountId)
    as (Hprs1 & Husers1 & Hrepos1 & Htxs1 & Haccts1 & Horg1).
  set (db1 := withMembership reviewerId accountId (withAccount login accountId (store w)))
    in *.
  set (w1 := set_store (fun _ => db1) w).
  destruct (storeReview_run review prId reviewerId w1) as (row & Hstore & Hrowstate).
  set (w2 := set_reviews (insert (Js.toString (reviewData_id review)) row) w1) in *.
  destruct (addReviewerToPullRequest_run prId reviewerId w2 pr u)
    as (w3 & pr3 & Hadd & Hprs3 & Hin3 & Hrepo3 & Husers3 & Hrepos3 & Haccts3 & Horgs3
        & Htxs3 & Hreviews3).
  { cbn. by rewrite Hprs1. } { cbn. by rewrite Husers1. }
  cbn in Hprs3, Husers3, Hrepos3, Haccts3, Horgs3, Htxs3, Hreviews3.
  assert (Hrun3 : exists db4 u4,
    awardPointsForReview reviewerId prId (reviewData_state review) (store w3)
      = (Ok tt, db4) /\
    users db4 !! reviewerId = Some u4 /\
    user_points u4 = user_points u + points /\
    pointTransactions db4 =
      (pointTransactions (store w) ++
         if points >? 0
         then [mkPointTransaction reviewerId (repo_accountId repository) points
                 "review_submitted" prId "pullrequest"]
         else [])%list /\
    pullRequests db4 = pullRequests (store w3) /\
    userOrganizations db4 = userOrganizations (store w3)).
  { destruct (Z.gtb_spec points 0) as [Hpos|Hzero].
    - destruct (awardPointsForReview_effect (store w3) reviewerId prId
                  (reviewData_state review) pr3 repository acct u)
        as (db4 & u4 & Hrun & Hus & Hpts & Htx & Hprs & _ & _ & Horgs); try done.
      + rewrite Hprs3. apply lookup_insert_eq.
      + by rewrite Hrepos3, Hrepos1, Hrepo3.
      + rewrite Haccts3. by eapply lookup_weaken.
      + by rewrite Husers3, Husers1.
      + fold points. lia.
      + exists db4, u4. split; [done|]. split; [rewrite Hus; apply lookup_insert_eq|].
        split; [done|]. rewrite Htx, Htxs3, Htxs1. done.
    - pose proof (reviewPoints_nonneg (reviewData_state review)) as Hnn.
      fold points in Hnn. assert (Hz : points = 0) by lia.
      exists (store w3), u. unfold awardPointsForReview. fold points. rewrite Hz. cbn.
      split; [done|]. split; [by rewrite Husers3, Husers1|]. split; [lia|].
      rewrite Htxs3, Htxs1, app_nil_r. done. }
  destruct Hrun3 as (db4 & u4 & Hrun4 & Hu4 & Hpts4 & Htxs4 & Hprs4 & Horgs4).
  assert (Hresult : run = (Ok tt, set_store (fun _ => db4) w3)).
  { subst run. unfold handleReviewEvent_try, task.tryCatch.
    rewrite task_bind_run. unfold task.onStore at 1.
    rewrite (ensureUserExists_existing_run (store w) reviewerId login accountId u Hu).
    fold db1. fold w1. rewrite task_bind_run, Hstore. fold w2.
    rewrite task_bind_run, Hadd. rewrite task_bind_run. unfold task.onStore at 1.
    rewrite Hrun4. rewrite task_bind_run. unfold task.gets at 1. cbn [store set_store].
    rewrite Hprs4, Hprs3, lookup_insert_eq.
    apply String.eqb_neq in Haction. rewrite Haction.
    rewrite task_bind_run. unfold task.ret at 1.
    destruct token as [t|]; [|reflexivity].
    destruct (Js.truthy_string t) eqn:Ht; [|reflexivity].
    by rewrite (Hclient t eq_refl Ht). }
  rewrite Hresult. cbn [fst snd store set_store reviews].
  split; [done|].
  split; [rewrite Horgs4, Horgs3; exact Horg1|].
  split.
  { exists row. split; [|done]. rewrite Hreviews3. subst w2. cbn. apply lookup_insert_eq. }
  split.
  { exists pr3. split; [|done]. rewrite Hprs4, Hprs3. apply lookup_insert_eq. }
  split; [by exists u4|]. done.
Qed.

Lemma handleReviewEvent_try_effect_witness :
  exists u',
    users (store (snd (handleReviewEvent_try (fun _ _ => task.ret tt) (fun _ => Ok tt)
                         (Some "ghs_token") "edited" "100" "302" "1" "alice"
                         (mkReviewData 9001 "CHANGES_REQUESTED" None 1700000000000)
                         exampleWorld))) !! "1" = Some u' /\
    user_points u' = user_points alice + 15.
Proof.
  assert (Haction : "edited" <> "submitted") by discriminate.
  destruct (handleReviewEvent_try_effect (fun _ _ => task.ret tt) (fun _ => Ok tt)
              (Some "ghs_token") "edited" "100" "302"
              "1" "alice" (mkReviewData 9001 "CHANGES_REQUESTED" None 1700000000000)
              exampleWorld (examplePR "2" MERGED (Some (85 # 1)%Q)) widgets acme alice
              (fun _ _ _ => eq_refl) Haction eq_refl eq_refl eq_refl eq_refl)
    as (_ & _ & _ & _ & Hpoints & _).
  exact Hpoints.
Defined.

(** ** Account-id resolution across handlers *)

(** X25: the handlers resolve the same account.  On a delivery that
    carries a pull request, a review, a repository and a pull-request
    comment action, the pull-request, review and issue-comment handlers
    resolve the same account id; the push handler agrees with them
    whenever the payload carries no installation account. *)
Theorem handlers_resolve_same_account :
  forall (p : Payload) (pull_request review : WithId) (repository : RepositoryPayload)
         (url : string),
    payload_pull_request p = Some pull_request ->
    payload_review p = Some review ->
    payload_repository p = Some repository ->
    payload_issue p = Some (mkIssuePayload (Some url)) ->
    payload_action p = "created" \/ payload_action p = "edited" ->
    handleReviewEvent_accountId p = handlePullRequestEvent_accountId p /\
    handleIssueCommentEvent_accountId p = handlePullRequestEvent_accountId p /\
    (installationAccount p = None ->
       handlePushEvent_accountId p = handlePullRequestEvent_accountId p).
Proof.
  intros p pull_request review repository url Hpr Hreview Hrepo Hissue Haction.
  rewrite (handlePullRequestEvent_precedence p pull_request repository Hpr Hrepo).
  rewrite (handleReviewEvent_precedence p review pull_request repository Hreview Hpr Hrepo).
  rewrite (handleIssueCommentEvent_precedence p url repository Hissue Haction Hrepo).
  rewrite (handlePushEvent_precedence p repository Hrepo).
  split; [done|]. split; [done|].
  intros Hnone. unfold precedence. cbn. by rewrite Hnone.
Qed.

Lemma handlers_resolve_same_account_witness :
  handleReviewEvent_accountId fullPayload = handlePullRequestEvent_accountId fullPayload /\
  handleIssueCommentEvent_accountId fullPayload
    = handlePullRequestEvent_accountId fullPayload.
Proof.
  destruct (handlers_resolve_same_account fullPayload (mkWithId (Some 300))
              (mkWithId (Some 600)) widgetsPayload
              "https://api.github.com/repos/acme/widgets/pulls/7"
              eq_refl eq_refl eq_refl eq_refl (or_introl eq_refl))
    as (Hreview & Hcomment & _).
  split; [exact Hreview | exact Hcomment].
Defined.

(** ** Replays of the upsert and of the closing *)

Lemma storePullRequest_result encryptContent isEncrypted prData accountId repoId :
  (exists e, forall db,
     storePullRequest encryptContent isEncrypted prData accountId repoId db
       = (Throw e, db)) \/
  (exists description, forall db,
     storePullRequest encryptContent isEncrypted prData accountId repoId db
       = (Ok (upsertedRow prData repoId description
                (pullRequests db !! Js.toString (prData_id prData))),
          set_pullRequests
            (insert (Js.toString (prData_id prData))
               (upsertedRow prData repoId description
                  (pullRequests db !! Js.toString (prData_id prData))))
            db)).
Proof.
  unfold storePullRequest, upsertedRow. unfold_prisma. unfold_monad.
  destruct (prData_body prData) as [body|]; cbn.
  2: { right. exists None. intros db. by destruct (pullRequests db !! _). }
  destruct (Js.truthy_string body); cbn.
  2: { right. exists None. intros db. by destruct (pullRequests db !! _). }
  destruct (_ && negb (isEncrypted body)); cbn.
  2: { right. exists (Some body). intros db. by destruct (pullRequests db !! _). }
  destruct (encryptContent body) as [cipher|e]; cbn.
  - right. exists (Some cipher). intros db. by destruct (pullRequests db !! _).
  - left. by exists e.
Qed.

(** The description of the row [storePullRequest] returns. *)
Lemma storePullRequest_description encryptContent isEncrypted prData accountId repoId
    db row :
  fst (storePullRequest encryptContent isEncrypted prData accountId repoId db) = Ok row ->
  (forall text,
     prData_body prData = Some text ->
     Js.truthy_string text = true ->
     mapPRState (prData_state prData) (prData_merged prData) <> OPEN ->
     isEncrypted text = false ->
     exists cipher, encryptContent text = Ok cipher /\ pr_description row = Some cipher) /\
  ((forall text,
      prData_body prData = Some text ->
      Js.truthy_string text = true ->
      mapPRState (prData_state prData) (prData_merged prData) = OPEN \/
      isEncrypted text = true) ->
   pr_description row = bodyOrNull (prData_body prData)).
Proof.
  destruct (storePullRequest_result encryptContent isEncrypted prData accountId repoId)
    as [[e Hthrow] | [description Hrun]]; [rewrite Hthrow; discriminate|].
  rewrite Hrun. cbn [fst]. intros [= <-].
  assert (Hdesc : pr_description
                    (upsertedRow prData repoId description
                       (pullRequests db !! Js.toString (prData_id prData)))
                  = description)
    by (unfold upsertedRow; by destruct (pullRequests db !! _)).
  rewrite Hdesc. clear Hdesc.
  specialize (Hrun db). revert Hrun.
  unfold storePullRequest, bodyOrNull. unfold_prisma. unfold_monad.
  destruct (prData_body prData) as [body|]; cbn.
  2: { intros Hrun. split; [done|]. intros _.
       injection Hrun as Hrow _. apply (f_equal pr_description) in Hrow.
       revert Hrow. unfold upsertedRow. by destruct (pullRequests db !! _). }
  destruct (Js.truthy_string body) eqn:Htruthy; cbn.
  2: { intros Hrun. split; [intros text [= <-]; congruence|]. intros _.
       injection Hrun as Hrow _. apply (f_equal pr_description) in Hrow.
       revert Hrow. unfold upsertedRow. by destruct (pullRequests db !! _). }
  destruct (mapPRState (prData_state prData) (prData_merged prData)) eqn:Hstate;
    destruct (isEncrypted body) eqn:Henc; cbn.
  all: try (intros Hrun; split; [intros text [= <-]; congruence|]; intros _;
            injection Hrun as Hrow _; apply (f_equal pr_description) in Hrow;
            revert Hrow; unfold upsertedRow; by destruct (pullRequests db !! _)).
  all: destruct (encryptContent body) as [cipher|e] eqn:Hcipher; cbn;
    [|discriminate]; intros Hrun; split.
  all: try (intros text [= <-] _ _ _; exists cipher; split; [done|];
            injection Hrun as Hrow _; apply (f_equal pr_description) in Hrow;
            revert Hrow; unfold upsertedRow; by destruct (pullRequests db !! _)).
  all: intros Hkeep; destruct (Hkeep body eq_refl Htruthy); congruence.
Qed.

(** X26: a replay of the pull-request upsert encrypts again.  When
    [storePullRequest] has returned normally and the same payload is
    stored again (with the encryption answering as it does at that time),
    the second call writes the row of the pull request only, and the row
    agrees with the first in every column the upsert sets or keeps other
    than the description (and the update time, which is set anew).  For a
    closed or merged pull request with a plaintext body both calls encrypt
    the plaintext, so the stored description is the second ciphertext;
    for an open pull request, an empty or missing body, or a body that is
    already encrypted, the description is the same too. *)
Theorem storePullRequest_replay :
  forall (encryptContent encryptAgain : string -> Outcome string)
         (isEncrypted : string -> bool) (db : DB) (prData : PrData)
         (accountId repoId : string) (row1 row2 : PullRequest),
    let key := Js.toString (prData_id prData) in
    let first := storePullRequest encryptContent isEncrypted prData accountId repoId in
    let second := storePullRequest encryptAgain isEncrypted prData accountId repoId in
    outcome first db = Ok row1 ->
    outcome second (exec first db) = Ok row2 ->
    exec second (exec first db) = set_pullRequests (insert key row2) (exec first db) /\
    (pr_number row2 = pr_number row1 /\
     pr_title row2 = pr_title row1 /\
     pr_repositoryId row2 = pr_repositoryId row1 /\
     pr_authorId row2 = pr_authorId row1 /\
     pr_state row2 = pr_state row1 /\
     pr_additions row2 = pr_additions row1 /\
     pr_deletions row2 = pr_deletions row1 /\
     pr_changedFiles row2 = pr_changedFiles row1 /\
     pr_reviewerIds row2 = pr_reviewerIds row1 /\
     pr_firstCommitAt row2 = pr_firstCommitAt row1 /\
     pr_mergedAt row2 = pr_mergedAt row1 /\
     pr_closedAt row2 = pr_closedAt row1 /\
     pr_overallScore row2 = pr_overallScore row1 /\
     pr_pointsAwarded row2 = pr_pointsAwarded row1) /\
    (forall text,
       prData_body prData = Some text ->
       Js.truthy_string text = true ->
       mapPRState (prData_state prData) (prData_merged prData) <> OPEN ->
       isEncrypted text = false ->
       exists cipher1 cipher2,
         encryptContent text = Ok cipher1 /\ pr_description row1 = Some cipher1 /\
         encryptAgain text = Ok cipher2 /\ pr_description row2 = Some cipher2) /\
    ((forall text,
        prData_body prData = Some text ->
        Js.truthy_string text = true ->
        mapPRState (prData_state prData) (prData_merged prData) = OPEN \/
        isEncrypted text = true) ->
     pr_description row2 = pr_description row1).
Proof.
  intros encryptContent encryptAgain isEncrypted db prData accountId repoId row1 row2
         key first second Hfirst Hsecond.
  subst first second. unfold outcome, exec in *.
  destruct (storePullRequest_description _ _ _ _ _ _ _ Hfirst) as (Henc1 & Hkeep1).
  destruct (storePullRequest_description _ _ _ _ _ _ _ Hsecond) as (Henc2 & Hkeep2).
  destruct (storePullRequest_result encryptContent isEncrypted prData accountId repoId)
    as [[e Hthrow] | [d1 Hrun1]]; [rewrite Hthrow in Hfirst; discriminate|].
  destruct (storePullRequest_result encryptAgain isEncrypted prData accountId repoId)
    as [[e Hthrow] | [d2 Hrun2]]; [rewrite Hthrow in Hsecond; discriminate|].
  rewrite Hrun1 in *. rewrite Hrun2 in *. cbn [fst snd] in *.
  injection Hfirst as <-. injection Hsecond as <-.
  split; [reflexivity|]. split.
  { cbn. rewrite lookup_insert_eq. unfold upsertedRow.
    destruct (pullRequests db !! _); cbn; repeat split; reflexivity. }
  split.
  - intros text Hbody Htruthy Hstate Hplain.
    destruct (Henc1 text Hbody Htruthy Hstate Hplain) as (c1 & Hc1 & Hd1).
    destruct (Henc2 text Hbody Htruthy Hstate Hplain) as (c2 & Hc2 & Hd2).
    by exists c1, c2.
  - intros Hkeep. by rewrite (Hkeep2 Hkeep), (Hkeep1 Hkeep).
Qed.

Section ReplayProperties.

Variable encryptContent : string -> Outcome string.
Variable isEncrypted : string -> bool.

(** X27: a description is encrypted once.  After a pull request with a
    plaintext description has been closed and its description encrypted,
    a second [updatePullRequestStatus] returns normally and leaves the
    ciphertext as it is: what [isEncrypted] recognises is never passed to
    [encryptContent] again. *)
Theorem updatePullRequestStatus_encrypts_once :
  forall (db : DB) (prId : string) (state state' : PRState)
         (mergedAt mergedAt' : option Z) (closedAt closedAt' : Z)
         (pr : PullRequest) (text cipher : string),
    pullRequests db !! prId = Some pr ->
    pr_description pr = Some text ->
    Js.truthy_string text = true ->
    isEncrypted text = false ->
    encryptContent text = Ok cipher ->
    isEncrypted cipher = true ->
    let close1 := updatePullRequestStatus encryptContent isEncrypted prId state
                    mergedAt closedAt in
    let close2 := updatePullRequestStatus encryptContent isEncrypted prId state'
                    mergedAt' closedAt' in
    outcome close2 (exec close1 db) = Ok tt /\
    exists pr2,
      pullRequests (exec close2 (exec close1 db)) !! prId = Some pr2 /\
      pr_description pr2 = Some cipher /\
      pr_state pr2 = state'.
Proof.
  intros db prId state state' mergedAt mergedAt' closedAt closedAt' pr text cipher
         Hpr Hdesc Htruthy Hplain Henc Hcipher close1 close2.
  subst close1 close2. unfold exec, outcome.
  rewrite (updatePullRequestStatus_encrypts encryptContent isEncrypted db prId state
             mergedAt closedAt pr text cipher) by done.
  cbn [snd]. unfold updatePullRequestStatus. unfold_prisma. unfold_monad. cbn.
  rewrite lookup_insert_eq. cbn. rewrite Hcipher, andb_false_r. cbn.
  rewrite lookup_insert_eq. cbn. split; [done|].
  eexists. rewrite lookup_insert_eq. split; [reflexivity|]. done.
Qed.

End ReplayProperties.

Lemma storePullRequest_replay_witness :
  exists row1 row2,
    outcome (storePullRequest prefixEncrypt prefixIsEncrypted closedPrData "100" "200")
            exampleStore = Ok row1 /\
    outcome (storePullRequest freshEncrypt prefixIsEncrypted closedPrData "100" "200")
            (exec (storePullRequest prefixEncrypt prefixIsEncrypted closedPrData
                     "100" "200") exampleStore) = Ok row2 /\
    pr_description row1 = Some "enc:secret notes" /\
    pr_description row2 = Some "enc:2:secret notes" /\
    pr_number row2 = pr_number row1 /\
    pr_state row2 = pr_state row1.
Proof.
  eexists _, _. split; [reflexivity|]. split; [reflexivity|].
  destruct (storePullRequest_replay prefixEncrypt freshEncrypt prefixIsEncrypted
              exampleStore closedPrData "100" "200" _ _ eq_refl eq_refl)
    as (_ & (Hnumber & _ & _ & _ & Hstate & _) & Hencrypted & _).
  destruct (Hencrypted "secret notes" eq_refl eq_refl) as (c1 & c2 & H1 & Hd1 & H2 & Hd2);
    [discriminate | reflexivity |].
  injection H1 as <-. injection H2 as <-.
  split; [exact Hd1|]. split; [exact Hd2|]. split; [exact Hnumber | exact Hstate].
Defined.

Lemma updatePullRequestStatus_encrypts_once_witness :
  exists pr2,
    pullRequests
      (exec (updatePullRequestStatus prefixEncrypt prefixIsEncrypted "300" MERGED
               (Some 1700000000500) 1700000000500)
            (exec (updatePullRequestStatus prefixEncrypt prefixIsEncrypted "300" CLOSED
                     None 1700000000000) exampleStore)) !! "300" = Some pr2 /\
    pr_description pr2 = Some "enc:plain text" /\
    pr_state pr2 = MERGED.
Proof.
  destruct (updatePullRequestStatus_encrypts_once prefixEncrypt prefixIsEncrypted
              exampleStore "300" CLOSED MERGED None (Some 1700000000500)
              1700000000000 1700000000500
              (examplePR "1" MERGED (Some (85 # 1)%Q)) "plain text" "enc:plain text"
              eq_refl eq_refl eq_refl eq_refl eq_refl eq_refl)
    as (_ & Hrow).
  exact Hrow.
Defined.

(** ** Points over sequences of awards *)

Lemma Math_round_nonneg (score : Q) : 0 <= Qnum score -> 0 <= Math_round score.
Proof.
  intros Hnn. unfold Math_round.
  change 0 with (Qfloor 0). apply Qfloor_resp_le.
  destruct score as [n d]. cbn in Hnn. unfold Qle, Qplus. cbn. nia.
Qed.

Lemma runAward_keeps_scores op db :
  fst (runAward op db) = Ok tt ->
  scoresNonNegative db ->
  scoresNonNegative (snd (runAward op db)) /\
  forall userId u,
    users db !! userId = Some u ->
    exists u', users (snd (runAward op db)) !! userId = Some u' /\
               user_points u <= user_points u'.
Proof.
  intros Hok Hscores.
  assert (Hcases :
    snd (runAward op db) = db \/
    exists who amount,
      0 <= amount /\
      awarded who amount db (snd (runAward op db)) /\
      scoresNonNegative (snd (runAward op db))).
  { destruct op as [prId | reviewer prId reviewState]; unfold runAward in *.
    - destruct (calculateAndAwardPoints_cases db prId Hok)
        as [-> | (pr & score & Hpr & Hscore & Hprs & Haward)]; [by left|].
      right. exists (pr_authorId pr), (Math_round score).
      split; [apply Math_round_nonneg; by eapply Hscores|]. split; [done|].
      intros id pr' score' Hpr' Hscore'. rewrite Hprs in Hpr'.
      destruct (decide (prId = id)) as [->|Hne].
      + rewrite lookup_insert_eq in Hpr'. injection Hpr' as <-. cbn in Hscore'.
        by eapply Hscores.
      + rewrite lookup_insert_ne in Hpr' by done. by eapply Hscores.
    - destruct (awardPointsForReview_cases db reviewer prId reviewState Hok)
        as [-> | (Hpos & _ & Hprs & Haward)]; [by left|].
      right. exists reviewer, (reviewPoints reviewState).
      split; [lia|]. split; [done|].
      intros id pr' score' Hpr' Hscore'. rewrite Hprs in Hpr'. by eapply Hscores. }
  destruct Hcases as [-> | (who & amount & Hnn & Haward & Hscores')].
  - split; [done|]. intros userId u Hu. exists u. split; [done | lia].
  - split; [done|]. intros userId u Hu.
    destruct Haward as (v & v' & tx & Hv & Husers & Hpts & _).
    rewrite Husers. destruct (decide (who = userId)) as [->|Hne].
    + rewrite lookup_insert_eq. exists v'. split; [done|].
      assert (u = v) by congruence. subst. lia.
    + rewrite lookup_insert_ne by done. exists u. split; [done | lia].
Qed.

(** X28: points only grow while no stored score is negative.  If no pull
    request of the store has a negative overall score, then over any
    sequence of merge and review awards that all return normally no
    user's points decrease. *)
Theorem points_never_decrease :
  forall (ops : list AwardOp) (db db' : DB),
    scoresNonNegative db ->
    runAwardsOk ops db = Some db' ->
    forall (userId : string) (u : User),
      users db !! userId = Some u ->
      exists u', users db' !! userId = Some u' /\ user_points u <= user_points u'.
Proof.
  induction ops as [|op ops IH]; intros db db' Hscores Hrun userId u Hu; cbn in Hrun.
  - injection Hrun as <-. exists u. split; [done | lia].
  - pose proof (runAward_keeps_scores op db) as Hstep.
    destruct (runAward op db) as [[[]|e] db1]; [|discriminate].
    destruct (Hstep eq_refl Hscores) as (Hscores1 & Husers1).
    destruct (Husers1 userId u Hu) as (u1 & Hu1 & Hle1).
    destruct (IH db1 db' Hscores1 Hrun userId u1 Hu1) as (u' & Hu' & Hle').
    exists u'. split; [done | lia].
Qed.

Lemma exampleStore_scores : scoresNonNegative exampleStore.
Proof.
  intros prId pr score Hpr Hscore. unfold exampleStore in Hpr. cbn in Hpr.
  apply lookup_insert_Some in Hpr as [[_ <-] | [_ Hpr]].
  { cbn in Hscore. injection Hscore as <-. cbn. lia. }
  apply lookup_insert_Some in Hpr as [[_ <-] | [_ Hpr]].
  { cbn in Hscore. injection Hscore as <-. cbn. lia. }
  apply lookup_singleton_Some in Hpr as [_ <-].
  cbn in Hscore. injection Hscore as <-. cbn. lia.
Qed.

Lemma points_never_decrease_witness :
  exists u',
    users (exec (runAward (ReviewAward "1" "302" "COMMENTED"))
                (exec (runAward (MergeAward "300")) exampleStore)) !! "1" = Some u' /\
    user_points alice <= user_points u'.
Proof.
  apply (points_never_decrease [MergeAward "300"; ReviewAward "1" "302" "COMMENTED"]
           exampleStore
           (exec (runAward (ReviewAward "1" "302" "COMMENTED"))
                 (exec (runAward (MergeAward "300")) exampleStore))
           exampleStore_scores eq_refl "1" alice eq_refl).
Defined.

(** ** Comments *)

Lemma penalised_bounds (s : Q) :
  (0 <= s)%Q ->
  (0 <= penalised s)%Q /\ (penalised s <= s)%Q /\
  ((1 # 2 <= s)%Q -> (penalised s == s - (1 # 2))%Q) /\
  ((s <= 1 # 2)%Q -> (penalised s == 0)%Q).
Proof.
  intros Hs. unfold penalised.
  destruct (Qle_bool 0 (s - (1 # 2))) eqn:Hle.
  - apply Qle_bool_iff in Hle. repeat split; intros; lra.
  - assert (~ (0 <= s - (1 # 2))%Q) as Hlt.
    { intros H. apply Qle_bool_iff in H. congruence. }
    repeat split; intros; lra.
Qed.

Section SentimentProperties.

Variable analyzeSentiment : string -> Outcome Q.
Variable isOffensiveContent : string -> Outcome bool.

(** X29: an offensive comment is stored with a lowered score.  For a
    stored pull request and an existing author, when the sentiment
    capability returns a score between 0 and 1 (where subtracting one half
    is exact on floats, or gives a negative number that the maximum with 0
    discards), [storeComment] returns normally and stores the comment
    whether or not it is flagged offensive; the score it stores and
    returns is the capability's score for an inoffensive comment and that
    score less one half, floored at 0, for an offensive one, so it stays
    between 0 and the capability's score; an existing comment keeps its
    pull request and its author; the core store is not touched. *)
Theorem storeComment_score :
  forall (now : Z) (comment : CommentData) (prId authorId : string) (w : World)
         (s : Q) (offensive : bool),
    is_Some (pullRequests (store w) !! prId) ->
    is_Some (users (store w) !! authorId) ->
    analyzeSentiment (bodyOrEmpty (commentData_body comment)) = Ok s ->
    isOffensiveContent (bodyOrEmpty (commentData_body comment)) = Ok offensive ->
    (0 <= s <= 1)%Q ->
    let run := storeComment analyzeSentiment isOffensiveContent now comment prId
                 authorId w in
    exists adjusted row,
      fst run = Ok adjusted /\
      comments (snd run) !! Js.toString (commentData_id comment) = Some row /\
      comment_sentimentScore row = adjusted /\
      comment_body row = bodyOrEmpty (commentData_body comment) /\
      (0 <= adjusted)%Q /\ (adjusted <= s)%Q /\
      (offensive = false -> adjusted = s) /\
      (offensive = true -> (1 # 2 <= s)%Q -> (adjusted == s - (1 # 2))%Q) /\
      (offensive = true -> (s <= 1 # 2)%Q -> (adjusted == 0)%Q) /\
      (forall old,
         comments w !! Js.toString (commentData_id comment) = Some old ->
         comment_pullRequestId row = comment_pullRequestId old /\
         comment_authorId row = comment_authorId old) /\
      store (snd run) = store w.
Proof.
  intros now comment prId authorId w s offensive _ _ Hs Hoff [Hs0 Hs1] run. subst run.
  unfold storeComment. unfold_task. rewrite Hs, Hoff. cbn.
  destruct (penalised_bounds s Hs0) as (Hp0 & Hps & Hhigh & Hlow).
  destruct offensive; cbn; rewrite ?lookup_insert_eq; cbn;
    eexists _, _; (split; [reflexivity|]); cbn;
    (split; [first [apply lookup_insert_eq | reflexivity]|]);
    destruct (comments w !! _) as [old|]; cbn;
    repeat split; try done; try lra; intros; simplify_eq; done.
Qed.

End SentimentProperties.

Lemma storeComment_score_witness :
  exists adjusted,
    fst (storeComment (fun _ => Ok (7 # 10)%Q) (fun _ => Ok true) 1700000000000
           (mkCommentData 5001 (Some "this is terrible") 1690000000000 None)
           "300" "2" exampleWorld) = Ok adjusted /\
    (adjusted == 2 # 10)%Q.
Proof.
  assert (Hrange : (0 <= 7 # 10 <= 1)%Q) by (split; discriminate).
  assert (Hpr : is_Some (pullRequests exampleStore !! "300")) by (eexists; reflexivity).
  assert (Hu : is_Some (users exampleStore !! "2")) by (eexists; reflexivity).
  destruct (storeComment_score (fun _ => Ok (7 # 10)%Q) (fun _ => Ok true) 1700000000000
              (mkCommentData 5001 (Some "this is terrible") 1690000000000 None)
              "300" "2" exampleWorld (7 # 10)%Q true Hpr Hu eq_refl eq_refl Hrange)
    as (adjusted & row & Hok & _ & _ & _ & _ & _ & _ & Hhigh & _).
  exists adjusted. split; [exact Hok|].
  rewrite (Hhigh eq_refl) by discriminate. reflexivity.
Defined.
